(** * InsightEngine.DataGenerator: synthetic CSV generators

    A shallow embedding of the Python generators found in
    [tools/InsightEngine.DataGenerator] and of the orchestrator
    [generate_all.py], followed by the properties that the design document
    states about them.

    Conventions of the embedding.
    - A Python [int] is a [Z]; a Python [float] is idealised as an exact
      rational [Q] (binary64 rounding error is not modelled; [round(x, n)]
      is round-half-to-even on the exact value, as CPython does).  The
      properties below that involve floats are therefore either bounds,
      which rounding to nearest preserves, or equalities between values
      that the program computes by one and the same expression; none
      says that two different float expressions agree.
    - A row (a [dict] literal with string keys) is an association list in
      insertion order.
    - The three sources of randomness (numpy's global generator, the
      [random] module and the Faker provider) are modelled by an oracle:
      iteration [i] of a generator loop receives a record holding the
      value each sampler call of that iteration returns.  The samplers'
      contracts (a log-normal sample is positive, a beta sample lies in
      [0, 1], [randint(a, b)] lies in [a, b], ...) are the [valid]
      predicates.
    - Exceptions are values of [exn]; code that can raise returns a
      [result]; console, file-system and exit status are an explicit
      [world]. *)

From Stdlib Require Import ZArith QArith Qround Qabs List String Ascii Bool Lia Lqa.
From Stdlib Require Import Decimal DecimalString DecimalN DecimalZ FinFun.
Import ListNotations.

Local Open Scope string_scope.
Local Open Scope Z_scope.

(** ** Python values and arithmetic *)

Module Py.

(** Exceptions that the modelled code can raise. [ModuleNotFoundError]
    is a subclass of [ImportError]; [SystemExit] is not an [Exception]. *)
Inductive exn : Type :=
| ZeroDivisionError (msg : string)
| ModuleNotFoundError (msg : string)
| ImportError (msg : string)
| OSError (msg : string)
| SystemExit (code : Z).

Inductive result (A : Type) : Type :=
| Ok (a : A)
| Raise (e : exn).
Arguments Ok {A} a.
Arguments Raise {A} e.

Definition bind {A B} (m : result A) (f : A -> result B) : result B :=
  match m with
  | Ok a => f a
  | Raise e => Raise e
  end.

Definition is_ImportError (e : exn) : bool :=
  match e with
  | ModuleNotFoundError _ | ImportError _ => true
  | _ => false
  end.

Definition is_Exception (e : exn) : bool :=
  match e with
  | SystemExit _ => false
  | _ => true
  end.

(** [int] and [float], with Python's coercion of mixed operands.  The
    float operations are exact on the rationals; they do not round to
    binary64. *)
Inductive num : Type :=
| PyInt (z : Z)
| PyFloat (q : Q).

Definition to_float (a : num) : Q :=
  match a with
  | PyInt z => inject_Z z
  | PyFloat q => q
  end.

Definition add (a b : num) : num :=
  match a, b with
  | PyInt x, PyInt y => PyInt (x + y)
  | _, _ => PyFloat (to_float a + to_float b)
  end.

Definition sub (a b : num) : num :=
  match a, b with
  | PyInt x, PyInt y => PyInt (x - y)
  | _, _ => PyFloat (to_float a - to_float b)
  end.

Definition mul (a b : num) : num :=
  match a, b with
  | PyInt x, PyInt y => PyInt (x * y)
  | _, _ => PyFloat (to_float a * to_float b)
  end.

(** [a / b]: true division, always a float, raising on a zero divisor. *)
Definition truediv (a b : num) : result num :=
  if Qeq_bool (to_float b) 0 then
    Raise (ZeroDivisionError
             match a, b with
             | PyInt _, PyInt _ => "division by zero"
             | _, _ => "float division by zero"
             end)
  else Ok (PyFloat (to_float a / to_float b)).

Definition gt (a b : num) : bool := negb (Qle_bool (to_float a) (to_float b)).

(** [int(x)] on a float truncates toward zero. *)
Definition int (q : Q) : Z := Z.quot (Qnum q) (Zpos (Qden q)).

Definition round_half_even (q : Q) : Z :=
  let f := Qfloor q in
  match Qcompare (q - inject_Z f) (1 # 2) with
  | Lt => f
  | Gt => f + 1
  | Eq => if Z.even f then f else f + 1
  end.

Fixpoint pow10 (ndigits : nat) : positive :=
  match ndigits with
  | O => 1
  | S k => 10 * pow10 k
  end.

(** [round(x, ndigits)] for a float [x]. *)
Definition round_float (q : Q) (ndigits : nat) : Q :=
  round_half_even (q * inject_Z (Zpos (pow10 ndigits))) # pow10 ndigits.

(** [round(x, ndigits)]: an [int] is returned unchanged (for
    [ndigits >= 0]), a float is rounded to a float. *)
Definition round (a : num) (ndigits : nat) : num :=
  match a with
  | PyInt z => PyInt z
  | PyFloat q => PyFloat (round_float q ndigits)
  end.

Definition max (a b : Z) : Z := if b >? a then b else a.

(** Values stored in a row. *)
Inductive value : Type :=
| VNone
| VBool (b : bool)
| VNum (n : num)
| VStr (s : string).

Definition row : Type := list (string * value).

Fixpoint get (k : string) (r : row) : option value :=
  match r with
  | [] => None
  | (k', v) :: r' => if String.eqb k k' then Some v else get k r'
  end.

Definition keys (r : row) : list string := map fst r.

(** *** Text *)

Definition str_nat (n : N) : string := NilEmpty.string_of_uint (N.to_uint n).

(** [str(z)] for an [int]. *)
Definition str (z : Z) : string :=
  if z <? 0 then "-" ++ str_nat (Z.abs_N z) else str_nat (Z.to_N z).

Fixpoint zeros (n : nat) : string :=
  match n with
  | O => ""
  | S k => String "0" (zeros k)
  end.

Definition zfill (width : nat) (s : string) : string :=
  zeros (width - String.length s) ++ s.

(** The format specification [{z:0Wd}]: sign first, then zeros up to a
    minimum total width [W]. *)
Definition format_0d (width : nat) (z : Z) : string :=
  if z <? 0 then "-" ++ zfill (width - 1) (str_nat (Z.abs_N z))
  else zfill width (str_nat (Z.to_N z)).

(** [s[:-1]] *)
Fixpoint drop_last (s : string) : string :=
  match s with
  | EmptyString => EmptyString
  | String c EmptyString => EmptyString
  | String c s' => String c (drop_last s')
  end.

(** [sep.join(parts)] *)
Fixpoint join (sep : string) (parts : list string) : string :=
  match parts with
  | [] => ""
  | [p] => p
  | p :: ps => p ++ sep ++ join sep ps
  end.

End Py.

Notation "x <- m ;; k" := (Py.bind m (fun x => k))
  (at level 61, m at next level, right associativity).

(** ** Samplers

    What the code asks of [numpy.random], [random] and Faker.  A sampler
    applied to the oracle's raw draw is a plain function; the predicates
    below are the ranges in which the libraries return their results. *)

Module Sampling.

Definition Qgtb (a b : Q) : bool := negb (Qle_bool a b).

Fixpoint cumsum (acc : Q) (p : list Q) : list Q :=
  match p with
  | [] => []
  | w :: ws => (acc + w)%Q :: cumsum (acc + w)%Q ws
  end.

(** [cdf.searchsorted(u, side='right')]: how many entries are [<= u]. *)
Fixpoint searchsorted_right (cdf : list Q) (u : Q) : nat :=
  match cdf with
  | [] => O
  | c :: cs => if Qle_bool c u then S (searchsorted_right cs u) else O
  end.

(** [np.random.choice(a, p=p)], given the uniform sample [u] it draws:
    the cumulative weights are normalised by their last entry and the
    sample is located among them. *)
Definition np_choice (a : list string) (p : list Q) (u : Q) : string :=
  let cdf := cumsum 0 p in
  let total := last cdf 1%Q in
  nth (searchsorted_right (map (fun c => (c / total)%Q) cdf) u) a "".

(** [random.uniform(a, b)] is [a + (b - a) * random()]. *)
Definition uniform (a b u : Q) : Q := (a + (b - a) * u)%Q.

(** [random.choice(seq)], given the index it draws. *)
Definition random_choice (seq : list string) (k : nat) : string := nth k seq "".

(** [random.random()] and numpy's uniform sample lie in [0, 1). *)
Definition unit_interval (u : Q) : bool := Qle_bool 0 u && negb (Qle_bool 1 u).

(** [np.random.beta] lies in [0, 1]. *)
Definition beta_range (b : Q) : bool := Qle_bool 0 b && Qle_bool b 1.

(** [np.random.lognormal] is strictly positive. *)
Definition lognormal_range (x : Q) : bool := negb (Qle_bool x 0).

(** [random.randint(a, b)] lies in [a, b]. *)
Definition randint_range (a b r : Z) : bool := (a <=? r) && (r <=? b).

(** [random.sample(population, k)] with [lo <= k <= hi]: [k] members of
    the population. *)
Definition sample_range (population : list string) (lo hi : nat) (l : list string) : bool :=
  Nat.leb lo (List.length l) && Nat.leb (List.length l) hi
  && forallb (fun x => existsb (String.eqb x) population) l.

End Sampling.

(** ** Dates

    A [datetime.date] is its proleptic Gregorian ordinal
    ([date.toordinal()], day 1 is 0001-01-01).  Faker's [date_between]
    returns dates of the last ten years, so the [OverflowError] of date
    arithmetic outside years 1..9999 is out of reach and is not modelled. *)

Module Date.

Definition date : Type := Z.

(** [d + timedelta(days=n)] *)
Definition add_days (d : date) (n : Z) : date := d + n.

(** [d + timedelta(minutes=m)]: a [date] only takes the whole days of
    the difference. *)
Definition add_minutes (d : date) (m : Z) : date := d + m / 1440.

(** Year, month and day of an ordinal. *)
Definition civil (d : date) : Z * Z * Z :=
  let z := d + 305 in
  let era := z / 146097 in
  let doe := z - era * 146097 in
  let yoe := (doe - doe / 1460 + doe / 36524 - doe / 146096) / 365 in
  let doy := doe - (365 * yoe + yoe / 4 - yoe / 100) in
  let mp := (5 * doy + 2) / 153 in
  let day := doy - (153 * mp + 2) / 5 + 1 in
  let month := if mp <? 10 then mp + 3 else mp - 9 in
  let year := yoe + era * 400 + (if month <=? 2 then 1 else 0) in
  (year, month, day).

Definition year (d : date) : Z := fst (fst (civil d)).
Definition month (d : date) : Z := snd (fst (civil d)).
Definition day (d : date) : Z := snd (civil d).

(** [d.strftime('%Y-%m-%d')] *)
Definition strftime_ymd (d : date) : string :=
  Py.format_0d 4 (year d) ++ "-" ++ Py.format_0d 2 (month d) ++ "-"
    ++ Py.format_0d 2 (day d).

(** [d.strftime('%Y-%m-%d %H:%M')]: a [date] has no time of day. *)
Definition strftime_ymd_hm (d : date) : string := strftime_ymd d ++ " 00:00".

End Date.

(** ** Loops *)

(** [for i in range(n): state = body(i, state)] *)
Definition for_range {S : Type} (n : nat) (body : nat -> S -> S) (init : S) : S :=
  fold_left (fun s i => body i s) (seq 0 n) init.

(** The same loop when the body can raise: the first exception leaves
    the loop. *)
Definition for_range_raising {S : Type} (n : nat)
    (body : nat -> S -> Py.result S) (init : S) : Py.result S :=
  fold_left (fun s i => s' <- s ;; body i s') (seq 0 n) (Py.Ok init).

Import Py Sampling.

(** ** generate_cashflow.py *)

Module Cashflow.

Definition types := ["Entrada"; "Saída"].
Definition type_weights := [45 # 100; 55 # 100]%Q.

Definition categories :=
  ["Vendas"; "Salários"; "Fornecedores"; "Impostos"; "Investimentos";
   "Despesas Operacionais"].
Definition category_weights := [25 # 100; 2 # 10; 15 # 100; 1 # 10; 1 # 10; 2 # 10]%Q.

Definition accounts := ["Conta Corrente"; "Conta Poupança"; "Caixa"; "Investimentos"].
Definition account_weights := [6 # 10; 2 # 10; 15 # 100; 5 # 100]%Q.

Definition currencies := ["BRL"; "USD"; "EUR"].
Definition currency_weights := [95 # 100; 4 # 100; 1 # 100]%Q.

(** What the samplers return during one iteration, in source order. *)
Record draws : Type := {
  transaction_date : Date.date;   (* fake.date_between('-1y', 'today') *)
  type_u : Q;                     (* np.random.choice(types, ...) *)
  value_lognormal : Q;            (* np.random.lognormal(8, 1.2) or (7, 1.5) *)
  descricao : string;             (* fake.sentence(nb_words=4) *)
  categoria_u : Q;
  subcategoria : string;          (* fake.word() *)
  conta_u : Q;
  responsavel : string;           (* fake.name() *)
  comprovante : Z;                (* random.randint(100000, 999999) *)
  centro_custo : string;          (* fake.word() *)
  projeto_gate : Q;               (* random.random() *)
  projeto : string;               (* fake.sentence(nb_words=2) *)
  moeda_u : Q;
  taxa_gate : Q;                  (* random.random() *)
  taxa_u : Q;                     (* random() inside random.uniform(1, 6) *)
  previsao_k : nat;               (* index drawn by random.choice *)
  observacoes_gate : Q;           (* random.random() *)
  observacoes : string            (* fake.sentence() *)
}.

Definition valid (d : draws) : bool :=
  unit_interval d.(type_u) && lognormal_range d.(value_lognormal)
  && unit_interval d.(categoria_u) && unit_interval d.(conta_u)
  && randint_range 100000 999999 d.(comprovante)
  && unit_interval d.(projeto_gate) && unit_interval d.(moeda_u)
  && unit_interval d.(taxa_gate) && unit_interval d.(taxa_u)
  && Nat.ltb d.(previsao_k) 2 && unit_interval d.(observacoes_gate).

(** The body of the loop up to the assignment of [new_balance]. *)
Definition transaction (d : draws) (current_balance : Q) : string * Q * Q :=
  let transaction_type := np_choice types type_weights d.(type_u) in
  if String.eqb transaction_type "Entrada" then
    let value := round_float d.(value_lognormal) 2 in
    (transaction_type, value, (current_balance + value)%Q)
  else
    let value := round_float d.(value_lognormal) 2 in
    (transaction_type, value, (current_balance - value)%Q).

(** One iteration: the row it appends and the balance it leaves. *)
Definition iteration (d : draws) (current_balance : Q) : row * Q :=
  let '(transaction_type, value, new_balance) := transaction d current_balance in
  let row :=
    [ ("Data", VStr (Date.strftime_ymd d.(transaction_date)));
      ("Tipo", VStr transaction_type);
      ("Descricao", VStr (drop_last d.(descricao)));
      ("Valor", VNum (PyFloat value));
      ("Categoria", VStr (np_choice categories category_weights d.(categoria_u)));
      ("Subcategoria", VStr d.(subcategoria));
      ("Conta", VStr (np_choice accounts account_weights d.(conta_u)));
      ("Saldo_Anterior", VNum (PyFloat (round_float current_balance 2)));
      ("Saldo_Apos", VNum (PyFloat (round_float new_balance 2)));
      ("Responsavel", VStr d.(responsavel));
      ("Comprovante", VStr ("COMP" ++ str d.(comprovante)));
      ("Centro_Custo", VStr d.(centro_custo));
      ("Projeto", if Qgtb d.(projeto_gate) (7 # 10)
                  then VStr (drop_last d.(projeto)) else VNone);
      ("Moeda", VStr (np_choice currencies currency_weights d.(moeda_u)));
      ("Taxa_Cambio", if Qgtb d.(taxa_gate) (9 # 10)
                      then VNum (PyFloat (round_float (uniform 1 6 d.(taxa_u)) 4))
                      else VNum (PyFloat 1));
      ("Previsao_Realizado", VStr (random_choice ["Realizado"; "Previsão"] d.(previsao_k)));
      ("Observacoes", if Qgtb d.(observacoes_gate) (8 # 10)
                      then VStr d.(observacoes) else VNone) ] in
  (row, new_balance).

(** The loop: its state is [(current_balance, data)]. *)
Definition loop (num_rows : nat) (oracle : nat -> draws) : Q * list row :=
  for_range num_rows
    (fun i '(current_balance, data) =>
       let '(row, new_balance) := iteration (oracle i) current_balance in
       (new_balance, (data ++ [row])%list))
    (100000%Q, []).

(** The list [data] handed to [pd.DataFrame]. *)
Definition data (num_rows : nat) (oracle : nat -> draws) : list row :=
  snd (loop num_rows oracle).

(** The balance held in [current_balance] when iteration [i] starts. *)
Definition balance (oracle : nat -> draws) (i : nat) : Q := fst (loop i oracle).

End Cashflow.

(** ** generate_ecommerce_sales.py *)

Module Ecommerce.

Definition statuses := ["Concluído"; "Pendente"; "Cancelado"; "Devolvido"].
Definition status_weights := [75 # 100; 15 # 100; 8 # 100; 2 # 100]%Q.

Definition payment_methods := ["Cartão de Crédito"; "Boleto"; "PIX"; "Transferência"].
Definition payment_weights := [5 # 10; 25 # 100; 2 # 10; 5 # 100]%Q.

Definition channels := ["Site"; "App Mobile"; "Marketplace"; "Loja Física"].
Definition channel_weights := [4 # 10; 3 # 10; 2 # 10; 1 # 10]%Q.

Definition categories := ["Eletrônicos"; "Roupas"; "Casa e Jardim"; "Livros"; "Esportes"].
Definition category_weights := [3 # 10; 25 # 100; 2 # 10; 15 # 100; 1 # 10]%Q.

Record draws : Type := {
  order_date : Date.date;         (* fake.date_between('-2y', 'today') *)
  delivery_gate : Q;              (* random.random() *)
  delivery_days : Z;              (* random.randint(1, 15) *)
  quantity_normal : Q;            (* np.random.normal(2, 1.5) *)
  unit_price_normal : Q;          (* np.random.normal(150, 80) *)
  freight_normal : Q;             (* np.random.normal(15, 8) *)
  discount_gate : Q;              (* random.random() *)
  discount_u : Q;                 (* random() inside random.uniform *)
  cliente : Z;                    (* random.randint(1, 10000) *)
  produto : string;               (* fake.sentence(nb_words=3) *)
  status_u : Q;
  pagamento_u : Q;
  canal_u : Q;
  cidade : string;                (* fake.city() *)
  estado : string;                (* fake.state_abbr() *)
  avaliacao_gate : Q;             (* random.random() *)
  avaliacao : Z;                  (* random.randint(1, 5) *)
  motivo_gate : Q;                (* random.random() *)
  motivo : string;                (* fake.sentence() *)
  devolvido_gate : Q;             (* random.random() *)
  devolvido_u : Q;                (* random() inside random.uniform *)
  categoria_u : Q;
  sku : Z                         (* random.randint(10000, 99999) *)
}.

Definition valid (d : draws) : bool :=
  unit_interval d.(delivery_gate) && randint_range 1 15 d.(delivery_days)
  && unit_interval d.(discount_gate) && unit_interval d.(discount_u)
  && randint_range 1 10000 d.(cliente)
  && unit_interval d.(status_u) && unit_interval d.(pagamento_u)
  && unit_interval d.(canal_u)
  && unit_interval d.(avaliacao_gate) && randint_range 1 5 d.(avaliacao)
  && unit_interval d.(motivo_gate)
  && unit_interval d.(devolvido_gate) && unit_interval d.(devolvido_u)
  && unit_interval d.(categoria_u) && randint_range 10000 99999 d.(sku).

(** The row built by iteration [i]. *)
Definition row_of (i : nat) (d : draws) : row :=
  let order_date := d.(order_date) in
  let delivery_date :=
    if Qgtb d.(delivery_gate) (1 # 10)
    then Some (Date.add_days order_date d.(delivery_days)) else None in
  let quantity := Py.max 1 (Py.int d.(quantity_normal)) in
  let unit_price := round_float d.(unit_price_normal) 2 in
  let freight := round_float d.(freight_normal) 2 in
  let discount :=
    if Qgtb d.(discount_gate) (7 # 10)
    then PyFloat (round_float (uniform 0 (unit_price * (3 # 10)) d.(discount_u)) 2)
    else PyInt 0 in
  let total := sub (add (mul (PyInt quantity) (PyFloat unit_price)) (PyFloat freight))
                   discount in
  [ ("ID_Pedido", VStr ("PED" ++ format_0d 6 (Z.of_nat i + 1)));
    ("Data_Pedido", VStr (Date.strftime_ymd order_date));
    ("Cliente_ID", VStr ("CLI" ++ format_0d 5 d.(cliente)));
    ("Produto", VStr (drop_last d.(produto)));
    ("Quantidade", VNum (PyInt quantity));
    ("Preco_Unitario", VNum (PyFloat unit_price));
    ("Total", VNum (round total 2));
    ("Status", VStr (np_choice statuses status_weights d.(status_u)));
    ("Metodo_Pagamento", VStr (np_choice payment_methods payment_weights d.(pagamento_u)));
    ("Frete", VNum (PyFloat freight));
    ("Desconto", VNum discount);
    ("Canal_Venda", VStr (np_choice channels channel_weights d.(canal_u)));
    ("Cidade", VStr d.(cidade));
    ("Estado", VStr d.(estado));
    ("Avaliacao", if Qgtb d.(avaliacao_gate) (3 # 10)
                  then VNum (PyInt d.(avaliacao)) else VNone);
    ("Data_Entrega", match delivery_date with
                     | Some dd => VStr (Date.strftime_ymd dd)
                     | None => VNone
                     end);
    ("Motivo_Cancelamento", if Qgtb d.(motivo_gate) (9 # 10)
                            then VStr d.(motivo) else VNone);
    ("Valor_Devolvido", if Qgtb d.(devolvido_gate) (95 # 100)
                        then VNum (PyFloat (round_float
                               (uniform 0 (to_float total) d.(devolvido_u)) 2))
                        else VNum (PyInt 0));
    ("Categoria_Produto", VStr (np_choice categories category_weights d.(categoria_u)));
    ("SKU", VStr ("SKU" ++ str d.(sku))) ].

Definition data (num_rows : nat) (oracle : nat -> draws) : list row :=
  for_range num_rows (fun i data => (data ++ [row_of i (oracle i)])%list) [].

End Ecommerce.

(** ** generate_hr.py *)

Module HR.

Definition statuses := ["Ativo"; "Demitido"; "Afastado"; "Férias"].
Definition status_weights := [8 # 10; 15 # 100; 3 # 100; 2 # 100]%Q.

Definition departments := ["Vendas"; "TI"; "RH"; "Financeiro"; "Operações"].
Definition dept_weights := [25 # 100; 2 # 10; 1 # 10; 15 # 100; 3 # 10]%Q.

Definition genders := ["Masculino"; "Feminino"; "Outro"].
Definition gender_weights := [48 # 100; 5 # 10; 2 # 100]%Q.

Definition education_levels :=
  ["Ensino Fundamental"; "Ensino Médio"; "Superior"; "Pós-graduação"].
Definition education_weights := [1 # 10; 4 # 10; 4 # 10; 1 # 10]%Q.

Definition benefits :=
  ["Vale Alimentação"; "Plano de Saúde"; "Vale Transporte"; "Seguro de Vida"].

Record draws : Type := {
  admission_date : Date.date;     (* fake.date_between('-10y', 'today') *)
  age : Z;                        (* random.randint(18, 65) *)
  salary_lognormal : Q;           (* np.random.lognormal(9, 0.8) *)
  nome : string;                  (* fake.name() *)
  cpf : string;                   (* fake.cpf() *)
  cargo : string;                 (* fake.job() *)
  departamento_u : Q;
  status_u : Q;
  demissao_gate : Q;              (* random.random() *)
  demissao_days : Z;              (* random.randint(365, 3650) *)
  genero_u : Q;
  escolaridade_u : Q;
  estado_civil_k : nat;           (* index drawn by random.choice *)
  dependentes : Z;                (* random.randint(0, 5) *)
  horas_gate : Q;                 (* random.random() *)
  horas : Z;                      (* random.randint(0, 40) *)
  faltas : Z;                     (* random.randint(0, 30) *)
  avaliacao_u : Q;                (* random() inside random.uniform(1, 5) *)
  beneficios : list string;       (* random.sample(benefits, randint(1, 4)) *)
  cidade : string;
  estado : string
}.

Definition valid (d : draws) : bool :=
  randint_range 18 65 d.(age) && lognormal_range d.(salary_lognormal)
  && unit_interval d.(departamento_u) && unit_interval d.(status_u)
  && unit_interval d.(demissao_gate) && randint_range 365 3650 d.(demissao_days)
  && unit_interval d.(genero_u) && unit_interval d.(escolaridade_u)
  && Nat.ltb d.(estado_civil_k) 4 && randint_range 0 5 d.(dependentes)
  && unit_interval d.(horas_gate) && randint_range 0 40 d.(horas)
  && randint_range 0 30 d.(faltas) && unit_interval d.(avaliacao_u)
  && sample_range benefits 1 4 d.(beneficios).

Definition row_of (i : nat) (d : draws) : row :=
  let admission_date := d.(admission_date) in
  let age := d.(age) in
  let salary := round_float d.(salary_lognormal) 2 in
  [ ("ID_Funcionario", VStr ("FUN" ++ format_0d 5 (Z.of_nat i + 1)));
    ("Nome", VStr d.(nome));
    ("CPF", VStr d.(cpf));
    ("Data_Admissao", VStr (Date.strftime_ymd admission_date));
    ("Cargo", VStr d.(cargo));
    ("Salario", VNum (PyFloat salary));
    ("Departamento", VStr (np_choice departments dept_weights d.(departamento_u)));
    ("Status", VStr (np_choice statuses status_weights d.(status_u)));
    ("Data_Demissao",
      if Qgtb d.(demissao_gate) (8 # 10)
      then VStr (Date.strftime_ymd (Date.add_days admission_date d.(demissao_days)))
      else VNone);
    ("Idade", VNum (PyInt age));
    ("Genero", VStr (np_choice genders gender_weights d.(genero_u)));
    ("Escolaridade", VStr (np_choice education_levels education_weights d.(escolaridade_u)));
    ("Estado_Civil",
      VStr (random_choice ["Solteiro"; "Casado"; "Divorciado"; "Viúvo"] d.(estado_civil_k)));
    ("Dependentes", VNum (PyInt d.(dependentes)));
    ("Horas_Extras", if Qgtb d.(horas_gate) (6 # 10)
                     then VNum (PyInt d.(horas)) else VNum (PyInt 0));
    ("Faltas", VNum (PyInt d.(faltas)));
    ("Avaliacao", VNum (PyFloat (round_float (uniform 1 5 d.(avaliacao_u)) 1)));
    ("Beneficios", VStr (join ", " d.(beneficios)));
    ("Cidade", VStr d.(cidade));
    ("Estado", VStr d.(estado)) ].

Definition data (num_rows : nat) (oracle : nat -> draws) : list row :=
  for_range num_rows (fun i data => (data ++ [row_of i (oracle i)])%list) [].

End HR.

(** ** generate_logistics.py *)

Module Logistics.

Definition carriers := ["Correios"; "FedEx"; "DHL"; "Transportadora XYZ"; "Jadlog"].
Definition carrier_weights := [4 # 10; 2 # 10; 15 # 100; 15 # 100; 1 # 10]%Q.

Definition statuses := ["Entregue"; "Em Trânsito"; "Atrasado"; "Extraviado"; "Devolvido"].
Definition status_weights := [7 # 10; 2 # 10; 5 # 100; 3 # 100; 2 # 100]%Q.

Record draws : Type := {
  departure_date : Date.date;     (* fake.date_between('-6m', 'today') *)
  expected_days : Z;              (* random.randint(1, 10) *)
  actual_gate : Q;                (* random.random() *)
  actual_days : Z;                (* random.randint(-2, 5) *)
  pedido : Z;                     (* random.randint(1, 10000) *)
  transportadora_u : Q;
  status_u : Q;
  peso_normal : Q;                (* np.random.normal(5, 3) *)
  volume_normal : Q;              (* np.random.normal(0.05, 0.03) *)
  frete_normal : Q;               (* np.random.normal(25, 15) *)
  destinatario : string;          (* fake.name() *)
  endereco : string;              (* fake.street_address() *)
  cidade : string;
  estado : string;
  cep : string;                   (* fake.postcode() *)
  rastreamento : Z;               (* random.randint(100000000, 999999999) *)
  motivo_gate : Q;                (* random.random() *)
  motivo : string;                (* fake.sentence() *)
  tentativas : Z;                 (* random.randint(1, 3) *)
  responsavel : string
}.

Definition valid (d : draws) : bool :=
  randint_range 1 10 d.(expected_days) && unit_interval d.(actual_gate)
  && randint_range (-2) 5 d.(actual_days) && randint_range 1 10000 d.(pedido)
  && unit_interval d.(transportadora_u) && unit_interval d.(status_u)
  && randint_range 100000000 999999999 d.(rastreamento)
  && unit_interval d.(motivo_gate) && randint_range 1 3 d.(tentativas).

Definition row_of (i : nat) (d : draws) : row :=
  let departure_date := d.(departure_date) in
  let expected_date := Date.add_days departure_date d.(expected_days) in
  let actual_date :=
    if Qgtb d.(actual_gate) (1 # 10)
    then Some (Date.add_days expected_date d.(actual_days)) else None in
  [ ("ID_Entrega", VStr ("ENT" ++ format_0d 6 (Z.of_nat i + 1)));
    ("Pedido_ID", VStr ("PED" ++ format_0d 6 d.(pedido)));
    ("Transportadora", VStr (np_choice carriers carrier_weights d.(transportadora_u)));
    ("Data_Saida", VStr (Date.strftime_ymd departure_date));
    ("Data_Prevista", VStr (Date.strftime_ymd expected_date));
    ("Data_Entrega", match actual_date with
                     | Some a => VStr (Date.strftime_ymd a)
                     | None => VNone
                     end);
    ("Status", VStr (np_choice statuses status_weights d.(status_u)));
    ("Peso_Kg", VNum (PyFloat (round_float d.(peso_normal) 2)));
    ("Volume_M3", VNum (PyFloat (round_float d.(volume_normal) 3)));
    ("Valor_Frete", VNum (PyFloat (round_float d.(frete_normal) 2)));
    ("Destinatario", VStr d.(destinatario));
    ("Endereco", VStr d.(endereco));
    ("Cidade", VStr d.(cidade));
    ("Estado", VStr d.(estado));
    ("CEP", VStr d.(cep));
    ("Rastreamento", VStr ("BR" ++ str d.(rastreamento)));
    ("Motivo_Atraso", if Qgtb d.(motivo_gate) (85 # 100)
                      then VStr d.(motivo) else VNone);
    ("Tentativas_Entrega", VNum (PyInt d.(tentativas)));
    ("Responsavel", VStr d.(responsavel)) ].

Definition data (num_rows : nat) (oracle : nat -> draws) : list row :=
  for_range num_rows (fun i data => (data ++ [row_of i (oracle i)])%list) [].

End Logistics.

(** ** generate_marketing.py *)

Module Marketing.

Definition channels := ["Google Ads"; "Facebook"; "Instagram"; "LinkedIn"; "Email Marketing"].
Definition channel_weights := [3 # 10; 25 # 100; 2 # 10; 15 # 100; 1 # 10]%Q.

Definition statuses := ["Ativa"; "Pausada"; "Finalizada"; "Cancelada"].
Definition status_weights := [4 # 10; 2 # 10; 35 # 100; 5 # 100]%Q.

Definition segments := ["18-24"; "25-34"; "35-44"; "45-54"; "55+"].
Definition segment_weights := [2 # 10; 3 # 10; 25 # 100; 15 # 100; 1 # 10]%Q.

Record draws : Type := {
  start_date : Date.date;         (* fake.date_between('-1y', 'today') *)
  end_days : Z;                   (* random.randint(7, 90) *)
  investment_lognormal : Q;       (* np.random.lognormal(7, 1.2) *)
  impressions_lognormal : Q;      (* np.random.lognormal(12, 1.5) *)
  clicks_beta : Q;                (* np.random.beta(2, 20) *)
  conversions_beta : Q;           (* np.random.beta(1, 10) *)
  nome : string;                  (* fake.sentence(nb_words=4) *)
  canal_u : Q;
  publico : Z;                    (* random.randint(10000, 100000) *)
  segmento_u : Q;
  status_u : Q;
  responsavel : string;           (* fake.name() *)
  objetivo_k : nat;               (* index drawn by random.choice *)
  engajamento : Z;                (* random.randint(1, 20) *)
  bounce : Z                      (* random.randint(30, 80) *)
}.

Definition valid (d : draws) : bool :=
  randint_range 7 90 d.(end_days)
  && lognormal_range d.(investment_lognormal)
  && lognormal_range d.(impressions_lognormal)
  && beta_range d.(clicks_beta) && beta_range d.(conversions_beta)
  && unit_interval d.(canal_u) && randint_range 10000 100000 d.(publico)
  && unit_interval d.(segmento_u) && unit_interval d.(status_u)
  && Nat.ltb d.(objetivo_k) 4
  && randint_range 1 20 d.(engajamento) && randint_range 30 80 d.(bounce).

Definition investment (d : draws) : Q := round_float d.(investment_lognormal) 2.
Definition impressions (d : draws) : Z := Py.int d.(impressions_lognormal).
Definition clicks (d : draws) : Z :=
  Py.int (inject_Z (impressions d) * d.(clicks_beta))%Q.
Definition conversions (d : draws) : Z :=
  Py.int (inject_Z (clicks d) * d.(conversions_beta))%Q.

(** [ctr = (clicks / impressions) * 100 if impressions > 0 else 0] *)
Definition ctr (d : draws) : result num :=
  if impressions d >? 0 then
    q <- truediv (PyInt (clicks d)) (PyInt (impressions d)) ;;
    Ok (mul q (PyInt 100))
  else Ok (PyInt 0).

(** [cpc = investment / clicks if clicks > 0 else 0] *)
Definition cpc (d : draws) : result num :=
  if clicks d >? 0 then truediv (PyFloat (investment d)) (PyInt (clicks d))
  else Ok (PyInt 0).

(** [cpa = investment / conversions if conversions > 0 else 0] *)
Definition cpa (d : draws) : result num :=
  if conversions d >? 0 then truediv (PyFloat (investment d)) (PyInt (conversions d))
  else Ok (PyInt 0).

(** [roi = (conversions * 50 - investment) / investment * 100] *)
Definition roi (d : draws) : result num :=
  q <- truediv (sub (mul (PyInt (conversions d)) (PyInt 50)) (PyFloat (investment d)))
               (PyFloat (investment d)) ;;
  Ok (mul q (PyInt 100)).

Definition row_of (i : nat) (d : draws) : result row :=
  let start_date := d.(start_date) in
  let end_date := Date.add_days start_date d.(end_days) in
  ctr <- ctr d ;;
  cpc <- cpc d ;;
  cpa <- cpa d ;;
  roi <- roi d ;;
  Ok [ ("ID_Campanha", VStr ("CAMP" ++ format_0d 5 (Z.of_nat i + 1)));
       ("Nome_Campanha", VStr (drop_last d.(nome)));
       ("Data_Inicio", VStr (Date.strftime_ymd start_date));
       ("Data_Fim", VStr (Date.strftime_ymd end_date));
       ("Canal", VStr (np_choice channels channel_weights d.(canal_u)));
       ("Investimento", VNum (PyFloat (investment d)));
       ("Impressoes", VNum (PyInt (impressions d)));
       ("Cliques", VNum (PyInt (clicks d)));
       ("Conversoes", VNum (PyInt (conversions d)));
       ("CTR", VNum (round ctr 2));
       ("CPC", VNum (round cpc 2));
       ("CPA", VNum (round cpa 2));
       ("ROI", VNum (round roi 2));
       ("Publico_Alvo", VStr (str d.(publico) ++ " pessoas"));
       ("Segmento", VStr (np_choice segments segment_weights d.(segmento_u)));
       ("Status", VStr (np_choice statuses status_weights d.(status_u)));
       ("Responsavel", VStr d.(responsavel));
       ("Objetivo",
         VStr (random_choice
                 ["Aumento Vendas"; "Geração Leads"; "Brand Awareness"; "Retenção"]
                 d.(objetivo_k)));
       ("Metricas_Adicionais",
         VStr ("Engajamento: " ++ str d.(engajamento) ++ "%, Bounce Rate: "
                 ++ str d.(bounce) ++ "%")) ].

Definition data (num_rows : nat) (oracle : nat -> draws) : result (list row) :=
  for_range_raising num_rows
    (fun i data => row <- row_of i (oracle i) ;; Ok (data ++ [row])%list) [].

End Marketing.

(** ** generate_production.py *)

Module Production.

Definition machines :=
  ["Máquina A"; "Máquina B"; "Máquina C"; "Linha Automática 1"; "Linha Automática 2"].
Definition machine_weights := [2 # 10; 2 # 10; 2 # 10; 2 # 10; 2 # 10]%Q.

Definition statuses := ["Concluída"; "Em Andamento"; "Parada"; "Cancelada"].
Definition status_weights := [6 # 10; 3 # 10; 8 # 100; 2 # 100]%Q.

Definition shifts := ["Manhã"; "Tarde"; "Noite"].
Definition shift_weights := [4 # 10; 35 # 100; 25 # 100]%Q.

Record draws : Type := {
  start_date : Date.date;         (* fake.date_between('-6m', 'today') *)
  planned : Z;                    (* random.randint(100, 10000) *)
  produced_beta : Q;              (* np.random.beta(8, 2) *)
  production_time : Z;            (* random.randint(1, 480) *)
  produto : string;               (* fake.sentence(nb_words=3) *)
  maquina_u : Q;
  operador : string;              (* fake.name() *)
  defeitos : Z;                   (* random.randint(0, int(produced_qty * 0.05)) *)
  materia_lognormal : Q;          (* np.random.lognormal(8, 1) *)
  mao_obra_lognormal : Q;         (* np.random.lognormal(7, 0.8) *)
  status_u : Q;
  linha : Z;                      (* random.randint(1, 10) *)
  turno_u : Q;
  qualidade_k : nat;              (* index drawn by random.choice *)
  observacoes_gate : Q;           (* random.random() *)
  observacoes : string            (* fake.sentence() *)
}.

Definition planned_qty (d : draws) : Z := d.(planned).
Definition produced_qty (d : draws) : Z :=
  Py.int (inject_Z (planned_qty d) * d.(produced_beta))%Q.

Definition valid (d : draws) : bool :=
  randint_range 100 10000 d.(planned) && beta_range d.(produced_beta)
  && randint_range 1 480 d.(production_time) && unit_interval d.(maquina_u)
  && randint_range 0 (Py.int (inject_Z (produced_qty d) * (5 # 100))%Q) d.(defeitos)
  && lognormal_range d.(materia_lognormal) && lognormal_range d.(mao_obra_lognormal)
  && unit_interval d.(status_u) && randint_range 1 10 d.(linha)
  && unit_interval d.(turno_u) && Nat.ltb d.(qualidade_k) 4
  && unit_interval d.(observacoes_gate).

(** [efficiency = (produced_qty / planned_qty) * 100] *)
Definition efficiency (d : draws) : result num :=
  q <- truediv (PyInt (produced_qty d)) (PyInt (planned_qty d)) ;;
  Ok (mul q (PyInt 100)).

Definition row_of (i : nat) (d : draws) : result row :=
  let start_date := d.(start_date) in
  let production_time := d.(production_time) in
  efficiency <- efficiency d ;;
  Ok [ ("ID_Ordem", VStr ("ORD" ++ format_0d 6 (Z.of_nat i + 1)));
       ("Produto", VStr (drop_last d.(produto)));
       ("Quantidade_Planejada", VNum (PyInt (planned_qty d)));
       ("Quantidade_Produzida", VNum (PyInt (produced_qty d)));
       ("Data_Inicio", VStr (Date.strftime_ymd_hm start_date));
       ("Data_Fim", VStr (Date.strftime_ymd_hm (Date.add_minutes start_date production_time)));
       ("Maquina", VStr (np_choice machines machine_weights d.(maquina_u)));
       ("Operador", VStr d.(operador));
       ("Tempo_Producao_Min", VNum (PyInt production_time));
       ("Eficiencia", VNum (round efficiency 2));
       ("Defeitos", VNum (PyInt d.(defeitos)));
       ("Custo_Materia_Prima", VNum (PyFloat (round_float d.(materia_lognormal) 2)));
       ("Custo_Mao_Obra", VNum (PyFloat (round_float d.(mao_obra_lognormal) 2)));
       ("Status", VStr (np_choice statuses status_weights d.(status_u)));
       ("Linha_Producao", VStr ("Linha " ++ str d.(linha)));
       ("Turno", VStr (np_choice shifts shift_weights d.(turno_u)));
       ("Qualidade", VStr (random_choice ["A"; "B"; "C"; "D"] d.(qualidade_k)));
       ("Observacoes", if Qgtb d.(observacoes_gate) (8 # 10)
                       then VStr d.(observacoes) else VNone) ].

Definition data (num_rows : nat) (oracle : nat -> draws) : result (list row) :=
  for_range_raising num_rows
    (fun i data => row <- row_of i (oracle i) ;; Ok (data ++ [row])%list) [].

End Production.

(** ** generate_inventory.py *)

Module Inventory.

Definition categories := ["Eletrônicos"; "Roupas"; "Alimentos"; "Ferramentas"; "Móveis"].
Definition category_weights := [25 # 100; 2 # 10; 2 # 10; 15 # 100; 2 # 10]%Q.

Definition movement_types := ["Entrada"; "Saída"; "Ajuste"; "Transferência"].
Definition movement_weights := [3 # 10; 5 # 10; 15 # 100; 5 # 100]%Q.

Definition statuses := ["Disponível"; "Reservado"; "Danificado"; "Vencido"].
Definition status_weights := [8 # 10; 1 # 10; 5 # 100; 5 # 100]%Q.

Record draws : Type := {
  movement_date : Date.date;      (* fake.date_between('-1y', 'today') *)
  unit_value_lognormal : Q;       (* np.random.lognormal(5, 1.5) *)
  qty_moved : Z;                  (* random.randint(1, 500) *)
  current_stock : Z;              (* random.randint(0, 10000) *)
  sku : Z;                        (* random.randint(10000, 99999) *)
  nome : string;                  (* fake.sentence(nb_words=3) *)
  categoria_u : Q;
  fornecedor : string;            (* fake.company() *)
  armazem : Z;                    (* random.randint(1, 10) *)
  prateleira : Z;                 (* random.randint(1, 100) *)
  tipo_u : Q;
  motivo : string;                (* fake.sentence(nb_words=4) *)
  responsavel : string;           (* fake.name() *)
  vencimento_gate : Q;            (* random.random() *)
  vencimento_days : Z;            (* random.randint(30, 365*2) *)
  lote : Z;                       (* random.randint(1000, 9999) *)
  status_u : Q
}.

Definition valid (d : draws) : bool :=
  lognormal_range d.(unit_value_lognormal) && randint_range 1 500 d.(qty_moved)
  && randint_range 0 10000 d.(current_stock) && randint_range 10000 99999 d.(sku)
  && unit_interval d.(categoria_u) && randint_range 1 10 d.(armazem)
  && randint_range 1 100 d.(prateleira) && unit_interval d.(tipo_u)
  && unit_interval d.(vencimento_gate) && randint_range 30 730 d.(vencimento_days)
  && randint_range 1000 9999 d.(lote) && unit_interval d.(status_u).

Definition row_of (i : nat) (d : draws) : row :=
  let movement_date := d.(movement_date) in
  let unit_value := round_float d.(unit_value_lognormal) 2 in
  let qty_moved := d.(qty_moved) in
  let current_stock := d.(current_stock) in
  [ ("SKU", VStr ("SKU" ++ str d.(sku)));
    ("Nome_Produto", VStr (drop_last d.(nome)));
    ("Categoria", VStr (np_choice categories category_weights d.(categoria_u)));
    ("Fornecedor", VStr d.(fornecedor));
    ("Quantidade_Estoque", VNum (PyInt current_stock));
    ("Valor_Unitario", VNum (PyFloat unit_value));
    ("Valor_Total", VNum (round (mul (PyInt current_stock) (PyFloat unit_value)) 2));
    ("Localizacao",
      VStr ("Armazém " ++ str d.(armazem) ++ " - Prateleira " ++ str d.(prateleira)));
    ("Data_Ultima_Movimentacao", VStr (Date.strftime_ymd movement_date));
    ("Tipo_Movimentacao", VStr (np_choice movement_types movement_weights d.(tipo_u)));
    ("Quantidade_Movimentada", VNum (PyInt qty_moved));
    ("Saldo_Apos_Movimentacao", VNum (PyInt current_stock));
    ("Motivo", VStr (drop_last d.(motivo)));
    ("Responsavel", VStr d.(responsavel));
    ("Data_Vencimento",
      if Qgtb d.(vencimento_gate) (7 # 10)
      then VStr (Date.strftime_ymd (Date.add_days movement_date d.(vencimento_days)))
      else VNone);
    ("Lote", VStr ("LOTE" ++ str d.(lote)));
    ("Status", VStr (np_choice statuses status_weights d.(status_u))) ].

Definition data (num_rows : nat) (oracle : nat -> draws) : list row :=
  for_range num_rows (fun i data => (data ++ [row_of i (oracle i)])%list) [].

End Inventory.

(** ** generate_customers.py *)

Module Customers.

Definition genders := ["Masculino"; "Feminino"; "Outro"].
Definition gender_weights := [48 # 100; 5 # 10; 2 # 100]%Q.

Definition statuses := ["Ativo"; "Inativo"; "Bloqueado"; "VIP"].
Definition status_weights := [7 # 10; 25 # 100; 3 # 100; 2 # 100]%Q.

Definition channels :=
  ["Site"; "Indicação"; "Redes Sociais"; "Email Marketing"; "Busca Orgânica"].
Definition channel_weights := [3 # 10; 2 # 10; 2 # 10; 15 # 100; 15 # 100]%Q.

Definition preferences := ["Eletrônicos"; "Roupas"; "Casa"; "Esportes"; "Livros"].

Record draws : Type := {
  registration_date : Date.date;  (* fake.date_between('-5y', 'today') *)
  last_gate : Q;                  (* random.random() *)
  last_days : Z;                  (* random.randint(0, 365*2) *)
  total_lognormal : Q;            (* np.random.lognormal(7, 1.5) *)
  orders : Z;                     (* random.randint(1, 50) *)
  nome : string;                  (* fake.name() *)
  cpf_gate : Q;                   (* random.random() *)
  cpf : string;                   (* fake.cpf() *)
  cnpj : string;                  (* fake.cnpj() *)
  email : string;                 (* fake.email() *)
  telefone : string;              (* fake.phone_number() *)
  cidade : string;
  estado : string;
  cep : string;                   (* fake.postcode() *)
  idade : Z;                      (* random.randint(18, 80) *)
  genero_u : Q;
  renda_lognormal : Q;            (* np.random.lognormal(9, 1) *)
  score : Z;                      (* random.randint(0, 1000) *)
  status_u : Q;
  preferencias : list string;     (* random.sample(preferences, randint(1, 3)) *)
  canal_u : Q
}.

Definition valid (d : draws) : bool :=
  unit_interval d.(last_gate) && randint_range 0 730 d.(last_days)
  && lognormal_range d.(total_lognormal) && randint_range 1 50 d.(orders)
  && unit_interval d.(cpf_gate) && randint_range 18 80 d.(idade)
  && unit_interval d.(genero_u) && lognormal_range d.(renda_lognormal)
  && randint_range 0 1000 d.(score) && unit_interval d.(status_u)
  && sample_range preferences 1 3 d.(preferencias) && unit_interval d.(canal_u).

Definition row_of (i : nat) (d : draws) : row :=
  let registration_date := d.(registration_date) in
  let last_purchase :=
    if Qgtb d.(last_gate) (2 # 10)
    then Some (Date.add_days registration_date d.(last_days)) else None in
  let total_purchases :=
    match last_purchase with
    | Some _ => PyFloat (round_float d.(total_lognormal) 2)
    | None => PyInt 0
    end in
  let num_orders := if gt total_purchases (PyInt 0) then d.(orders) else 0 in
  [ ("ID_Cliente", VStr ("CLI" ++ format_0d 6 (Z.of_nat i + 1)));
    ("Nome", VStr d.(nome));
    ("CPF_CNPJ", VStr (if Qgtb d.(cpf_gate) (1 # 10) then d.(cpf) else d.(cnpj)));
    ("Email", VStr d.(email));
    ("Telefone", VStr d.(telefone));
    ("Data_Cadastro", VStr (Date.strftime_ymd registration_date));
    ("Data_Ultima_Compra", match last_purchase with
                           | Some l => VStr (Date.strftime_ymd l)
                           | None => VNone
                           end);
    ("Valor_Total_Compras", VNum total_purchases);
    ("Numero_Pedidos", VNum (PyInt num_orders));
    ("Cidade", VStr d.(cidade));
    ("Estado", VStr d.(estado));
    ("CEP", VStr d.(cep));
    ("Idade", VNum (PyInt d.(idade)));
    ("Genero", VStr (np_choice genders gender_weights d.(genero_u)));
    ("Renda_Estimada", VNum (PyFloat (round_float d.(renda_lognormal) 2)));
    ("Score_Credito", VNum (PyInt d.(score)));
    ("Status", VStr (np_choice statuses status_weights d.(status_u)));
    ("Preferencias", VStr (join ", " d.(preferencias)));
    ("Canal_Aquisicao", VStr (np_choice channels channel_weights d.(canal_u))) ].

Definition data (num_rows : nat) (oracle : nat -> draws) : list row :=
  for_range num_rows (fun i data => (data ++ [row_of i (oracle i)])%list) [].

End Customers.

(** ** generate_suppliers.py *)

Module Suppliers.

Definition categories := ["Matéria Prima"; "Serviços"; "Equipamentos"; "Software"; "Logística"].
Definition category_weights := [3 # 10; 2 # 10; 2 # 10; 15 # 100; 15 # 100]%Q.

Definition statuses := ["Ativo"; "Inativo"; "Suspenso"; "Preferencial"].
Definition status_weights := [75 # 100; 15 # 100; 5 # 100; 5 # 100]%Q.

Definition payment_terms := ["À vista"; "15 dias"; "30 dias"; "45 dias"; "60 dias"].
Definition payment_weights := [2 # 10; 3 # 10; 3 # 10; 15 # 100; 5 # 100]%Q.

Record draws : Type := {
  registration_date : Date.date;  (* fake.date_between('-10y', 'today') *)
  last_gate : Q;                  (* random.random() *)
  last_days : Z;                  (* random.randint(0, 365*3) *)
  total_lognormal : Q;            (* np.random.lognormal(10, 1.5) *)
  empresa : string;               (* fake.company() *)
  cnpj : string;                  (* fake.cnpj() *)
  contato : string;               (* fake.name() *)
  email : string;                 (* fake.email() *)
  telefone : string;              (* fake.phone_number() *)
  categoria_u : Q;
  prazo_u : Q;
  status_u : Q;
  avaliacao_u : Q;                (* random() inside random.uniform(1, 5) *)
  condicoes_k : nat;              (* index drawn by random.choice *)
  desconto_u : Q;                 (* random() inside random.uniform(0, 15) *)
  produtos : list string;         (* fake.word() repeated randint(1, 5) times *)
  cidade : string;
  estado : string
}.

Definition valid (d : draws) : bool :=
  unit_interval d.(last_gate) && randint_range 0 1095 d.(last_days)
  && lognormal_range d.(total_lognormal)
  && unit_interval d.(categoria_u) && unit_interval d.(prazo_u)
  && unit_interval d.(status_u) && unit_interval d.(avaliacao_u)
  && Nat.ltb d.(condicoes_k) 4 && unit_interval d.(desconto_u)
  && Nat.leb 1 (List.length d.(produtos)) && Nat.leb (List.length d.(produtos)) 5.

Definition row_of (i : nat) (d : draws) : row :=
  let registration_date := d.(registration_date) in
  let last_purchase :=
    if Qgtb d.(last_gate) (1 # 10)
    then Some (Date.add_days registration_date d.(last_days)) else None in
  let total_purchases :=
    match last_purchase with
    | Some _ => PyFloat (round_float d.(total_lognormal) 2)
    | None => PyInt 0
    end in
  [ ("ID_Fornecedor", VStr ("FOR" ++ format_0d 5 (Z.of_nat i + 1)));
    ("Nome_Empresa", VStr d.(empresa));
    ("CNPJ", VStr d.(cnpj));
    ("Contato", VStr d.(contato));
    ("Email", VStr d.(email));
    ("Telefone", VStr d.(telefone));
    ("Categoria", VStr (np_choice categories category_weights d.(categoria_u)));
    ("Prazo_Pagamento", VStr (np_choice payment_terms payment_weights d.(prazo_u)));
    ("Valor_Total_Compras", VNum total_purchases);
    ("Ultima_Compra", match last_purchase with
                      | Some l => VStr (Date.strftime_ymd l)
                      | None => VNone
                      end);
    ("Status", VStr (np_choice statuses status_weights d.(status_u)));
    ("Avaliacao", VNum (PyFloat (round_float (uniform 1 5 d.(avaliacao_u)) 1)));
    ("Condicoes_Pagamento",
      VStr (random_choice ["Boleto"; "Transferência"; "Cartão"; "Cheque"] d.(condicoes_k)));
    ("Desconto_Medio", VNum (PyFloat (round_float (uniform 0 15 d.(desconto_u)) 2)));
    ("Produtos_Fornecidos", VStr (join ", " d.(produtos)));
    ("Cidade", VStr d.(cidade));
    ("Estado", VStr d.(estado));
    ("Data_Cadastro", VStr (Date.strftime_ymd registration_date)) ].

Definition data (num_rows : nat) (oracle : nat -> draws) : list row :=
  for_range num_rows (fun i data => (data ++ [row_of i (oracle i)])%list) [].

End Suppliers.

(** ** generate_controllership.py *)

Module Controllership.

Definition tipos := ["Receita"; "Despesa"; "Transferência"; "Ajuste"].
Definition tipo_weights := [4 # 10; 45 # 100; 1 # 10; 5 # 100]%Q.

Definition centros_custo := ["Vendas"; "Administrativo"; "Produção"; "Logística"; "Marketing"].
Definition centro_weights := [3 # 10; 2 # 10; 25 # 100; 15 # 100; 1 # 10]%Q.

Definition moedas := ["BRL"; "USD"; "EUR"].
Definition moeda_weights := [9 # 10; 8 # 100; 2 # 100]%Q.

Record draws : Type := {
  data_lancamento : Date.date;    (* fake.date_between('-1y', 'today') *)
  valor_base : Q;                 (* np.random.lognormal(8, 1.5) *)
  conta_debito : Z;               (* random.randint(1000, 9999) *)
  conta_credito : Z;              (* random.randint(1000, 9999) *)
  historico : string;             (* fake.sentence(nb_words=5) *)
  tipo_u : Q;
  centro_u : Q;
  filial : Z;                     (* random.randint(1, 50) *)
  documento : Z;                  (* random.randint(100000, 999999) *)
  fornecedor_gate : Q;            (* random.random() *)
  company : string;               (* fake.company() *)
  name : string;                  (* fake.name() *)
  moeda_u : Q;
  taxa_gate : Q;                  (* random.random() *)
  taxa_u : Q;                     (* random() inside random.uniform(1, 6) *)
  usuario : string;               (* fake.name() *)
  aprovado_k : nat;               (* index drawn by random.choice *)
  observacoes_gate : Q;           (* random.random() *)
  observacoes : string;           (* fake.sentence() *)
  categoria : string;             (* fake.word() *)
  subcategoria : string           (* fake.word() *)
}.

Definition valid (d : draws) : bool :=
  lognormal_range d.(valor_base)
  && randint_range 1000 9999 d.(conta_debito) && randint_range 1000 9999 d.(conta_credito)
  && unit_interval d.(tipo_u) && unit_interval d.(centro_u)
  && randint_range 1 50 d.(filial) && randint_range 100000 999999 d.(documento)
  && unit_interval d.(fornecedor_gate) && unit_interval d.(moeda_u)
  && unit_interval d.(taxa_gate) && unit_interval d.(taxa_u)
  && Nat.ltb d.(aprovado_k) 2 && unit_interval d.(observacoes_gate).

Definition row_of (i : nat) (d : draws) : row :=
  let data_lancamento := d.(data_lancamento) in
  let valor_base := d.(valor_base) in
  [ ("Data_Lancamento", VStr (Date.strftime_ymd data_lancamento));
    ("Conta_Debito", VStr ("1." ++ str d.(conta_debito)));
    ("Conta_Credito", VStr ("2." ++ str d.(conta_credito)));
    ("Valor", VNum (PyFloat (round_float valor_base 2)));
    ("Historico", VStr (drop_last d.(historico)));
    ("Tipo_Lancamento", VStr (np_choice tipos tipo_weights d.(tipo_u)));
    ("Centro_Custo", VStr (np_choice centros_custo centro_weights d.(centro_u)));
    ("Filial", VStr ("FIL" ++ format_0d 2 d.(filial)));
    ("Documento", VStr ("DOC" ++ str d.(documento)));
    ("Fornecedor_Cliente",
      VStr (if Qgtb d.(fornecedor_gate) (5 # 10) then d.(company) else d.(name)));
    ("Moeda", VStr (np_choice moedas moeda_weights d.(moeda_u)));
    ("Taxa_Cambio", if Qgtb d.(taxa_gate) (9 # 10)
                    then VNum (PyFloat (round_float (uniform 1 6 d.(taxa_u)) 4))
                    else VNum (PyFloat 1));
    ("Competencia",
      VStr (str (Date.year data_lancamento) ++ "-"
              ++ format_0d 2 (Date.month data_lancamento)));
    ("Usuario", VStr d.(usuario));
    ("Aprovado", VBool (nth d.(aprovado_k) [true; false] false));
    ("Observacoes", if Qgtb d.(observacoes_gate) (7 # 10)
                    then VStr d.(observacoes) else VNone);
    ("Categoria", VStr d.(categoria));
    ("Subcategoria", VStr d.(subcategoria)) ].

Definition data (num_rows : nat) (oracle : nat -> draws) : list row :=
  for_range num_rows (fun i data => (data ++ [row_of i (oracle i)])%list) [].

End Controllership.

(** ** The serializer: [pd.DataFrame(data).to_csv(path, index=False, encoding='utf-8-sig')]

    Modelled from the spec: the serializer and the reader.  The generators
    hand their rows to pandas ([DataFrame], [to_csv]), an external library
    whose code is not part of the repository; what follows is the contract
    of section 4.4 of the design document, made precise with the library's
    documented behaviour on a list of dicts: the columns are the keys in order of
    first insertion, a missing cell is empty, and the frame is written
    with Python's [csv.writer] in its default dialect (comma, double
    quote, minimal quoting) with a line feed as line terminator, after
    the UTF-8 signature.  How a cell is rendered as text depends on the
    type pandas infers for its whole column, so the renderer is a
    parameter.  [read_csv] is [csv.reader] on the decoded file. *)

Module Csv.

Definition comma : ascii := ","%char.
Definition dquote : ascii := "034"%char.
Definition LF : ascii := "010"%char.
Definition CR : ascii := "013"%char.
Definition BOM : string := String "239" (String "187" (String "191" "")).

(** *** DataFrame *)

Definition add_column (cols : list string) (k : string) : list string :=
  if existsb (String.eqb k) cols then cols else (cols ++ [k])%list.

(** Column labels: keys in order of first insertion over all rows. *)
Definition columns (data : list row) : list string :=
  fold_left (fun cols r => fold_left add_column (keys r) cols) data [].

Definition cell (r : row) (c : string) : value :=
  match get c r with
  | Some v => v
  | None => VNone
  end.

Definition column (data : list row) (c : string) : list value :=
  map (fun r => cell r c) data.

(** *** Writer *)

Definition special (c : ascii) : bool :=
  Ascii.eqb c comma || Ascii.eqb c dquote || Ascii.eqb c LF || Ascii.eqb c CR.

Fixpoint needs_quote (s : string) : bool :=
  match s with
  | EmptyString => false
  | String c s' => special c || needs_quote s'
  end.

Fixpoint escape (s : string) : string :=
  match s with
  | EmptyString => EmptyString
  | String c s' =>
      if Ascii.eqb c dquote then String dquote (String dquote (escape s'))
      else String c (escape s')
  end.

Definition quote (s : string) : string :=
  String dquote (escape s ++ String dquote "").

Definition write_field (s : string) : string :=
  if needs_quote s then quote s else s.

(** [writer.writerow(fields)]: a lone empty field is written quoted, so
    that the line is not blank. *)
Definition writerow (fields : list string) : string :=
  match fields with
  | [EmptyString] => quote ""
  | _ => join "," (map write_field fields)
  end ++ String LF "".

Section Serializer.

Variable cell_text : list value -> value -> string.

Definition row_text (data : list row) (cols : list string) (r : row) : list string :=
  map (fun c => cell_text (column data c) (cell r c)) cols.

Definition table (data : list row) : list (list string) :=
  columns data :: map (row_text data (columns data)) data.

(** The content of the file that [to_csv] writes. *)
Definition to_csv (data : list row) : string :=
  BOM ++ String.concat "" (map writerow (table data)).

End Serializer.

(** *** Reader *)

Inductive mode : Type :=
| StartRecord
| AfterCR
| StartField
| InField
| InQuoted
| QuoteInQuoted.

Record reader : Type := Reader {
  state : mode;
  field : string;
  fields : list string;
  records : list (list string)
}.

Definition add_char (st : reader) (m : mode) (c : ascii) : reader :=
  Reader m (st.(field) ++ String c "") st.(fields) st.(records).

Definition save_field (st : reader) : reader :=
  Reader StartField "" (st.(fields) ++ [st.(field)])%list st.(records).

Definition end_record (st : reader) (m : mode) (fs : list string) : reader :=
  Reader m "" [] (st.(records) ++ [fs])%list.

Definition newline_mode (c : ascii) : mode :=
  if Ascii.eqb c CR then AfterCR else StartRecord.

Definition is_newline (c : ascii) : bool := Ascii.eqb c LF || Ascii.eqb c CR.

Definition start_field (st : reader) (c : ascii) : reader :=
  if is_newline c then
    end_record st (newline_mode c) (st.(fields) ++ [""])%list
  else if Ascii.eqb c dquote then Reader InQuoted "" st.(fields) st.(records)
  else if Ascii.eqb c comma then save_field st
  else add_char st InField c.

Definition step (st : reader) (c : ascii) : reader :=
  match st.(state) with
  | StartRecord =>
      if is_newline c then end_record st (newline_mode c) []
      else start_field st c
  | AfterCR =>
      if Ascii.eqb c LF then Reader StartRecord "" [] st.(records)
      else if Ascii.eqb c CR then end_record st AfterCR []
      else start_field st c
  | StartField => start_field st c
  | InField =>
      if is_newline c then
        end_record st (newline_mode c) (st.(fields) ++ [st.(field)])%list
      else if Ascii.eqb c comma then save_field st
      else add_char st InField c
  | InQuoted =>
      if Ascii.eqb c dquote then Reader QuoteInQuoted st.(field) st.(fields) st.(records)
      else add_char st InQuoted c
  | QuoteInQuoted =>
      if Ascii.eqb c dquote then add_char st InQuoted c
      else if is_newline c then
        end_record st (newline_mode c) (st.(fields) ++ [st.(field)])%list
      else if Ascii.eqb c comma then save_field st
      else add_char st InField c
  end.

Fixpoint run (st : reader) (text : string) : reader :=
  match text with
  | EmptyString => st
  | String c text' => run (step st c) text'
  end.

(** End of input closes a record that is still open. *)
Definition finish (st : reader) : list (list string) :=
  match st.(state) with
  | StartRecord | AfterCR => st.(records)
  | _ => (st.(records) ++ [(st.(fields) ++ [st.(field)])%list])%list
  end.

(** Decoding with [utf-8-sig] drops one leading signature. *)
Definition decode_utf8_sig (content : string) : string :=
  match content with
  | String "239" (String "187" (String "191" text)) => text
  | _ => content
  end.

Definition read_csv (content : string) : list (list string) :=
  finish (run (Reader StartRecord "" [] []) (decode_utf8_sig content)).

(** The reader stands at the end of a field whose text is [s]. *)
Definition at_field_end (st : reader) (fs : list string) (s : string)
    (rs : list (list string)) : Prop :=
  st.(fields) = fs /\ st.(records) = rs /\ st.(field) = s /\
  (st.(state) = InField \/ st.(state) = QuoteInQuoted
   \/ (st.(state) = StartField /\ s = "")).

(** The modes in which a field begins. *)
Definition field_start (m : mode) : Prop := m = StartRecord \/ m = StartField.

End Csv.

(** ** Console, files and exceptions *)

Module IO.

Record world : Type := World {
  stdout : list string;             (* lines printed so far *)
  stderr : list string;
  files : list (string * string);   (* path and content *)
  directories : list string;        (* directories that exist *)
  installed : list string           (* importable third-party modules *)
}.

Definition io (A : Type) : Type := world -> result A * world.

Definition ret {A} (a : A) : io A := fun w => (Ok a, w).

Definition raise {A} (e : exn) : io A := fun w => (Raise e, w).

Definition bind {A B} (m : io A) (k : A -> io B) : io B :=
  fun w =>
    match m w with
    | (Ok a, w') => k a w'
    | (Raise e, w') => (Raise e, w')
    end.

Definition seq {A} (m : io unit) (k : io A) : io A := bind m (fun _ => k).

Definition lift {A} (r : result A) : io A := fun w => (r, w).

(** [try: body except ...: handler]; a handler that does not match the
    exception lets it through. *)
Definition try_except {A} (body : io A) (handler : exn -> option (io A)) : io A :=
  fun w =>
    match body w with
    | (Ok a, w') => (Ok a, w')
    | (Raise e, w') =>
        match handler e with
        | Some h => h w'
        | None => (Raise e, w')
        end
    end.

Definition print (line : string) : io unit :=
  fun w => (Ok tt, World (w.(stdout) ++ [line]) w.(stderr) w.(files) w.(directories)
                         w.(installed)).

(** [sys.exit(code)] *)
Definition sys_exit {A} (code : Z) : io A := raise (SystemExit code).

(** [import name] of a third-party module. *)
Definition import (name : string) : io unit :=
  fun w =>
    if existsb (String.eqb name) w.(installed) then (Ok tt, w)
    else (Raise (ModuleNotFoundError ("No module named '" ++ name ++ "'")), w).

(** Writing [content] to the file [name] of [dir]; pandas refuses a
    directory that does not exist. *)
Definition write_file (dir name content : string) : io unit :=
  fun w =>
    let path := dir ++ "/" ++ name in
    if existsb (String.eqb dir) w.(directories) then
      (Ok tt, World w.(stdout) w.(stderr)
                    ((path, content)
                       :: filter (fun f => negb (String.eqb (fst f) path)) w.(files))
                    w.(directories) w.(installed))
    else
      (Raise (OSError ("Cannot save file into a non-existent directory: '" ++ dir ++ "'")), w).

(** The world after some more lines were printed. *)
Definition printed (w : world) (lines : list string) : world :=
  World (w.(stdout) ++ lines) w.(stderr) w.(files) w.(directories) w.(installed).

(** [str(e)] *)
Definition str_exn (e : exn) : string :=
  match e with
  | ZeroDivisionError msg | ModuleNotFoundError msg | ImportError msg | OSError msg => msg
  | SystemExit code => str code
  end.

(** What the interpreter does with the outcome of a script: the exit
    status, and a traceback on [stderr] for an exception nobody caught. *)
Definition run (script : io unit) (w : world) : Z * world :=
  match script w with
  | (Ok _, w') => (0, w')
  | (Raise (SystemExit code), w') => (code, w')
  | (Raise e, w') =>
      (1, World w'.(stdout) (w'.(stderr) ++ ["Traceback (most recent call last):"; str_exn e])
                w'.(files) w'.(directories) w'.(installed))
  end.

End IO.

Notation "m >> k" := (IO.seq m k) (at level 62, right associativity).

(** ** The generator functions and generate_all.py *)

Module Script.

Import IO.

Definition samples : string := "../../samples".

Fixpoint repeat_string (s : string) (n : nat) : string :=
  match n with
  | O => ""
  | S k => s ++ repeat_string s k
  end.

(** The oracles of the ten generators. *)
Record oracles : Type := {
  ecommerce : nat -> Ecommerce.draws;
  controllership : nat -> Controllership.draws;
  hr : nat -> HR.draws;
  logistics : nat -> Logistics.draws;
  marketing : nat -> Marketing.draws;
  production : nat -> Production.draws;
  inventory : nat -> Inventory.draws;
  customers : nat -> Customers.draws;
  suppliers : nat -> Suppliers.draws;
  cashflow : nat -> Cashflow.draws
}.

Section Generators.

Variable cell_text : list value -> value -> string.

(** The tail shared by the generators:
    [df = pd.DataFrame(data); df.to_csv(...); print(...)]. *)
Definition save (data : list row) (name : string) (num_rows : nat) : io unit :=
  write_file samples name (Csv.to_csv cell_text data) >>
  print ("Arquivo '" ++ name ++ "' gerado com " ++ str (Z.of_nat num_rows) ++ " linhas.").

Definition generate_ecommerce_sales (num_rows : nat) (o : nat -> Ecommerce.draws) : io unit :=
  save (Ecommerce.data num_rows o) "vendas_ecommerce.csv" num_rows.

Definition generate_controllership_data (num_rows : nat) (o : nat -> Controllership.draws)
  : io unit :=
  save (Controllership.data num_rows o) "controladoria_contabilidade.csv" num_rows.

Definition generate_hr_data (num_rows : nat) (o : nat -> HR.draws) : io unit :=
  save (HR.data num_rows o) "recursos_humanos.csv" num_rows.

Definition generate_logistics_data (num_rows : nat) (o : nat -> Logistics.draws) : io unit :=
  save (Logistics.data num_rows o) "logistica_entregas.csv" num_rows.

Definition generate_marketing_data (num_rows : nat) (o : nat -> Marketing.draws) : io unit :=
  bind (lift (Marketing.data num_rows o))
       (fun data => save data "marketing_digital.csv" num_rows).

Definition generate_production_data (num_rows : nat) (o : nat -> Production.draws) : io unit :=
  bind (lift (Production.data num_rows o))
       (fun data => save data "producao_manufatura.csv" num_rows).

Definition generate_inventory_data (num_rows : nat) (o : nat -> Inventory.draws) : io unit :=
  save (Inventory.data num_rows o) "inventario_produtos.csv" num_rows.

Definition generate_customers_data (num_rows : nat) (o : nat -> Customers.draws) : io unit :=
  save (Customers.data num_rows o) "dados_clientes.csv" num_rows.

Definition generate_suppliers_data (num_rows : nat) (o : nat -> Suppliers.draws) : io unit :=
  save (Suppliers.data num_rows o) "fornecedores_compras.csv" num_rows.

Definition generate_cashflow_data (num_rows : nat) (o : nat -> Cashflow.draws) : io unit :=
  save (Cashflow.data num_rows o) "financas_fluxo_caixa.csv" num_rows.

(** The [except] clauses of [main], in order. *)
Definition handler (e : exn) : option (io unit) :=
  if is_ImportError e then
    Some (print ("Erro de importação: " ++ str_exn e) >>
          print "Certifique-se de que todas as dependências estão instaladas:" >>
          print "pip install faker pandas numpy" >>
          sys_exit 1)
  else if is_Exception e then
    Some (print ("Erro durante a geração: " ++ str_exn e) >>
          sys_exit 1)
  else None.

(** [main()]; every generator runs with its default [num_rows=5000]. *)
Definition main (o : oracles) : io unit :=
  print "Iniciando geração de dados CSV..." >>
  print (repeat_string "=" 50) >>
  try_except
    (generate_ecommerce_sales 5000 o.(ecommerce) >>
     generate_controllership_data 5000 o.(controllership) >>
     generate_hr_data 5000 o.(hr) >>
     generate_logistics_data 5000 o.(logistics) >>
     generate_marketing_data 5000 o.(marketing) >>
     generate_production_data 5000 o.(production) >>
     generate_inventory_data 5000 o.(inventory) >>
     generate_customers_data 5000 o.(customers) >>
     generate_suppliers_data 5000 o.(suppliers) >>
     generate_cashflow_data 5000 o.(cashflow) >>
     print (repeat_string "=" 50) >>
     print "Todos os arquivos CSV foram gerados com sucesso!" >>
     print "Arquivos salvos em: ../../samples/")
    handler.

(** The top of every generator module:
    [import pandas as pd; import numpy as np; from faker import Faker]. *)
Definition import_generator_module : io unit :=
  import "pandas" >> import "numpy" >> import "faker".

(** [python generate_all.py]: the ten [from generate_... import ...]
    statements of lines 11-20, then [main()] under the
    [if __name__ == "__main__"] guard. *)
Definition generate_all (o : oracles) : io unit :=
  import_generator_module >> import_generator_module >> import_generator_module >>
  import_generator_module >> import_generator_module >> import_generator_module >>
  import_generator_module >> import_generator_module >> import_generator_module >>
  import_generator_module >>
  main o.

End Generators.

End Script.

(** ** Sample draws

    Concrete oracles on which the statements below are evaluated. *)

Module Samples.

(** An inflow of 2500.456 and an outflow whose log-normal sample, 0.001,
    is below half a cent. *)
Definition cashflow_in : Cashflow.draws :=
  {| Cashflow.transaction_date := 739924; Cashflow.type_u := 1 # 10;
     Cashflow.value_lognormal := 2500456 # 1000; Cashflow.descricao := "Pagamento de cliente.";
     Cashflow.categoria_u := 0; Cashflow.subcategoria := "vendas"; Cashflow.conta_u := 0;
     Cashflow.responsavel := "Ana Souza"; Cashflow.comprovante := 123456;
     Cashflow.centro_custo := "loja"; Cashflow.projeto_gate := 1 # 2;
     Cashflow.projeto := "Projeto novo."; Cashflow.moeda_u := 0;
     Cashflow.taxa_gate := 1 # 2; Cashflow.taxa_u := 1 # 2; Cashflow.previsao_k := 0;
     Cashflow.observacoes_gate := 1 # 2; Cashflow.observacoes := "Sem observações." |}.

Definition cashflow_out : Cashflow.draws :=
  {| Cashflow.transaction_date := 739925; Cashflow.type_u := 1 # 2;
     Cashflow.value_lognormal := 1 # 1000; Cashflow.descricao := "Tarifa bancária.";
     Cashflow.categoria_u := 1 # 2; Cashflow.subcategoria := "taxas"; Cashflow.conta_u := 0;
     Cashflow.responsavel := "Rui Lima"; Cashflow.comprovante := 654321;
     Cashflow.centro_custo := "banco"; Cashflow.projeto_gate := 8 # 10;
     Cashflow.projeto := "Ajuste fiscal."; Cashflow.moeda_u := 96 # 100;
     Cashflow.taxa_gate := 95 # 100; Cashflow.taxa_u := 1 # 2; Cashflow.previsao_k := 1;
     Cashflow.observacoes_gate := 9 # 10; Cashflow.observacoes := "Conferir extrato." |}.

Definition cashflow (i : nat) : Cashflow.draws :=
  if Nat.even i then cashflow_in else cashflow_out.

(** E-commerce draws: a plain order, an order whose normal samples are
    negative, and a discounted, partly refunded order. *)
Definition ecommerce_plain : Ecommerce.draws :=
  {| Ecommerce.order_date := 739000; Ecommerce.delivery_gate := 1 # 2;
     Ecommerce.delivery_days := 7; Ecommerce.quantity_normal := 27 # 10;
     Ecommerce.unit_price_normal := 149987 # 1000; Ecommerce.freight_normal := 15504 # 1000;
     Ecommerce.discount_gate := 1 # 2; Ecommerce.discount_u := 1 # 2;
     Ecommerce.cliente := 42; Ecommerce.produto := "Cadeira de madeira.";
     Ecommerce.status_u := 0; Ecommerce.pagamento_u := 6 # 10; Ecommerce.canal_u := 0;
     Ecommerce.cidade := "São Paulo"; Ecommerce.estado := "SP";
     Ecommerce.avaliacao_gate := 1 # 2; Ecommerce.avaliacao := 4;
     Ecommerce.motivo_gate := 0; Ecommerce.motivo := "Atraso.";
     Ecommerce.devolvido_gate := 0; Ecommerce.devolvido_u := 0;
     Ecommerce.categoria_u := 0; Ecommerce.sku := 12345 |}.

Definition ecommerce_negative : Ecommerce.draws :=
  {| Ecommerce.order_date := 739001; Ecommerce.delivery_gate := 0;
     Ecommerce.delivery_days := 1; Ecommerce.quantity_normal := -(3 # 1);
     Ecommerce.unit_price_normal := -(12346 # 1000); Ecommerce.freight_normal := -(2 # 1);
     Ecommerce.discount_gate := 0; Ecommerce.discount_u := 0;
     Ecommerce.cliente := 10000; Ecommerce.produto := "Livro, capa dura.";
     Ecommerce.status_u := 99 # 100; Ecommerce.pagamento_u := 0; Ecommerce.canal_u := 95 # 100;
     Ecommerce.cidade := "Recife"; Ecommerce.estado := "PE";
     Ecommerce.avaliacao_gate := 0; Ecommerce.avaliacao := 1;
     Ecommerce.motivo_gate := 95 # 100; Ecommerce.motivo := "Produto errado.";
     Ecommerce.devolvido_gate := 0; Ecommerce.devolvido_u := 0;
     Ecommerce.categoria_u := 6 # 10; Ecommerce.sku := 99999 |}.

Definition ecommerce_discounted : Ecommerce.draws :=
  {| Ecommerce.order_date := 739002; Ecommerce.delivery_gate := 9 # 10;
     Ecommerce.delivery_days := 15; Ecommerce.quantity_normal := 4 # 1;
     Ecommerce.unit_price_normal := 200 # 1; Ecommerce.freight_normal := 10 # 1;
     Ecommerce.discount_gate := 8 # 10; Ecommerce.discount_u := 1 # 3;
     Ecommerce.cliente := 7; Ecommerce.produto := "Tênis de corrida.";
     Ecommerce.status_u := 8 # 10; Ecommerce.pagamento_u := 8 # 10; Ecommerce.canal_u := 1 # 2;
     Ecommerce.cidade := "Curitiba"; Ecommerce.estado := "PR";
     Ecommerce.avaliacao_gate := 9 # 10; Ecommerce.avaliacao := 5;
     Ecommerce.motivo_gate := 0; Ecommerce.motivo := "Sem motivo.";
     Ecommerce.devolvido_gate := 99 # 100; Ecommerce.devolvido_u := 1 # 2;
     Ecommerce.categoria_u := 95 # 100; Ecommerce.sku := 10000 |}.

Definition ecommerce (i : nat) : Ecommerce.draws :=
  match Nat.modulo i 3 with
  | 0%nat => ecommerce_plain
  | 1%nat => ecommerce_negative
  | _ => ecommerce_discounted
  end.

(** Production: 1000 planned, a beta sample of 0.8. *)
Definition production_order : Production.draws :=
  {| Production.start_date := 739800; Production.planned := 1000;
     Production.produced_beta := 8 # 10; Production.production_time := 480;
     Production.produto := "Parafuso de aço."; Production.maquina_u := 1 # 2;
     Production.operador := "Carlos Dias"; Production.defeitos := 40;
     Production.materia_lognormal := 2980957 # 1000;
     Production.mao_obra_lognormal := 1096633 # 1000;
     Production.status_u := 0; Production.linha := 3; Production.turno_u := 1 # 2;
     Production.qualidade_k := 1; Production.observacoes_gate := 0;
     Production.observacoes := "Nada." |}.

Definition production (i : nat) : Production.draws := production_order.

(** Marketing: an ordinary campaign; a campaign without impressions; and
    a campaign whose investment sample, 0.004, is below half a cent. *)
Definition marketing_campaign : Marketing.draws :=
  {| Marketing.start_date := 739700; Marketing.end_days := 30;
     Marketing.investment_lognormal := 12005 # 10;
     Marketing.impressions_lognormal := 1500007 # 10;
     Marketing.clicks_beta := 1 # 10; Marketing.conversions_beta := 1 # 10;
     Marketing.nome := "Campanha de verão."; Marketing.canal_u := 0;
     Marketing.publico := 50000; Marketing.segmento_u := 1 # 2; Marketing.status_u := 0;
     Marketing.responsavel := "Bia Alves"; Marketing.objetivo_k := 0;
     Marketing.engajamento := 10; Marketing.bounce := 50 |}.

Definition marketing_no_impressions : Marketing.draws :=
  {| Marketing.start_date := 739701; Marketing.end_days := 7;
     Marketing.investment_lognormal := 50 # 1;
     Marketing.impressions_lognormal := 1 # 2;
     Marketing.clicks_beta := 1 # 10; Marketing.conversions_beta := 1 # 10;
     Marketing.nome := "Campanha piloto."; Marketing.canal_u := 1 # 2;
     Marketing.publico := 10000; Marketing.segmento_u := 0; Marketing.status_u := 1 # 2;
     Marketing.responsavel := "Leo Reis"; Marketing.objetivo_k := 3;
     Marketing.engajamento := 1; Marketing.bounce := 80 |}.

Definition marketing_underflow : Marketing.draws :=
  {| Marketing.start_date := 739702; Marketing.end_days := 90;
     Marketing.investment_lognormal := 4 # 1000;
     Marketing.impressions_lognormal := 1000 # 1;
     Marketing.clicks_beta := 1 # 10; Marketing.conversions_beta := 1 # 10;
     Marketing.nome := "Campanha mínima."; Marketing.canal_u := 9 # 10;
     Marketing.publico := 100000; Marketing.segmento_u := 9 # 10; Marketing.status_u := 9 # 10;
     Marketing.responsavel := "Gil Pena"; Marketing.objetivo_k := 2;
     Marketing.engajamento := 20; Marketing.bounce := 30 |}.

Definition marketing (i : nat) : Marketing.draws :=
  if Nat.even i then marketing_campaign else marketing_no_impressions.

(** Logistics: a delivery whose three normal samples are negative. *)
Definition logistics_negative : Logistics.draws :=
  {| Logistics.departure_date := 739900; Logistics.expected_days := 3;
     Logistics.actual_gate := 1 # 2; Logistics.actual_days := -2; Logistics.pedido := 77;
     Logistics.transportadora_u := 0; Logistics.status_u := 0;
     Logistics.peso_normal := -(1234 # 1000); Logistics.volume_normal := -(12 # 1000);
     Logistics.frete_normal := -(501 # 100);
     Logistics.destinatario := "Eva Nunes"; Logistics.endereco := "Rua das Flores, 12";
     Logistics.cidade := "Natal"; Logistics.estado := "RN"; Logistics.cep := "59000-000";
     Logistics.rastreamento := 123456789; Logistics.motivo_gate := 0;
     Logistics.motivo := "Chuva."; Logistics.tentativas := 1;
     Logistics.responsavel := "Ivo Maia" |}.

(** HR: one employee. *)
Definition hr_employee : HR.draws :=
  {| HR.admission_date := 738000; HR.age := 30; HR.salary_lognormal := 8103084 # 1000;
     HR.nome := "Joana Prado"; HR.cpf := "123.456.789-09"; HR.cargo := "Analista";
     HR.departamento_u := 3 # 10; HR.status_u := 0; HR.demissao_gate := 0;
     HR.demissao_days := 365; HR.genero_u := 1 # 2; HR.escolaridade_u := 6 # 10;
     HR.estado_civil_k := 1; HR.dependentes := 2; HR.horas_gate := 7 # 10; HR.horas := 12;
     HR.faltas := 0; HR.avaliacao_u := 3 # 4;
     HR.beneficios := ["Plano de Saúde"; "Vale Transporte"];
     HR.cidade := "Belo Horizonte"; HR.estado := "MG" |}.

Definition hr (i : nat) : HR.draws := hr_employee.

(** Two machines: one where Faker is not installed, one where the
    output directory is missing. *)
Definition world_without_faker : IO.world :=
  IO.World [] [] [] ["../../samples"] ["pandas"; "numpy"].

Definition world_without_samples : IO.world :=
  IO.World [] [] [] [] ["pandas"; "numpy"; "faker"].

(** A cell renderer: integers in decimal, floats with four decimals,
    an empty cell for [None]. *)
Definition fixed4 (q : Q) : string :=
  let n := round_half_even (q * inject_Z 10000) in
  (if n <? 0 then "-" else "") ++ str (Z.abs n / 10000) ++ "."
    ++ format_0d 4 (Z.abs n mod 10000).

Definition cell_text (column : list value) (v : value) : string :=
  match v with
  | VNone => ""
  | VBool b => if b then "True" else "False"
  | VNum (PyInt z) => str z
  | VNum (PyFloat q) => fixed4 q
  | VStr s => s
  end.

(** Two small rows with a comma, a quote and a line feed in their text. *)
Definition quoting_rows : list row :=
  [ [("Nome", VStr "Rua das Flores, 12"); ("Nota", VNone); ("Valor", VNum (PyFloat (5 # 2)))];
    [("Nome", VStr (String Csv.dquote "x" ++ String Csv.dquote (String Csv.LF "y")));
     ("Nota", VNum (PyInt 7)); ("Valor", VNum (PyInt 0))] ].

(** A customer whose total purchases sample, 0.003, rounds to 0.00. *)
Definition customer_small : Customers.draws :=
  {| Customers.registration_date := 738500; Customers.last_gate := 1 # 2;
     Customers.last_days := 100; Customers.total_lognormal := 3 # 1000;
     Customers.orders := 17; Customers.nome := "Paula Melo"; Customers.cpf_gate := 1 # 2;
     Customers.cpf := "987.654.321-00"; Customers.cnpj := "12.345.678/0001-95";
     Customers.email := "paula@example.org"; Customers.telefone := "+55 11 4002-8922";
     Customers.cidade := "Santos"; Customers.estado := "SP"; Customers.cep := "11000-000";
     Customers.idade := 44; Customers.genero_u := 6 # 10;
     Customers.renda_lognormal := 8103 # 1; Customers.score := 700;
     Customers.status_u := 0; Customers.preferencias := ["Livros"; "Casa"];
     Customers.canal_u := 1 # 4 |}.

Definition customers (i : nat) : Customers.draws := customer_small.

(** One supplier, one stock movement and one accounting entry. *)
Definition supplier : Suppliers.draws :=
  {| Suppliers.registration_date := 737000; Suppliers.last_gate := 1 # 2;
     Suppliers.last_days := 1095; Suppliers.total_lognormal := 22026 # 1;
     Suppliers.empresa := "Silva e Filhos"; Suppliers.cnpj := "98.765.432/0001-10";
     Suppliers.contato := "Davi Silva"; Suppliers.email := "davi@example.org";
     Suppliers.telefone := "(31) 3333-4444"; Suppliers.categoria_u := 0;
     Suppliers.prazo_u := 1 # 2; Suppliers.status_u := 0; Suppliers.avaliacao_u := 1 # 2;
     Suppliers.condicoes_k := 0; Suppliers.desconto_u := 1 # 3;
     Suppliers.produtos := ["aço"; "cobre"]; Suppliers.cidade := "Betim";
     Suppliers.estado := "MG" |}.

Definition suppliers (i : nat) : Suppliers.draws := supplier.

Definition stock_movement : Inventory.draws :=
  {| Inventory.movement_date := 739850; Inventory.unit_value_lognormal := 148413 # 1000;
     Inventory.qty_moved := 20; Inventory.current_stock := 350; Inventory.sku := 54321;
     Inventory.nome := "Martelo de borracha."; Inventory.categoria_u := 7 # 10;
     Inventory.fornecedor := "Ferragens Lima"; Inventory.armazem := 2;
     Inventory.prateleira := 55; Inventory.tipo_u := 1 # 2;
     Inventory.motivo := "Reposição de estoque semanal."; Inventory.responsavel := "Oto Cruz";
     Inventory.vencimento_gate := 0; Inventory.vencimento_days := 30; Inventory.lote := 1234;
     Inventory.status_u := 0 |}.

Definition inventory (i : nat) : Inventory.draws := stock_movement.

Definition ledger_entry : Controllership.draws :=
  {| Controllership.data_lancamento := 739860; Controllership.valor_base := 2980958 # 1000;
     Controllership.conta_debito := 1001; Controllership.conta_credito := 2002;
     Controllership.historico := "Pagamento de fornecedor local."; Controllership.tipo_u := 1 # 2;
     Controllership.centro_u := 0; Controllership.filial := 7;
     Controllership.documento := 100000; Controllership.fornecedor_gate := 6 # 10;
     Controllership.company := "Costa S.A."; Controllership.name := "Lia Costa";
     Controllership.moeda_u := 0; Controllership.taxa_gate := 0; Controllership.taxa_u := 0;
     Controllership.usuario := "Noé Braga"; Controllership.aprovado_k := 0;
     Controllership.observacoes_gate := 0; Controllership.observacoes := "Ok.";
     Controllership.categoria := "compras"; Controllership.subcategoria := "insumos" |}.

Definition controllership (i : nat) : Controllership.draws := ledger_entry.

Definition logistics (i : nat) : Logistics.draws := logistics_negative.

(** Oracles for a whole run of the orchestrator: one in which every
    generator completes, one in which the first marketing row fails. *)
Definition oracles : Script.oracles :=
  {| Script.ecommerce := ecommerce; Script.controllership := controllership;
     Script.hr := hr; Script.logistics := logistics; Script.marketing := marketing;
     Script.production := production; Script.inventory := inventory;
     Script.customers := customers; Script.suppliers := suppliers;
     Script.cashflow := cashflow |}.

Definition oracles_marketing_fails : Script.oracles :=
  {| Script.ecommerce := ecommerce; Script.controllership := controllership;
     Script.hr := hr; Script.logistics := logistics;
     Script.marketing := fun _ => marketing_underflow;
     Script.production := production; Script.inventory := inventory;
     Script.customers := customers; Script.suppliers := suppliers;
     Script.cashflow := cashflow |}.

(** A machine with the three libraries, the output directory and one
    stale file from an earlier run. *)
Definition world_ready : IO.world :=
  IO.World [] [] [("../../samples/marketing_digital.csv", "stale")] ["../../samples"]
           ["pandas"; "numpy"; "faker"].

End Samples.

(** ** Column lists

    The keys of the row literal of the e-commerce generator, in order. *)

Module Schema.

Definition ecommerce : list string :=
  ["ID_Pedido"; "Data_Pedido"; "Cliente_ID"; "Produto"; "Quantidade"; "Preco_Unitario";
   "Total"; "Status"; "Metodo_Pagamento"; "Frete"; "Desconto"; "Canal_Venda"; "Cidade";
   "Estado"; "Avaliacao"; "Data_Entrega"; "Motivo_Cancelamento"; "Valor_Devolvido";
   "Categoria_Produto"; "SKU"].

End Schema.

(** The keys of the row literals of the other nine generators. *)

Module Headers.

Definition cashflow : list string :=
  ["Data"; "Tipo"; "Descricao"; "Valor"; "Categoria"; "Subcategoria"; "Conta";
   "Saldo_Anterior"; "Saldo_Apos"; "Responsavel"; "Comprovante"; "Centro_Custo"; "Projeto";
   "Moeda"; "Taxa_Cambio"; "Previsao_Realizado"; "Observacoes"].

Definition controllership : list string :=
  ["Data_Lancamento"; "Conta_Debito"; "Conta_Credito"; "Valor"; "Historico";
   "Tipo_Lancamento"; "Centro_Custo"; "Filial"; "Documento"; "Fornecedor_Cliente"; "Moeda";
   "Taxa_Cambio"; "Competencia"; "Usuario"; "Aprovado"; "Observacoes"; "Categoria";
   "Subcategoria"].

Definition customers : list string :=
  ["ID_Cliente"; "Nome"; "CPF_CNPJ"; "Email"; "Telefone"; "Data_Cadastro";
   "Data_Ultima_Compra"; "Valor_Total_Compras"; "Numero_Pedidos"; "Cidade"; "Estado"; "CEP";
   "Idade"; "Genero"; "Renda_Estimada"; "Score_Credito"; "Status"; "Preferencias";
   "Canal_Aquisicao"].

Definition hr : list string :=
  ["ID_Funcionario"; "Nome"; "CPF"; "Data_Admissao"; "Cargo"; "Salario"; "Departamento";
   "Status"; "Data_Demissao"; "Idade"; "Genero"; "Escolaridade"; "Estado_Civil";
   "Dependentes"; "Horas_Extras"; "Faltas"; "Avaliacao"; "Beneficios"; "Cidade"; "Estado"].

Definition inventory : list string :=
  ["SKU"; "Nome_Produto"; "Categoria"; "Fornecedor"; "Quantidade_Estoque"; "Valor_Unitario";
   "Valor_Total"; "Localizacao"; "Data_Ultima_Movimentacao"; "Tipo_Movimentacao";
   "Quantidade_Movimentada"; "Saldo_Apos_Movimentacao"; "Motivo"; "Responsavel";
   "Data_Vencimento"; "Lote"; "Status"].

Definition logistics : list string :=
  ["ID_Entrega"; "Pedido_ID"; "Transportadora"; "Data_Saida"; "Data_Prevista";
   "Data_Entrega"; "Status"; "Peso_Kg"; "Volume_M3"; "Valor_Frete"; "Destinatario";
   "Endereco"; "Cidade"; "Estado"; "CEP"; "Rastreamento"; "Motivo_Atraso";
   "Tentativas_Entrega"; "Responsavel"].

Definition marketing : list string :=
  ["ID_Campanha"; "Nome_Campanha"; "Data_Inicio"; "Data_Fim"; "Canal"; "Investimento";
   "Impressoes"; "Cliques"; "Conversoes"; "CTR"; "CPC"; "CPA"; "ROI"; "Publico_Alvo";
   "Segmento"; "Status"; "Responsavel"; "Objetivo"; "Metricas_Adicionais"].

Definition production : list string :=
  ["ID_Ordem"; "Produto"; "Quantidade_Planejada"; "Quantidade_Produzida"; "Data_Inicio";
   "Data_Fim"; "Maquina"; "Operador"; "Tempo_Producao_Min"; "Eficiencia"; "Defeitos";
   "Custo_Materia_Prima"; "Custo_Mao_Obra"; "Status"; "Linha_Producao"; "Turno";
   "Qualidade"; "Observacoes"].

Definition suppliers : list string :=
  ["ID_Fornecedor"; "Nome_Empresa"; "CNPJ"; "Contato"; "Email"; "Telefone"; "Categoria";
   "Prazo_Pagamento"; "Valor_Total_Compras"; "Ultima_Compra"; "Status"; "Avaliacao";
   "Condicoes_Pagamento"; "Desconto_Medio"; "Produtos_Fornecidos"; "Cidade"; "Estado";
   "Data_Cadastro"].

End Headers.

(** Every row carries the keys [h], in order, and so [h] is the header
    that [to_csv] writes as soon as there is a row. *)
Definition has_header (h : list string) (data : list row) : Prop :=
  Forall (fun r => keys r = h) data /\ (data <> [] -> Csv.columns data = h).

(** ** Vocabulary of the statements *)

(** No string occurs twice. *)
Fixpoint distinct (l : list string) : bool :=
  match l with
  | [] => true
  | x :: l' => negb (existsb (String.eqb x) l') && distinct l'
  end.

(** Reading back a zero-padded decimal. *)
Definition parse_decimal (s : string) : option N :=
  option_map N.of_uint (NilEmpty.uint_of_string s).

(** The identifier of row [i]: a prefix and the 1-based index, padded
    with zeros to at least [width] digits. *)
Definition sequential_id (prefix : string) (width : nat) (i : nat) : option value :=
  Some (VStr (prefix ++ format_0d width (Z.of_nat i + 1))).

(** The shape shared by all seven generators: row [i] carries the
    identifier of index [i + 1], so the identifiers are pairwise
    distinct. *)
Definition sequential (key prefix : string) (width : nat) (data : list row) : Prop :=
  map (get key) data = map (sequential_id prefix width) (seq 0 (List.length data))
  /\ NoDup (map (get key) data).

(** A production row whose produced quantity does not exceed the planned
    one and whose efficiency is a percentage. *)
Definition production_row_bounded (r : row) : Prop :=
  exists planned produced e,
    get "Quantidade_Planejada" r = Some (VNum (PyInt planned)) /\
    get "Quantidade_Produzida" r = Some (VNum (PyInt produced)) /\
    produced <= planned /\
    get "Eficiencia" r = Some (VNum (PyFloat e)) /\
    (0 <= e)%Q /\ (e <= 100)%Q.

(** A stored float below zero. *)
Definition negative (stored : option value) : Prop :=
  exists v, stored = Some (VNum (PyFloat v)) /\ (v < 0)%Q.



(** Replaying a cash-flow row on a balance, from what the row stores:
    its [Valor] is added for an ['Entrada'] and subtracted otherwise. *)
Definition signed_step (balance : num) (r : row) : num :=
  match get "Tipo" r, get "Valor" r with
  | Some (VStr t), Some (VNum v) => if String.eqb t "Entrada" then add balance v else sub balance v
  | _, _ => balance
  end.

(** The balance after [rows], replayed in order from the opening
    balance of 100000.0. *)
Definition replay (rows : list row) : num := fold_left signed_step rows (PyFloat 100000).

(** The content of a file, if it exists. *)
Definition lookup (path : string) (w : IO.world) : option string :=
  option_map snd (find (fun f => String.eqb (fst f) path) w.(IO.files)).

(** The world after a generator saved [content] as [name] and printed
    its completion line for [num_rows] rows. *)
Definition written (w : IO.world) (name content : string) : IO.world :=
  let path := Script.samples ++ "/" ++ name in
  IO.World w.(IO.stdout) w.(IO.stderr)
           ((path, content) :: filter (fun f => negb (String.eqb (fst f) path)) w.(IO.files))
           w.(IO.directories) w.(IO.installed).

Definition saved (w : IO.world) (name content : string) (num_rows : nat) : IO.world :=
  IO.printed (written w name content)
    ["Arquivo '" ++ name ++ "' gerado com " ++ str (Z.of_nat num_rows) ++ " linhas."].

(** The world after each of [outputs], pairs of a name and a content,
    was saved in turn. *)
Definition saved_each (w : IO.world) (outputs : list (string * string)) (num_rows : nat)
  : IO.world :=
  fold_left (fun w f => saved w (fst f) (snd f) num_rows) outputs w.

(** The output directory exists. *)
Definition ready (w : IO.world) : Prop := In Script.samples w.(IO.directories).

(** The files of a complete run, in the order in which [main] has them
    written. *)
Definition output_files : list string :=
  ["vendas_ecommerce.csv"; "controladoria_contabilidade.csv"; "recursos_humanos.csv";
   "logistica_entregas.csv"; "marketing_digital.csv"; "producao_manufatura.csv";
   "inventario_produtos.csv"; "dados_clientes.csv"; "fornecedores_compras.csv";
   "financas_fluxo_caixa.csv"].

Definition output_path (name : string) : string := Script.samples ++ "/" ++ name.

Definition completion_line (name : string) : string :=
  "Arquivo '" ++ name ++ "' gerado com 5000 linhas.".

(** The banner that [main] prints first. *)
Definition started (w : IO.world) : IO.world :=
  IO.printed (IO.printed w ["Iniciando geração de dados CSV..."])
             [Script.repeat_string "=" 50].

(** * Properties *)

(** ** Evaluation of the primitives *)

Example round_examples :
  Py.round_float (1 # 1000) 2 == 0 /\ Py.round_float (1 # 8) 2 == (12 # 100) /\
  Py.round_float (-(7 # 2)) 2 == -(7 # 2) /\ Py.int (-(7 # 2)) = -3 /\
  Py.format_0d 6 42 = "000042" /\ Py.format_0d 5 1234567 = "1234567" /\
  Py.drop_last "Olá mundo." = "Olá mundo" /\ Py.str (-15) = "-15".
Proof. repeat split. Qed.

Example date_examples :
  Date.strftime_ymd 739924 = "2026-11-04" /\ Date.strftime_ymd 719163 = "1970-01-01" /\
  Date.strftime_ymd 1 = "0001-01-01" /\ Date.strftime_ymd 738579 = "2023-02-28" /\
  Date.strftime_ymd (Date.add_days 738579 367) = "2024-03-01" /\
  Date.strftime_ymd_hm (Date.add_minutes 739924 480) = "2026-11-04 00:00".
Proof. repeat split. Qed.

Example choice_examples :
  let types := ["Entrada"; "Saída"] in
  let w := [45 # 100; 55 # 100]%Q in
  Sampling.np_choice types w 0 = "Entrada" /\
  Sampling.np_choice types w (44 # 100) = "Entrada" /\
  Sampling.np_choice types w (45 # 100) = "Saída" /\
  Sampling.np_choice types w (99 # 100) = "Saída".
Proof. repeat split. Qed.

(** ** Loops *)

Lemma for_range_S {S : Type} (n : nat) (body : nat -> S -> S) (init : S) :
  for_range (Datatypes.S n) body init = body n (for_range n body init).
Proof.
  unfold for_range. rewrite seq_S, fold_left_app. reflexivity.
Qed.

Lemma for_range_append {A : Type} (f : nat -> A) (n : nat) :
  for_range n (fun i data => (data ++ [f i])%list) [] = map f (seq 0 n).
Proof.
  induction n as [|n IH].
  - reflexivity.
  - rewrite for_range_S, IH, seq_S, map_app. reflexivity.
Qed.

Lemma nth_map_seq {A : Type} (f : nat -> A) (n i : nat) (default : A) :
  (i < n)%nat -> nth i (map f (seq 0 n)) default = f i.
Proof.
  intros Hi.
  rewrite (nth_indep _ default (f 0%nat)) by (rewrite length_map, length_seq; exact Hi).
  rewrite (map_nth f), seq_nth by exact Hi. reflexivity.
Qed.

Lemma for_range_raising_S {S : Type} (n : nat) (body : nat -> S -> result S) (init : S) :
  for_range_raising (Datatypes.S n) body init
  = (s <- for_range_raising n body init ;; body n s).
Proof.
  unfold for_range_raising. rewrite seq_S, fold_left_app. reflexivity.
Qed.

(** A raising loop that appends one row per iteration returns, when it
    returns, the rows of all its iterations in order. *)
Lemma for_range_raising_append {A : Type} (f : nat -> result A) (n : nat) (data : list A) :
  for_range_raising n (fun i data => row <- f i ;; Ok (data ++ [row])%list) [] = Ok data ->
  List.length data = n /\
  forall i default, (i < n)%nat -> f i = Ok (nth i data default).
Proof.
  revert data. induction n as [|n IH]; intros data H.
  - cbv in H. inversion H. split; [reflexivity | intros; lia].
  - rewrite for_range_raising_S in H.
    destruct (for_range_raising n _ []) as [data'|e]; [|discriminate].
    simpl in H. destruct (f n) as [r|e] eqn:Hf; [|discriminate].
    simpl in H. inversion H; subst data.
    destruct (IH data' eq_refl) as [Hlen Hnth].
    split.
    + rewrite length_app. simpl. lia.
    + intros i default Hi.
      destruct (Nat.eq_dec i n) as [->|Hne].
      * rewrite app_nth2 by lia. rewrite Hlen, Nat.sub_diag. exact Hf.
      * rewrite app_nth1 by lia. apply Hnth. lia.
Qed.

(** A raising loop whose every iteration succeeds returns. *)
Lemma for_range_raising_total {A : Type} (f : nat -> result A) (n : nat) :
  (forall i, (i < n)%nat -> exists r, f i = Ok r) ->
  exists data,
    for_range_raising n (fun i data => row <- f i ;; Ok (data ++ [row])%list) [] = Ok data.
Proof.
  induction n as [|n IH]; intros H.
  - exists []. reflexivity.
  - destruct IH as [data Hd]; [intros i Hi; apply H; lia|].
    destruct (H n) as [r Hr]; [lia|].
    exists (data ++ [r])%list.
    rewrite for_range_raising_S, Hd. simpl. rewrite Hr. reflexivity.
Qed.

(** ** Cash flow: the running balance *)

Module CashflowFacts.

Import Cashflow.

Lemma loop_S (n : nat) (oracle : nat -> draws) :
  loop (S n) oracle
  = (snd (iteration (oracle n) (balance oracle n)),
     (data n oracle ++ [fst (iteration (oracle n) (balance oracle n))])%list).
Proof.
  unfold loop at 1. rewrite for_range_S. fold (loop n oracle).
  unfold balance, data. destruct (loop n oracle) as [b d]. simpl.
  destruct (iteration (oracle n) b). reflexivity.
Qed.

Lemma data_length (n : nat) (oracle : nat -> draws) : List.length (data n oracle) = n.
Proof.
  induction n as [|n IH].
  - reflexivity.
  - unfold data. rewrite loop_S. simpl. rewrite length_app. fold (data n oracle).
    rewrite IH. simpl. lia.
Qed.

Lemma data_nth (n i : nat) (oracle : nat -> draws) (default : row) :
  (i < n)%nat ->
  nth i (data n oracle) default = fst (iteration (oracle i) (balance oracle i)).
Proof.
  induction n as [|n IH]; intros Hi; [lia|].
  unfold data. rewrite loop_S. simpl. fold (data n oracle).
  destruct (Nat.eq_dec i n) as [->|Hne].
  - rewrite app_nth2 by (rewrite data_length; lia).
    rewrite data_length, Nat.sub_diag. reflexivity.
  - rewrite app_nth1 by (rewrite data_length; lia). apply IH. lia.
Qed.

Lemma balance_S (oracle : nat -> draws) (i : nat) :
  balance oracle (S i) = snd (iteration (oracle i) (balance oracle i)).
Proof. unfold balance at 1. rewrite loop_S. reflexivity. Qed.

Lemma iteration_saldo_anterior (d : draws) (b : Q) :
  get "Saldo_Anterior" (fst (iteration d b)) = Some (VNum (PyFloat (round_float b 2))).
Proof.
  unfold iteration. destruct (transaction d b) as [[t v] nb]. reflexivity.
Qed.

Lemma iteration_saldo_apos (d : draws) (b : Q) :
  get "Saldo_Apos" (fst (iteration d b))
  = Some (VNum (PyFloat (round_float (snd (iteration d b)) 2))).
Proof.
  unfold iteration. destruct (transaction d b) as [[t v] nb]. reflexivity.
Qed.

(** Each iteration adds the value of an ['Entrada'] to the balance and
    subtracts the value of any other transaction. *)
Lemma iteration_signed_delta (d : draws) (b : Q) :
  exists t v,
    get "Tipo" (fst (iteration d b)) = Some (VStr t) /\
    get "Valor" (fst (iteration d b)) = Some (VNum (PyFloat v)) /\
    snd (iteration d b) = if String.eqb t "Entrada" then (b + v)%Q else (b - v)%Q.
Proof.
  unfold iteration, transaction.
  destruct (String.eqb (np_choice types type_weights (type_u d)) "Entrada") eqn:E;
    do 2 eexists; (split; [reflexivity | split; [reflexivity |]]);
    rewrite E; reflexivity.
Qed.

End CashflowFacts.

(** C1. In the cash-flow generator, for every row count and every
    sequence of draws, iteration [i] reads the running balance (100000
    before the first row) into [Saldo_Anterior], applies the signed
    transaction value to it (the row's [Valor] is added for an
    ['Entrada'] and subtracted otherwise, that is for a ['Saída']),
    writes the result into [Saldo_Apos] and threads it forward: each
    row after the first has as [Saldo_Anterior] exactly the
    [Saldo_Apos] of the row before it. *)
Theorem cashflow_prefix_consistency (n : nat) (oracle : nat -> Cashflow.draws) (i : nat) :
  (i < n)%nat ->
  let r := nth i (Cashflow.data n oracle) [] in
  let current_balance := PyFloat (Cashflow.balance oracle i) in
  let new_balance := PyFloat (Cashflow.balance oracle (S i)) in
  exists t v,
    get "Tipo" r = Some (VStr t) /\
    get "Valor" r = Some (VNum v) /\
    new_balance
    = (if String.eqb t "Entrada" then add current_balance v else sub current_balance v) /\
    get "Saldo_Anterior" r = Some (VNum (round current_balance 2)) /\
    get "Saldo_Apos" r = Some (VNum (round new_balance 2)) /\
    ((0 < i)%nat ->
     get "Saldo_Anterior" r = get "Saldo_Apos" (nth (i - 1) (Cashflow.data n oracle) [])) /\
    (i = 0%nat -> current_balance = PyFloat 100000).
Proof.
  intros Hi. cbv zeta. rewrite CashflowFacts.data_nth by exact Hi.
  destruct (CashflowFacts.iteration_signed_delta (oracle i) (Cashflow.balance oracle i))
    as [t [v [Ht [Hv Hs]]]].
  exists t, (PyFloat v).
  split; [exact Ht|]. split; [exact Hv|].
  split; [rewrite CashflowFacts.balance_S, Hs; destruct (String.eqb t "Entrada"); reflexivity|].
  split; [apply CashflowFacts.iteration_saldo_anterior|].
  split; [rewrite CashflowFacts.balance_S; apply CashflowFacts.iteration_saldo_apos|].
  split.
  - intros Hpos. destruct i as [|j]; [lia|].
    replace (S j - 1)%nat with j by lia.
    rewrite CashflowFacts.data_nth by lia.
    rewrite CashflowFacts.iteration_saldo_anterior, CashflowFacts.iteration_saldo_apos.
    rewrite CashflowFacts.balance_S. reflexivity.
  - intros E. subst i. reflexivity.
Qed.

Lemma cashflow_prefix_consistency_witness :
  (2 < 4)%nat /\
  let r := nth 2 (Cashflow.data 4 Samples.cashflow) [] in
  let current_balance := PyFloat (Cashflow.balance Samples.cashflow 2) in
  let new_balance := PyFloat (Cashflow.balance Samples.cashflow 3) in
  exists t v,
    get "Tipo" r = Some (VStr t) /\
    get "Valor" r = Some (VNum v) /\
    new_balance
    = (if String.eqb t "Entrada" then add current_balance v else sub current_balance v) /\
    get "Saldo_Anterior" r = Some (VNum (round current_balance 2)) /\
    get "Saldo_Apos" r = Some (VNum (round new_balance 2)) /\
    ((0 < 2)%nat ->
     get "Saldo_Anterior" r = get "Saldo_Apos" (nth (2 - 1) (Cashflow.data 4 Samples.cashflow) [])) /\
    (2%nat = 0%nat -> current_balance = PyFloat 100000).
Proof.
  split; [lia|]. apply (cashflow_prefix_consistency 4 Samples.cashflow 2). lia.
Defined.

Example cashflow_sample_rows :
  forallb Cashflow.valid [Samples.cashflow_in; Samples.cashflow_out] = true /\
  map (get "Saldo_Apos") (Cashflow.data 3 Samples.cashflow)
  = [Some (VNum (PyFloat (10250046 # 100))); Some (VNum (PyFloat (10250046 # 100)));
     Some (VNum (PyFloat (10500092 # 100)))] /\
  map (get "Tipo") (Cashflow.data 2 Samples.cashflow)
  = [Some (VStr "Entrada"); Some (VStr "Saída")].
Proof. repeat split. Qed.

(** ** Generators without running state *)

Lemma map_nth_seq {A B : Type} (g : A -> B) (h : nat -> B) (l : list A) (d : A) :
  (forall i, (i < List.length l)%nat -> g (nth i l d) = h i) ->
  map g l = map h (seq 0 (List.length l)).
Proof.
  intros H. apply (nth_ext _ _ (g d) (h 0%nat)).
  - rewrite !length_map, length_seq. reflexivity.
  - intros i Hi. rewrite length_map in Hi.
    rewrite (map_nth g), (map_nth h), seq_nth by exact Hi. apply H. exact Hi.
Qed.

Lemma ecommerce_data (n : nat) (oracle : nat -> Ecommerce.draws) :
  Ecommerce.data n oracle = map (fun i => Ecommerce.row_of i (oracle i)) (seq 0 n).
Proof. exact (for_range_append (fun i => Ecommerce.row_of i (oracle i)) n). Qed.

Lemma hr_data (n : nat) (oracle : nat -> HR.draws) :
  HR.data n oracle = map (fun i => HR.row_of i (oracle i)) (seq 0 n).
Proof. exact (for_range_append (fun i => HR.row_of i (oracle i)) n). Qed.

Lemma logistics_data (n : nat) (oracle : nat -> Logistics.draws) :
  Logistics.data n oracle = map (fun i => Logistics.row_of i (oracle i)) (seq 0 n).
Proof. exact (for_range_append (fun i => Logistics.row_of i (oracle i)) n). Qed.

Lemma inventory_data (n : nat) (oracle : nat -> Inventory.draws) :
  Inventory.data n oracle = map (fun i => Inventory.row_of i (oracle i)) (seq 0 n).
Proof. exact (for_range_append (fun i => Inventory.row_of i (oracle i)) n). Qed.

Lemma customers_data (n : nat) (oracle : nat -> Customers.draws) :
  Customers.data n oracle = map (fun i => Customers.row_of i (oracle i)) (seq 0 n).
Proof. exact (for_range_append (fun i => Customers.row_of i (oracle i)) n). Qed.

Lemma suppliers_data (n : nat) (oracle : nat -> Suppliers.draws) :
  Suppliers.data n oracle = map (fun i => Suppliers.row_of i (oracle i)) (seq 0 n).
Proof. exact (for_range_append (fun i => Suppliers.row_of i (oracle i)) n). Qed.

Lemma controllership_data (n : nat) (oracle : nat -> Controllership.draws) :
  Controllership.data n oracle = map (fun i => Controllership.row_of i (oracle i)) (seq 0 n).
Proof. exact (for_range_append (fun i => Controllership.row_of i (oracle i)) n). Qed.

Example ecommerce_sample_rows :
  forallb Ecommerce.valid
    [Samples.ecommerce_plain; Samples.ecommerce_negative; Samples.ecommerce_discounted] = true /\
  map (get "Total") (Ecommerce.data 3 Samples.ecommerce)
  = [Some (VNum (PyFloat (31548 # 100))); Some (VNum (PyFloat (-1435 # 100)));
     Some (VNum (PyFloat (79000 # 100)))] /\
  map (get "Quantidade") (Ecommerce.data 3 Samples.ecommerce)
  = [Some (VNum (PyInt 2)); Some (VNum (PyInt 1)); Some (VNum (PyInt 4))] /\
  map (get "Desconto") (Ecommerce.data 3 Samples.ecommerce)
  = [Some (VNum (PyInt 0)); Some (VNum (PyInt 0)); Some (VNum (PyFloat (2000 # 100)))] /\
  map (get "ID_Pedido") (Ecommerce.data 3 Samples.ecommerce)
  = [Some (VStr "PED000001"); Some (VStr "PED000002"); Some (VStr "PED000003")].
Proof. repeat split. Qed.

(** C2. In the e-commerce generator, the [Total] of every row is
    [Quantidade * Preco_Unitario + Frete - Desconto] rounded to two
    decimals, computed from the values stored in that same row. *)
Theorem ecommerce_total (n : nat) (oracle : nat -> Ecommerce.draws) (i : nat) :
  (i < n)%nat ->
  exists quantidade preco frete desconto,
    let r := nth i (Ecommerce.data n oracle) [] in
    get "Quantidade" r = Some (VNum quantidade) /\
    get "Preco_Unitario" r = Some (VNum preco) /\
    get "Frete" r = Some (VNum frete) /\
    get "Desconto" r = Some (VNum desconto) /\
    get "Total" r = Some (VNum (round (sub (add (mul quantidade preco) frete) desconto) 2)).
Proof.
  intros Hi. rewrite ecommerce_data, nth_map_seq by exact Hi.
  unfold Ecommerce.row_of. do 4 eexists. cbv zeta.
  repeat split; reflexivity.
Qed.

Lemma ecommerce_total_witness :
  (2 < 3)%nat /\
  exists quantidade preco frete desconto,
    let r := nth 2 (Ecommerce.data 3 Samples.ecommerce) [] in
    get "Quantidade" r = Some (VNum quantidade) /\
    get "Preco_Unitario" r = Some (VNum preco) /\
    get "Frete" r = Some (VNum frete) /\
    get "Desconto" r = Some (VNum desconto) /\
    get "Total" r = Some (VNum (round (sub (add (mul quantidade preco) frete) desconto) 2)).
Proof.
  split; [lia|]. apply (ecommerce_total 3 Samples.ecommerce 2). lia.
Defined.

(** *** Columns of same-shaped rows *)

Lemma add_column_present (cols : list string) (ks : list string) :
  (forall k, In k ks -> In k cols) -> fold_left Csv.add_column ks cols = cols.
Proof.
  induction ks as [|k ks IH]; intros H; [reflexivity|].
  simpl. unfold Csv.add_column at 2.
  assert (E : existsb (String.eqb k) cols = true).
  { apply existsb_exists. exists k. split; [apply H; left; reflexivity | apply String.eqb_refl]. }
  rewrite E. apply IH. intros k' Hk'. apply H. right. exact Hk'.
Qed.

Lemma add_column_fresh (ks cols : list string) :
  NoDup (cols ++ ks) -> fold_left Csv.add_column ks cols = (cols ++ ks)%list.
Proof.
  revert cols. induction ks as [|k ks IH]; intros cols H.
  - rewrite app_nil_r. reflexivity.
  - simpl. unfold Csv.add_column at 2.
    assert (E : existsb (String.eqb k) cols = false).
    { apply Bool.not_true_is_false. intros C. apply existsb_exists in C.
      destruct C as [k' [Hin Heq]]. apply String.eqb_eq in Heq. subst k'.
      apply NoDup_remove_2 in H. apply H. apply in_or_app. left. exact Hin. }
    rewrite E. replace (cols ++ k :: ks)%list with ((cols ++ [k]) ++ ks)%list
      by (rewrite <- app_assoc; reflexivity).
    apply IH. rewrite <- app_assoc. exact H.
Qed.

(** The columns of a non-empty list of rows that all carry the key list
    [ks] are [ks]. *)
Lemma columns_same_shape (ks : list string) (r : row) (data : list row) :
  NoDup ks -> (forall r', In r' (r :: data) -> keys r' = ks) ->
  Csv.columns (r :: data) = ks.
Proof.
  intros Hnd H. unfold Csv.columns. simpl.
  rewrite (H r) by (left; reflexivity).
  rewrite (add_column_fresh ks []) by exact Hnd. simpl.
  assert (G : forall l, (forall r', In r' l -> keys r' = ks) ->
              fold_left (fun cols r0 => fold_left Csv.add_column (keys r0) cols) l ks = ks).
  { induction l as [|a l IH]; intros Hl; [reflexivity|].
    simpl. rewrite (Hl a) by (left; reflexivity).
    rewrite add_column_present by auto. apply IH. intros; apply Hl; right; assumption. }
  apply G. intros r' Hr'. apply H. right. exact Hr'.
Qed.

Lemma distinct_NoDup (l : list string) : distinct l = true -> NoDup l.
Proof.
  induction l as [|x l IH]; intros H; [constructor|].
  simpl in H. apply andb_prop in H. destruct H as [Hx Hl].
  constructor; [|apply IH; exact Hl].
  intros Hin. apply negb_true_iff in Hx.
  assert (E : existsb (String.eqb x) l = true).
  { apply existsb_exists. exists x. split; [exact Hin | apply String.eqb_refl]. }
  congruence.
Qed.

Lemma ecommerce_schema_NoDup : NoDup Schema.ecommerce.
Proof. apply distinct_NoDup. reflexivity. Qed.

(** Every row of the e-commerce generator carries the 20 keys of its
    row literal. *)
Lemma ecommerce_keys (n : nat) (oracle : nat -> Ecommerce.draws) :
  Forall (fun r => keys r = Schema.ecommerce) (Ecommerce.data n oracle).
Proof.
  rewrite ecommerce_data. apply Forall_forall. intros r Hr.
  apply in_map_iff in Hr. destruct Hr as [i [<- _]]. reflexivity.
Qed.

(** C3, as the design document states it, fails: a row of the
    e-commerce generator, and so the header, has 20 fields, not 19. *)
Lemma ecommerce_header_not_19 :
  List.length (Ecommerce.data 10 Samples.ecommerce) = 10%nat /\
  List.length (Csv.columns (Ecommerce.data 10 Samples.ecommerce)) <> 19%nat /\
  Forall (fun r => List.length r <> 19%nat) (Ecommerce.data 10 Samples.ecommerce).
Proof.
  split; [reflexivity|]. split.
  - vm_compute. discriminate.
  - vm_compute. repeat constructor; discriminate.
Qed.

(** C3, amended. For every row count [n] the e-commerce generator
    produces exactly [n] rows (10 rows for 10), every row carries the
    same 20 keys in the same order, and these 20 keys are the header of
    the file as soon as there is one row. *)
Theorem ecommerce_shape (n : nat) (oracle : nat -> Ecommerce.draws) :
  List.length (Ecommerce.data n oracle) = n /\
  List.length (Ecommerce.data 10 oracle) = 10%nat /\
  List.length Schema.ecommerce = 20%nat /\
  Forall (fun r => keys r = Schema.ecommerce) (Ecommerce.data n oracle) /\
  Csv.columns (Ecommerce.data (S n) oracle) = Schema.ecommerce.
Proof.
  pose proof (fun m => ecommerce_keys m oracle) as K.
  rewrite !ecommerce_data, !length_map, !length_seq.
  repeat split; [rewrite <- ecommerce_data; apply K|].
  rewrite <- ecommerce_data.
  destruct (Ecommerce.data (S n) oracle) as [|r data] eqn:E.
  - apply (f_equal (@List.length row)) in E.
    rewrite ecommerce_data, length_map, length_seq in E. discriminate.
  - apply columns_same_shape; [exact ecommerce_schema_NoDup|].
    rewrite <- E. apply Forall_forall. apply K.
Qed.

(** ** Sequential identifiers *)

Lemma parse_zeros (k : nat) (s : string) (n : N) :
  parse_decimal s = Some n -> parse_decimal (zeros k ++ s) = Some n.
Proof.
  intros H. induction k as [|k IH]; [exact H|].
  unfold parse_decimal in *. simpl.
  destruct (NilEmpty.uint_of_string (zeros k ++ s)) as [d|]; [|discriminate].
  simpl in *. exact IH.
Qed.

Lemma parse_zfill (width : nat) (n : N) :
  parse_decimal (zfill width (str_nat n)) = Some n.
Proof.
  unfold zfill. apply parse_zeros. unfold parse_decimal, str_nat.
  rewrite NilEmpty.usu. simpl. f_equal. apply DecimalN.Unsigned.of_to.
Qed.

Lemma format_0d_inj (width : nat) (a b : Z) :
  0 <= a -> 0 <= b -> format_0d width a = format_0d width b -> a = b.
Proof.
  intros Ha Hb H. unfold format_0d in H.
  destruct (Z.ltb_spec a 0); [lia|]. destruct (Z.ltb_spec b 0); [lia|].
  apply (f_equal parse_decimal) in H. rewrite !parse_zfill in H.
  inversion H. lia.
Qed.

Lemma append_inj_r (p s t : string) : p ++ s = p ++ t -> s = t.
Proof.
  induction p as [|c p IH]; simpl; intros H; [exact H|].
  inversion H. apply IH. assumption.
Qed.

Lemma sequential_id_inj (prefix : string) (width : nat) :
  Injective (sequential_id prefix width).
Proof.
  intros i j H. unfold sequential_id in H. inversion H as [H'].
  apply append_inj_r, format_0d_inj in H'; lia.
Qed.

Lemma sequential_ids_NoDup (prefix : string) (width n : nat) :
  NoDup (map (sequential_id prefix width) (seq 0 n)).
Proof.
  apply Injective_map_NoDup; [apply sequential_id_inj | apply seq_NoDup].
Qed.

Lemma sequential_of_rows (key prefix : string) (width : nat) (data : list row) :
  (forall i, (i < List.length data)%nat ->
             get key (nth i data []) = sequential_id prefix width i) ->
  sequential key prefix width data.
Proof.
  intros H. assert (E := map_nth_seq (get key) (sequential_id prefix width) data [] H).
  split; [exact E|]. rewrite E. apply sequential_ids_NoDup.
Qed.

Lemma sequential_of_map (key prefix : string) (width n : nat) (row_of : nat -> row) :
  (forall i, get key (row_of i) = sequential_id prefix width i) ->
  sequential key prefix width (map row_of (seq 0 n)).
Proof.
  intros H. apply sequential_of_rows. intros i Hi.
  rewrite length_map, length_seq in Hi. rewrite nth_map_seq by exact Hi. apply H.
Qed.

Lemma sequential_of_raising (key prefix : string) (width n : nat)
    (row_of : nat -> result row) (data : list row) :
  (forall i r, row_of i = Ok r -> get key r = sequential_id prefix width i) ->
  for_range_raising n (fun i data => row <- row_of i ;; Ok (data ++ [row])%list) [] = Ok data ->
  sequential key prefix width data.
Proof.
  intros H Hd. apply for_range_raising_append in Hd. destruct Hd as [Hlen Hnth].
  apply sequential_of_rows. intros i Hi. apply H. apply Hnth. lia.
Qed.

Lemma marketing_row_id (i : nat) (d : Marketing.draws) (r : row) :
  Marketing.row_of i d = Ok r -> get "ID_Campanha" r = sequential_id "CAMP" 5 i.
Proof.
  unfold Marketing.row_of.
  destruct (Marketing.ctr d); [|discriminate].
  destruct (Marketing.cpc d); [|discriminate].
  destruct (Marketing.cpa d); [|discriminate].
  destruct (Marketing.roi d); [|discriminate].
  simpl. intros H. inversion H. reflexivity.
Qed.

Lemma production_row_id (i : nat) (d : Production.draws) (r : row) :
  Production.row_of i d = Ok r -> get "ID_Ordem" r = sequential_id "ORD" 6 i.
Proof.
  unfold Production.row_of.
  destruct (Production.efficiency d); [|discriminate].
  simpl. intros H. inversion H. reflexivity.
Qed.

(** C8. In each of the seven generators that number their rows, the
    identifier of the [i]-th row (0-based) is the generator's prefix
    followed by [i + 1] padded with zeros to the generator's width, and
    therefore no two rows of a run share an identifier. *)
Theorem sequential_identifiers (n : nat) :
  (forall o, List.length (Ecommerce.data n o) = n
             /\ sequential "ID_Pedido" "PED" 6 (Ecommerce.data n o)) /\
  (forall o, List.length (HR.data n o) = n
             /\ sequential "ID_Funcionario" "FUN" 5 (HR.data n o)) /\
  (forall o, List.length (Logistics.data n o) = n
             /\ sequential "ID_Entrega" "ENT" 6 (Logistics.data n o)) /\
  (forall o, List.length (Customers.data n o) = n
             /\ sequential "ID_Cliente" "CLI" 6 (Customers.data n o)) /\
  (forall o, List.length (Suppliers.data n o) = n
             /\ sequential "ID_Fornecedor" "FOR" 5 (Suppliers.data n o)) /\
  (forall o data, Marketing.data n o = Ok data ->
             List.length data = n /\ sequential "ID_Campanha" "CAMP" 5 data) /\
  (forall o data, Production.data n o = Ok data ->
             List.length data = n /\ sequential "ID_Ordem" "ORD" 6 data).
Proof.
  repeat match goal with
         | |- _ /\ _ => split
         | |- forall _, _ => intro
         end.
  - rewrite ecommerce_data, length_map, length_seq. reflexivity.
  - rewrite ecommerce_data. apply sequential_of_map. reflexivity.
  - rewrite hr_data, length_map, length_seq. reflexivity.
  - rewrite hr_data. apply sequential_of_map. reflexivity.
  - rewrite logistics_data, length_map, length_seq. reflexivity.
  - rewrite logistics_data. apply sequential_of_map. reflexivity.
  - rewrite customers_data, length_map, length_seq. reflexivity.
  - rewrite customers_data. apply sequential_of_map. reflexivity.
  - rewrite suppliers_data, length_map, length_seq. reflexivity.
  - rewrite suppliers_data. apply sequential_of_map. reflexivity.
  - apply (for_range_raising_append (fun i => Marketing.row_of i (o i))). assumption.
  - apply (sequential_of_raising _ _ _ n (fun i => Marketing.row_of i (o i))); [|assumption].
    intros i r. apply marketing_row_id.
  - apply (for_range_raising_append (fun i => Production.row_of i (o i))). assumption.
  - apply (sequential_of_raising _ _ _ n (fun i => Production.row_of i (o i))); [|assumption].
    intros i r. apply production_row_id.
Qed.

Lemma sequential_identifiers_witness :
  exists data,
    Marketing.data 2 Samples.marketing = Ok data /\
    List.length data = 2%nat /\ sequential "ID_Campanha" "CAMP" 5 data.
Proof.
  destruct (sequential_identifiers 2) as (_ & _ & _ & _ & _ & M & _).
  destruct (Marketing.data 2 Samples.marketing) as [data|e] eqn:E.
  - exists data. split; [reflexivity|]. apply (M Samples.marketing). exact E.
  - vm_compute in E. discriminate E.
Defined.

(** ** Rounding and truncation *)

Lemma round_half_even_bounds (q : Q) :
  Qfloor q <= round_half_even q <= Qfloor q + 1.
Proof.
  unfold round_half_even.
  destruct (Qcompare (q - inject_Z (Qfloor q)) (1 # 2)); [destruct (Z.even _)| |]; lia.
Qed.

Lemma round_half_even_ge (q : Q) (k : Z) :
  (inject_Z k <= q)%Q -> k <= round_half_even q.
Proof.
  intros H. apply Qfloor_resp_le in H. rewrite Qfloor_Z in H.
  pose proof (round_half_even_bounds q). lia.
Qed.

Lemma round_half_even_le (q : Q) (k : Z) :
  (q <= inject_Z k)%Q -> round_half_even q <= k.
Proof.
  intros H. pose proof (Qfloor_resp_le _ _ H) as Hf. rewrite Qfloor_Z in Hf.
  destruct (Z.eq_dec (Qfloor q) k) as [E|NE].
  - unfold round_half_even. rewrite E.
    assert (L : (q - inject_Z k <= 0)%Q) by (apply Qle_minus_iff in H; apply Qle_minus_iff;
      setoid_replace (0 + - (q - inject_Z k))%Q with (inject_Z k + - q)%Q by ring; exact H).
    assert (C : Qcompare (q - inject_Z k) (1 # 2) = Lt).
    { apply Qlt_alt. eapply Qle_lt_trans; [exact L | reflexivity]. }
    rewrite C. lia.
  - pose proof (round_half_even_bounds q). lia.
Qed.

Lemma round_half_even_small (q : Q) :
  (0 <= q)%Q -> (q < 1 # 2)%Q -> round_half_even q = 0.
Proof.
  intros H0 H1.
  assert (F : Qfloor q = 0).
  { pose proof (Qfloor_resp_le _ _ H0) as A. change 0%Q with (inject_Z 0) in A.
    rewrite Qfloor_Z in A.
    assert (B : (q <= inject_Z 0 + (1 # 2))%Q) by (apply Qlt_le_weak; exact H1).
    assert (C : Qfloor q < 1).
    { apply Z.lt_nge. intros D.
      assert (E : (inject_Z 1 <= q)%Q).
      { eapply Qle_trans; [|apply Qfloor_le]. rewrite <- Zle_Qle. exact D. }
      apply (Qlt_irrefl q). eapply Qlt_le_trans; [exact H1|].
      eapply Qle_trans; [|exact E]. discriminate. }
    lia. }
  unfold round_half_even. rewrite F.
  assert (C : Qcompare (q - inject_Z 0) (1 # 2) = Lt).
  { apply Qlt_alt. setoid_replace (q - inject_Z 0)%Q with q by (unfold inject_Z; ring).
    exact H1. }
  rewrite C. reflexivity.
Qed.

Lemma scale_le (q : Q) (k : Z) (p : positive) :
  (q <= inject_Z k)%Q -> (q * inject_Z (Zpos p) <= inject_Z (k * Zpos p))%Q.
Proof.
  intros H. rewrite inject_Z_mult. apply Qmult_le_compat_r; [exact H|].
  change 0%Q with (inject_Z 0). rewrite <- Zle_Qle. lia.
Qed.

Lemma scale_ge (q : Q) (k : Z) (p : positive) :
  (inject_Z k <= q)%Q -> (inject_Z (k * Zpos p) <= q * inject_Z (Zpos p))%Q.
Proof.
  intros H. rewrite inject_Z_mult. apply Qmult_le_compat_r; [exact H|].
  change 0%Q with (inject_Z 0). rewrite <- Zle_Qle. lia.
Qed.

(** Rounding to [ndigits] decimals does not cross an integer. *)
Lemma round_float_ge (q : Q) (ndigits : nat) (k : Z) :
  (inject_Z k <= q)%Q -> (inject_Z k <= round_float q ndigits)%Q.
Proof.
  intros H. apply (scale_ge _ _ (pow10 ndigits)), round_half_even_ge in H.
  unfold round_float. set (z := round_half_even _) in *.
  unfold Qle. simpl. lia.
Qed.

Lemma round_float_le (q : Q) (ndigits : nat) (k : Z) :
  (q <= inject_Z k)%Q -> (round_float q ndigits <= inject_Z k)%Q.
Proof.
  intros H. apply (scale_le _ _ (pow10 ndigits)), round_half_even_le in H.
  unfold round_float. set (z := round_half_even _) in *.
  unfold Qle. simpl. lia.
Qed.

Lemma round_float_nonneg (q : Q) (ndigits : nat) :
  (0 <= q)%Q -> (0 <= round_float q ndigits)%Q.
Proof. exact (round_float_ge q ndigits 0). Qed.


Lemma round_float_underflow (q : Q) :
  (0 <= q)%Q -> (q < 1 # 200)%Q -> round_float q 2 = (0 # 100).
Proof.
  intros H0 H1. unfold round_float. change (pow10 2) with 100%positive.
  rewrite round_half_even_small; [reflexivity | |].
  - apply Qmult_le_0_compat; [exact H0 | discriminate].
  - setoid_replace (1 # 2)%Q with ((1 # 200) * inject_Z 100)%Q by reflexivity.
    apply Qmult_lt_compat_r; [reflexivity | exact H1].
Qed.

(** [int(x)] of a non-negative float is its floor. *)
Lemma int_floor (q : Q) : (0 <= q)%Q -> Py.int q = Qfloor q.
Proof.
  destruct q as [a b]. unfold Qle, Py.int, Qfloor. simpl. intros H.
  apply Z.quot_div_nonneg; lia.
Qed.

Lemma int_bounds (q : Q) (k : Z) :
  (0 <= q)%Q -> (q <= inject_Z k)%Q -> 0 <= Py.int q <= k.
Proof.
  intros H0 H1. rewrite int_floor by exact H0. split.
  - change 0 with (Qfloor (inject_Z 0)) at 1. rewrite Qfloor_Z.
    apply Qfloor_resp_le in H0. change 0%Q with (inject_Z 0) in H0.
    rewrite Qfloor_Z in H0. exact H0.
  - apply Qfloor_resp_le in H1. rewrite Qfloor_Z in H1. exact H1.
Qed.

(** The sampler ranges as propositions. *)
Lemma beta_range_spec (b : Q) : beta_range b = true -> (0 <= b)%Q /\ (b <= 1)%Q.
Proof.
  unfold beta_range. intros H. apply andb_prop in H. destruct H as [A B].
  split; apply Qle_bool_iff; assumption.
Qed.

Lemma lognormal_range_spec (x : Q) : lognormal_range x = true -> (0 < x)%Q.
Proof.
  unfold lognormal_range. intros H. apply negb_true_iff in H.
  apply Qnot_le_lt. intros C. apply Qle_bool_iff in C. congruence.
Qed.

Lemma randint_range_spec (a b r : Z) : randint_range a b r = true -> a <= r <= b.
Proof. unfold randint_range. intros H. apply andb_prop in H. lia. Qed.

Example sample_draws_valid :
  Production.valid Samples.production_order = true /\
  forallb Marketing.valid
    [Samples.marketing_campaign; Samples.marketing_no_impressions;
     Samples.marketing_underflow] = true /\
  Logistics.valid Samples.logistics_negative = true /\
  HR.valid Samples.hr_employee = true.
Proof. repeat split. Qed.

Example production_sample_rows :
  exists data, Production.data 2 Samples.production = Ok data /\
    map (get "Quantidade_Produzida") data = [Some (VNum (PyInt 800)); Some (VNum (PyInt 800))] /\
    map (get "Eficiencia") data
    = [Some (VNum (PyFloat (8000 # 100))); Some (VNum (PyFloat (8000 # 100)))] /\
    map (get "Data_Fim") data = [Some (VStr "2026-07-03 00:00"); Some (VStr "2026-07-03 00:00")].
Proof. eexists. split; [vm_compute; reflexivity|]. repeat split. Qed.

Example marketing_sample_rows :
  exists data, Marketing.data 2 Samples.marketing = Ok data /\
    map (get "CTR") data = [Some (VNum (PyFloat (1000 # 100))); Some (VNum (PyInt 0))] /\
    map (get "CPC") data = [Some (VNum (PyFloat (8 # 100))); Some (VNum (PyInt 0))] /\
    map (get "CPA") data = [Some (VNum (PyFloat (80 # 100))); Some (VNum (PyInt 0))] /\
    map (get "ROI") data
    = [Some (VNum (PyFloat (614740 # 100))); Some (VNum (PyFloat (-10000 # 100)))].
Proof. eexists. split; [vm_compute; reflexivity|]. repeat split. Qed.

(** ** Production: produced quantity and efficiency *)

(** Turning a [valid] conjunction into the ranges of its samples. *)
Ltac split_valid H :=
  rewrite !andb_true_iff in H; decompose [and] H; clear H;
  repeat match goal with
         | V : randint_range _ _ _ = true |- _ => apply randint_range_spec in V
         | V : beta_range _ = true |- _ => apply beta_range_spec in V; destruct V
         | V : lognormal_range _ = true |- _ => apply lognormal_range_spec in V
         end.

Lemma production_quantities (d : Production.draws) :
  Production.valid d = true ->
  100 <= Production.planned_qty d <= 10000 /\
  0 <= Production.produced_qty d <= Production.planned_qty d.
Proof.
  intros H. unfold Production.valid in H. split_valid H.
  unfold Production.produced_qty, Production.planned_qty.
  split; [assumption|].
  assert (P : (0 <= inject_Z (Production.planned d))%Q)
    by (change 0%Q with (inject_Z 0); rewrite <- Zle_Qle; lia).
  apply int_bounds.
  - apply Qmult_le_0_compat; assumption.
  - apply Qle_trans with (1 * inject_Z (Production.planned d))%Q.
    + rewrite Qmult_comm. apply Qmult_le_compat_r; assumption.
    + rewrite Qmult_1_l. apply Qle_refl.
Qed.

Lemma production_efficiency (d : Production.draws) :
  Production.valid d = true ->
  exists e, Production.efficiency d = Ok (PyFloat e) /\
            (0 <= round_float e 2)%Q /\ (round_float e 2 <= 100)%Q.
Proof.
  intros H. destruct (production_quantities d H) as [[P0 P1] [Q0 Q1]].
  unfold Production.efficiency, truediv. simpl to_float.
  assert (Pz : (0 < inject_Z (Production.planned_qty d))%Q)
    by (change 0%Q with (inject_Z 0); rewrite <- Zlt_Qlt; lia).
  assert (E : Qeq_bool (inject_Z (Production.planned_qty d)) 0 = false).
  { apply Bool.not_true_is_false. intros C. apply Qeq_bool_iff in C.
    rewrite C in Pz. discriminate. }
  rewrite E. simpl. eexists. split; [reflexivity|].
  set (ratio := (inject_Z (Production.produced_qty d)
                 / inject_Z (Production.planned_qty d))%Q).
  assert (R0 : (0 <= ratio)%Q).
  { apply Qle_shift_div_l; [exact Pz|]. rewrite Qmult_0_l.
    change 0%Q with (inject_Z 0). rewrite <- Zle_Qle. lia. }
  assert (R1 : (ratio <= 1)%Q).
  { apply Qle_shift_div_r; [exact Pz|]. rewrite Qmult_1_l. rewrite <- Zle_Qle. lia. }
  split.
  - apply round_float_nonneg. apply Qmult_le_0_compat; [exact R0 | discriminate].
  - apply (round_float_le _ 2 100).
    setoid_replace (inject_Z 100) with (1 * inject_Z 100)%Q by ring.
    apply Qmult_le_compat_r; [exact R1 | discriminate].
Qed.

Lemma production_row (i : nat) (d : Production.draws) :
  Production.valid d = true ->
  exists r, Production.row_of i d = Ok r /\ production_row_bounded r.
Proof.
  intros H. destruct (production_quantities d H) as [_ [_ Q1]].
  destruct (production_efficiency d H) as [e [He [E0 E1]]].
  unfold Production.row_of. rewrite He. simpl. eexists. split; [reflexivity|].
  exists (Production.planned_qty d), (Production.produced_qty d), (round_float e 2).
  repeat split; assumption.
Qed.

(** C10. In the production generator, under the ranges of its samplers,
    the run completes and in every row [Quantidade_Produzida] is at most
    [Quantidade_Planejada] and [Eficiencia] lies between 0 and 100. *)
Theorem production_efficiency_bounded (n : nat) (oracle : nat -> Production.draws) :
  (forall i, (i < n)%nat -> Production.valid (oracle i) = true) ->
  exists data,
    Production.data n oracle = Ok data /\
    List.length data = n /\
    Forall production_row_bounded data.
Proof.
  intros H.
  destruct (for_range_raising_total (fun i => Production.row_of i (oracle i)) n)
    as [data Hd].
  { intros i Hi. destruct (production_row i (oracle i) (H i Hi)) as [r [Hr _]].
    exists r. exact Hr. }
  exists data. split; [exact Hd|].
  destruct (for_range_raising_append _ _ _ Hd) as [Hlen Hnth].
  split; [exact Hlen|].
  apply Forall_forall. intros r Hr.
  destruct (In_nth _ _ [] Hr) as [i [Hi' <-]].
  assert (Hi : (i < n)%nat) by (rewrite <- Hlen; exact Hi').
  destruct (production_row i (oracle i) (H i Hi)) as [r' [Hr' Hb]].
  rewrite (Hnth i [] Hi) in Hr'. inversion Hr' as [E]. subst r'. exact Hb.
Qed.

Lemma production_efficiency_bounded_witness :
  (forall i, (i < 2)%nat -> Production.valid (Samples.production i) = true) /\
  exists data,
    Production.data 2 Samples.production = Ok data /\
    List.length data = 2%nat /\
    Forall production_row_bounded data.
Proof.
  assert (V : forall i, (i < 2)%nat -> Production.valid (Samples.production i) = true)
    by (intros i _; reflexivity).
  split; [exact V|]. exact (production_efficiency_bounded 2 Samples.production V).
Defined.

(** ** Marketing: the ratio fields *)

Lemma inject_Z_nonzero (z : Z) : z <> 0 -> Qeq_bool (inject_Z z) 0 = false.
Proof.
  intros H. apply Bool.not_true_is_false. intros C. apply Qeq_bool_iff in C.
  unfold Qeq in C. simpl in C. lia.
Qed.

(** [CTR], [CPC] and [CPA] are guarded: they never raise, and they are
    the integer 0 when their denominator is 0. *)
Lemma marketing_guarded_ratios (d : Marketing.draws) :
  (exists ctr cpc cpa,
      Marketing.ctr d = Ok ctr /\ Marketing.cpc d = Ok cpc /\ Marketing.cpa d = Ok cpa) /\
  (Marketing.impressions d = 0 -> Marketing.ctr d = Ok (PyInt 0)) /\
  (Marketing.clicks d = 0 -> Marketing.cpc d = Ok (PyInt 0)) /\
  (Marketing.conversions d = 0 -> Marketing.cpa d = Ok (PyInt 0)).
Proof.
  unfold Marketing.ctr, Marketing.cpc, Marketing.cpa, truediv. simpl to_float.
  repeat split.
  - destruct (Z.gtb_spec (Marketing.impressions d) 0) as [I|I];
      [rewrite inject_Z_nonzero by lia|];
      (destruct (Z.gtb_spec (Marketing.clicks d) 0) as [C|C];
       [rewrite inject_Z_nonzero by lia|]);
      (destruct (Z.gtb_spec (Marketing.conversions d) 0) as [V|V];
       [rewrite inject_Z_nonzero by lia|]);
      simpl; do 3 eexists; repeat split; reflexivity.
  - intros E. rewrite E. reflexivity.
  - intros E. rewrite E. reflexivity.
  - intros E. rewrite E. reflexivity.
Qed.

(** [ROI] divides by the rounded investment without a guard. *)
Lemma marketing_roi_raises (d : Marketing.draws) :
  (Marketing.investment d == 0)%Q ->
  Marketing.roi d = Raise (ZeroDivisionError "float division by zero").
Proof.
  intros H. unfold Marketing.roi, truediv. simpl to_float.
  apply Qeq_bool_iff in H. rewrite H. reflexivity.
Qed.

(** C4, the failing input. With an investment sample of 0.004 (a valid
    log-normal sample) the investment rounds to 0.00 and the unguarded
    division of [roi] raises [ZeroDivisionError]: the generator aborts
    instead of storing 0 in [ROI]. *)
Theorem marketing_roi_unguarded :
  Marketing.valid Samples.marketing_underflow = true /\
  Marketing.investment Samples.marketing_underflow = (0 # 100) /\
  Marketing.roi Samples.marketing_underflow
  = Raise (ZeroDivisionError "float division by zero") /\
  Marketing.data 1 (fun _ => Samples.marketing_underflow)
  = Raise (ZeroDivisionError "float division by zero").
Proof. repeat split. Qed.

(** ** Normal samples *)

(** C6, as the design document states it, fails for [Quantidade]: its
    normal sample is truncated and clamped from below at 1, so a sample
    of -3 is stored as 1 and no draw makes the stored value negative. *)
Lemma ecommerce_quantity_clamped :
  (Ecommerce.quantity_normal Samples.ecommerce_negative == -3 # 1)%Q /\
  get "Quantidade" (nth 0 (Ecommerce.data 1 (fun _ => Samples.ecommerce_negative)) [])
  = Some (VNum (PyInt 1)) /\
  ~ (exists n oracle i q,
        (i < n)%nat /\
        get "Quantidade" (nth i (Ecommerce.data n oracle) []) = Some (VNum (PyInt q)) /\
        q < 0).
Proof.
  split; [reflexivity|]. split; [reflexivity|].
  intros [n [oracle [i [q [Hi [Hq Hneg]]]]]].
  rewrite ecommerce_data, nth_map_seq in Hq by exact Hi.
  unfold Ecommerce.row_of in Hq. simpl in Hq. inversion Hq as [E].
  unfold Py.max in E. destruct (Z.gtb_spec (Py.int (Ecommerce.quantity_normal (oracle i))) 1); lia.
Qed.

(** C6, amended. The normal-sampled fields other than [Quantidade]
    ([Preco_Unitario] and [Frete] of e-commerce; [Peso_Kg], [Volume_M3]
    and [Valor_Frete] of logistics) store the rounded raw sample with no
    clamping, and some draws make every one of them negative;
    [Quantidade] stores [max(1, int(sample))] and is at least 1. *)
Theorem normal_fields_unclamped (n : nat) :
  (forall oracle i, (i < n)%nat ->
     let r := nth i (Ecommerce.data n oracle) [] in
     let d := oracle i in
     get "Preco_Unitario" r
       = Some (VNum (PyFloat (round_float (Ecommerce.unit_price_normal d) 2))) /\
     get "Frete" r = Some (VNum (PyFloat (round_float (Ecommerce.freight_normal d) 2))) /\
     get "Quantidade" r
       = Some (VNum (PyInt (Py.max 1 (Py.int (Ecommerce.quantity_normal d))))) /\
     1 <= Py.max 1 (Py.int (Ecommerce.quantity_normal d))) /\
  (forall oracle i, (i < n)%nat ->
     let r := nth i (Logistics.data n oracle) [] in
     let d := oracle i in
     get "Peso_Kg" r = Some (VNum (PyFloat (round_float (Logistics.peso_normal d) 2))) /\
     get "Volume_M3" r = Some (VNum (PyFloat (round_float (Logistics.volume_normal d) 3))) /\
     get "Valor_Frete" r = Some (VNum (PyFloat (round_float (Logistics.frete_normal d) 2)))) /\
  (exists e l,
     Ecommerce.valid e = true /\ Logistics.valid l = true /\
     let re := nth 0 (Ecommerce.data 1 (fun _ => e)) [] in
     let rl := nth 0 (Logistics.data 1 (fun _ => l)) [] in
     negative (get "Preco_Unitario" re) /\ negative (get "Frete" re) /\
     negative (get "Peso_Kg" rl) /\ negative (get "Volume_M3" rl) /\
     negative (get "Valor_Frete" rl)).
Proof.
  split; [|split].
  - intros oracle i Hi. cbv zeta. rewrite ecommerce_data, nth_map_seq by exact Hi.
    repeat split. unfold Py.max.
    destruct (Z.gtb_spec (Py.int (Ecommerce.quantity_normal (oracle i))) 1); lia.
  - intros oracle i Hi. cbv zeta. rewrite logistics_data, nth_map_seq by exact Hi.
    repeat split.
  - exists Samples.ecommerce_negative, Samples.logistics_negative.
    split; [reflexivity|]. split; [reflexivity|]. cbv zeta.
    repeat split; eexists; (split; [vm_compute; reflexivity | reflexivity]).
Qed.

Lemma normal_fields_unclamped_witness :
  (1 < 3)%nat /\
  get "Preco_Unitario" (nth 1 (Ecommerce.data 3 Samples.ecommerce) [])
  = Some (VNum (PyFloat (round_float
            (Ecommerce.unit_price_normal (Samples.ecommerce 1)) 2))).
Proof.
  split; [lia|].
  exact (proj1 (proj1 (normal_fields_unclamped 3) Samples.ecommerce 1%nat
                  ltac:(lia))).
Defined.

(** ** Log-normal samples *)





Lemma int_nonneg (q : Q) : (0 <= q)%Q -> 0 <= Py.int q.
Proof.
  intros H. rewrite int_floor by exact H. apply Qfloor_resp_le in H.
  change 0%Q with (inject_Z 0) in H. rewrite Qfloor_Z in H. exact H.
Qed.






(** ** The orchestrator *)

Module ScriptFacts.

Import IO Script.

(** An [ImportError] that reaches the [try] of [main] is reported with
    the installation hint, and the process exits with status 1. *)
Lemma main_reports_import_error (body : io unit) (e : exn) (w w' : world) :
  body w = (Raise e, w') -> is_ImportError e = true ->
  run (try_except body handler) w
  = (1, printed w' ["Erro de importação: " ++ str_exn e;
                    "Certifique-se de que todas as dependências estão instaladas:";
                    "pip install faker pandas numpy"]).
Proof.
  intros Hb He. unfold run, try_except, handler. rewrite Hb, He.
  destruct w'. simpl. rewrite <- !app_assoc. reflexivity.
Qed.

(** Any other [Exception] that reaches the [try] of [main] is reported
    with its message, and the process exits with status 1. *)
Lemma main_reports_exception (body : io unit) (e : exn) (w w' : world) :
  body w = (Raise e, w') -> is_ImportError e = false -> is_Exception e = true ->
  run (try_except body handler) w
  = (1, printed w' ["Erro durante a geração: " ++ str_exn e]).
Proof.
  intros Hb Hi He. unfold run, try_except, handler. rewrite Hb, Hi, He.
  destruct w'. reflexivity.
Qed.

(** A missing output directory, for instance, stops the first generator
    and takes the second [except] clause. *)
Lemma main_without_samples (cell_text : list value -> value -> string) (o : oracles) :
  run (main cell_text o) Samples.world_without_samples
  = (1, printed Samples.world_without_samples
          ["Iniciando geração de dados CSV...";
           "==================================================";
           "Erro durante a geração: Cannot save file into a non-existent directory: '../../samples'"]).
Proof. reflexivity. Qed.

End ScriptFacts.

(** C5, the failing input. On a machine without Faker the script stops
    at its first [from generate_... import ...] statement, before
    [main()] and its [try] are reached: the exit status is 1, but
    nothing is printed on the console, neither the error line of [main]
    nor the hint [pip install faker pandas numpy]; only the
    interpreter's traceback appears. *)
Theorem missing_dependency_not_reported
    (cell_text : list value -> value -> string) (o : Script.oracles) :
  let outcome := IO.run (Script.generate_all cell_text o) Samples.world_without_faker in
  fst outcome = 1 /\
  IO.stdout (snd outcome) = [] /\
  ~ In "pip install faker pandas numpy" (IO.stdout (snd outcome)) /\
  IO.stderr (snd outcome)
  = ["Traceback (most recent call last):"; "No module named 'faker'"].
Proof. cbv zeta. repeat split. intros C. exact C. Qed.

(** ** The serializer: writing and reading back *)

Module CsvFacts.

Import Csv.

Lemma append_nil_r (s : string) : s ++ "" = s.
Proof. induction s as [|c s IH]; simpl; [|rewrite IH]; reflexivity. Qed.

Lemma append_assoc (a b c : string) : (a ++ b) ++ c = a ++ b ++ c.
Proof. induction a as [|x a IH]; simpl; [|rewrite IH]; reflexivity. Qed.

Lemma append_char (f : string) (c : ascii) (s : string) :
  (f ++ String c "") ++ s = f ++ String c s.
Proof. rewrite append_assoc. reflexivity. Qed.

Lemma run_app (st : reader) (a b : string) : run st (a ++ b) = run (run st a) b.
Proof. revert st. induction a as [|c a IH]; intros st; simpl; [|rewrite IH]; reflexivity. Qed.

Lemma special_false (c : ascii) :
  special c = false ->
  Ascii.eqb c comma = false /\ Ascii.eqb c dquote = false /\ is_newline c = false.
Proof.
  unfold special, is_newline. intros H.
  repeat (apply orb_false_elim in H; destruct H as [H ?]).
  repeat split; try assumption. apply orb_false_intro; assumption.
Qed.

(** An unquoted field is read character by character. *)
Lemma run_unquoted (s f : string) (fs : list string) (rs : list (list string)) :
  needs_quote s = false ->
  run (Reader InField f fs rs) s = Reader InField (f ++ s) fs rs.
Proof.
  revert f. induction s as [|c s IH]; intros f H; simpl.
  - rewrite append_nil_r. reflexivity.
  - simpl in H. apply orb_false_elim in H. destruct H as [Hc Hs].
    apply special_false in Hc. destruct Hc as [C1 [C2 C3]].
    unfold step. simpl. rewrite C3, C1. unfold add_char. simpl.
    rewrite IH by exact Hs. rewrite append_char. reflexivity.
Qed.

(** Inside quotes every character is data, and a doubled quote is one
    quote. *)
Lemma run_escape (s f : string) (fs : list string) (rs : list (list string)) :
  run (Reader InQuoted f fs rs) (escape s) = Reader InQuoted (f ++ s) fs rs.
Proof.
  revert f. induction s as [|c s IH]; intros f; simpl.
  - rewrite append_nil_r. reflexivity.
  - destruct (Ascii.eqb c dquote) eqn:E.
    + apply Ascii.eqb_eq in E. subst c. simpl. unfold step at 2. simpl.
      unfold step at 1. simpl. unfold add_char. simpl.
      rewrite IH, append_char. reflexivity.
    + simpl. unfold step at 1. simpl. rewrite E. unfold add_char. simpl.
      rewrite IH, append_char. reflexivity.
Qed.

Lemma field_end_comma (st : reader) fs s rs :
  at_field_end st fs s rs -> step st comma = Reader StartField "" (fs ++ [s])%list rs.
Proof.
  destruct st as [m f fs' rs']. unfold at_field_end. simpl.
  intros [-> [-> [-> [M | [M | [M E]]]]]]; subst; reflexivity.
Qed.

Lemma field_end_LF (st : reader) fs s rs :
  at_field_end st fs s rs ->
  step st LF = Reader StartRecord "" [] (rs ++ [(fs ++ [s])%list])%list.
Proof.
  destruct st as [m f fs' rs']. unfold at_field_end. simpl.
  intros [-> [-> [-> [M | [M | [M E]]]]]]; subst; reflexivity.
Qed.

Lemma read_quoted (s : string) (m : mode) fs rs :
  field_start m ->
  at_field_end (run (Reader m "" fs rs) (quote s)) fs s rs.
Proof.
  intros Hm. unfold quote. simpl.
  assert (S1 : step (Reader m "" fs rs) dquote = Reader InQuoted "" fs rs)
    by (destruct Hm; subst; reflexivity).
  rewrite S1, run_app, run_escape. simpl.
  unfold at_field_end. simpl. repeat split. right. left. reflexivity.
Qed.

Lemma read_field (s : string) (m : mode) fs rs :
  field_start m -> (m = StartField \/ s <> "") ->
  at_field_end (run (Reader m "" fs rs) (write_field s)) fs s rs.
Proof.
  intros Hm Hs. unfold write_field. destruct (needs_quote s) eqn:Q.
  - apply read_quoted. exact Hm.
  - destruct s as [|c s].
    + destruct Hs as [-> | C]; [|congruence]. simpl.
      unfold at_field_end. simpl. repeat split. right. right. split; reflexivity.
    + simpl in Q. apply orb_false_elim in Q. destruct Q as [Qc Qs].
      apply special_false in Qc. destruct Qc as [C1 [C2 C3]]. simpl.
      assert (S1 : step (Reader m "" fs rs) c = Reader InField (String c "") fs rs).
      { destruct Hm; subst; unfold step, start_field; simpl; rewrite C3, C2, C1; reflexivity. }
      rewrite S1, run_unquoted by exact Qs.
      unfold at_field_end. simpl. repeat split. left. reflexivity.
Qed.

Lemma field_then_comma (s rest : string) (m : mode) fs rs :
  field_start m ->
  run (Reader m "" fs rs) (write_field s ++ String comma rest)
  = run (Reader StartField "" (fs ++ [s])%list rs) rest.
Proof.
  intros Hm. destruct (string_dec s "") as [-> | Hs].
  - simpl. destruct Hm; subst; reflexivity.
  - rewrite run_app. simpl.
    rewrite (field_end_comma _ fs s rs); [reflexivity|].
    apply read_field; [exact Hm | right; exact Hs].
Qed.

Lemma field_then_LF (s rest : string) (m : mode) fs rs :
  field_start m -> (m = StartField \/ s <> "") ->
  run (Reader m "" fs rs) (write_field s ++ String LF rest)
  = run (Reader StartRecord "" [] (rs ++ [(fs ++ [s])%list])%list) rest.
Proof.
  intros Hm Hs. rewrite run_app. simpl.
  rewrite (field_end_LF _ fs s rs); [reflexivity|].
  apply read_field; assumption.
Qed.

Lemma read_fields (ps : list string) (p rest : string) (m : mode) fs rs :
  field_start m -> (m = StartField \/ p <> "" \/ ps <> []) ->
  run (Reader m "" fs rs) (join "," (map write_field (p :: ps)) ++ String LF rest)
  = run (Reader StartRecord "" [] (rs ++ [(fs ++ p :: ps)%list])%list) rest.
Proof.
  revert p m fs. induction ps as [|q ps IH]; intros p m fs Hm Hs.
  - simpl. apply field_then_LF; [exact Hm|]. destruct Hs as [H | [H | H]]; [auto | auto | congruence].
  - replace (join "," (map write_field (p :: q :: ps)) ++ String LF rest)
      with (write_field p
              ++ String comma (join "," (map write_field (q :: ps)) ++ String LF rest)).
    2:{ change (join "," (map write_field (p :: q :: ps)))
          with (write_field p ++ "," ++ join "," (map write_field (q :: ps))).
        rewrite !append_assoc. reflexivity. }
    rewrite field_then_comma by exact Hm.
    rewrite IH; [|right; reflexivity | left; reflexivity].
    rewrite <- app_assoc. reflexivity.
Qed.

(** One written row is read back as one record. *)
Lemma read_writerow (l : list string) (rest : string) (rs : list (list string)) :
  run (Reader StartRecord "" [] rs) (writerow l ++ rest)
  = run (Reader StartRecord "" [] (rs ++ [l])%list) rest.
Proof.
  unfold writerow. rewrite append_assoc. change (String LF "" ++ rest) with (String LF rest).
  destruct l as [|p ps]; [reflexivity|].
  destruct (string_dec p "") as [-> | Hp].
  - destruct ps as [|q ps]; [reflexivity|].
    apply (read_fields (q :: ps) "" rest StartRecord [] rs); [left; reflexivity|].
    right. right. discriminate.
  - assert (E : match p :: ps with
                | [EmptyString] => quote ""
                | _ => join "," (map write_field (p :: ps))
                end = join "," (map write_field (p :: ps))).
    { destruct p; [congruence|]. destruct ps; reflexivity. }
    rewrite E.
    apply (read_fields ps p rest StartRecord [] rs); [left; reflexivity|].
    right. left. exact Hp.
Qed.

Lemma concat_cons (x : string) (xs : list string) :
  String.concat "" (x :: xs) = x ++ String.concat "" xs.
Proof. destruct xs; simpl; [rewrite append_nil_r|]; reflexivity. Qed.

Lemma read_rows (t : list (list string)) (rs : list (list string)) :
  run (Reader StartRecord "" [] rs) (String.concat "" (map writerow t))
  = Reader StartRecord "" [] (rs ++ t)%list.
Proof.
  revert rs. induction t as [|l t IH]; intros rs.
  - simpl. rewrite app_nil_r. reflexivity.
  - change (map writerow (l :: t)) with (writerow l :: map writerow t).
    rewrite concat_cons, read_writerow, IH, <- app_assoc. reflexivity.
Qed.

Lemma decode_signature (text : string) : decode_utf8_sig (BOM ++ text) = text.
Proof. reflexivity. Qed.

(** Reading back what [to_csv] wrote gives the header and the rows,
    cell by cell. *)
Lemma read_to_csv (cell_text : list value -> value -> string) (data : list row) :
  read_csv (to_csv cell_text data) = table cell_text data.
Proof.
  unfold read_csv, to_csv. rewrite decode_signature, read_rows. reflexivity.
Qed.

End CsvFacts.

Example quoting_example :
  let dq := String Csv.dquote "" in
  let nl := String Csv.LF "" in
  Csv.to_csv Samples.cell_text Samples.quoting_rows
  = Csv.BOM ++ "Nome,Nota,Valor" ++ nl
      ++ dq ++ "Rua das Flores, 12" ++ dq ++ ",,2.5000" ++ nl
      ++ dq ++ dq ++ dq ++ "x" ++ dq ++ dq ++ nl ++ "y" ++ dq ++ ",7,0" ++ nl /\
  Csv.read_csv (Csv.to_csv Samples.cell_text Samples.quoting_rows)
  = [ ["Nome"; "Nota"; "Valor"];
      ["Rua das Flores, 12"; ""; "2.5000"];
      [dq ++ "x" ++ dq ++ nl ++ "y"; "7"; "0"] ].
Proof. split; reflexivity. Qed.

(** C9. Writing [N] rows and reading the produced file back yields one
    header row followed by exactly [N] data rows, cell by cell; the
    header lists the keys in order of first insertion, which for
    same-shaped rows is the key order of the rows themselves. *)
Theorem csv_round_trip (cell_text : list value -> value -> string) (data : list row)
    (ks : list string) :
  NoDup ks -> (forall r, In r data -> keys r = ks) ->
  let parsed := Csv.read_csv (Csv.to_csv cell_text data) in
  List.length parsed = S (List.length data) /\
  hd [] parsed = Csv.columns data /\
  (data <> [] -> hd [] parsed = ks) /\
  tl parsed = map (Csv.row_text cell_text data (Csv.columns data)) data.
Proof.
  intros Hnd Hks. cbv zeta. rewrite CsvFacts.read_to_csv. unfold Csv.table. simpl.
  rewrite length_map. repeat split.
  intros Hne. destruct data as [|r data]; [congruence|].
  apply columns_same_shape; assumption.
Qed.

Lemma csv_round_trip_witness :
  NoDup Schema.ecommerce /\
  (forall r, In r (Ecommerce.data 3 Samples.ecommerce) -> keys r = Schema.ecommerce) /\
  let data := Ecommerce.data 3 Samples.ecommerce in
  let parsed := Csv.read_csv (Csv.to_csv Samples.cell_text data) in
  List.length parsed = 4%nat /\
  hd [] parsed = Csv.columns data /\
  (data <> [] -> hd [] parsed = Schema.ecommerce) /\
  tl parsed = map (Csv.row_text Samples.cell_text data (Csv.columns data)) data.
Proof.
  assert (K : forall r, In r (Ecommerce.data 3 Samples.ecommerce) -> keys r = Schema.ecommerce).
  { apply Forall_forall. apply ecommerce_keys. }
  split; [exact ecommerce_schema_NoDup|]. split; [exact K|].
  exact (csv_round_trip Samples.cell_text (Ecommerce.data 3 Samples.ecommerce)
           Schema.ecommerce ecommerce_schema_NoDup K).
Defined.

(** * Further properties of the generators *)

(** ** Rounding, continued *)

Lemma round_half_even_mono (q q' : Q) :
  (q <= q')%Q -> round_half_even q <= round_half_even q'.
Proof.
  intros H. pose proof (Qfloor_resp_le _ _ H) as F.
  pose proof (round_half_even_bounds q) as B. pose proof (round_half_even_bounds q') as B'.
  destruct (Z.eq_dec (Qfloor q) (Qfloor q')) as [E | NE]; [|lia].
  clear B B' F. unfold round_half_even. rewrite <- E.
  set (f := Qfloor q).
  destruct (Qcompare_spec (q - inject_Z f) (1 # 2)) as [C | C | C];
    destruct (Qcompare_spec (q' - inject_Z f) (1 # 2)) as [C' | C' | C'];
    try (destruct (Z.even f); lia); try lia; exfalso; lra.
Qed.

(** Rounding to a number of decimals is monotone. *)
Lemma round_float_mono (q q' : Q) (ndigits : nat) :
  (q <= q')%Q -> (round_float q ndigits <= round_float q' ndigits)%Q.
Proof.
  intros H. unfold round_float, Qle. simpl.
  apply Z.mul_le_mono_nonneg_r; [lia|]. apply round_half_even_mono.
  apply Qmult_le_compat_r; [exact H|]. unfold Qle. simpl. lia.
Qed.

(** ** Weighted choice *)

Lemma searchsorted_right_lt (cdf : list Q) (u : Q) :
  (exists c, In c cdf /\ Qle_bool c u = false) ->
  (searchsorted_right cdf u < List.length cdf)%nat.
Proof.
  induction cdf as [|c cs IH]; intros [x [Hin Hx]]; [contradiction|].
  simpl. destruct (Qle_bool c u) eqn:E; [|lia].
  destruct Hin as [-> | Hin]; [congruence|].
  apply -> Nat.succ_lt_mono. apply IH. exists x. split; assumption.
Qed.

Lemma cumsum_length (acc : Q) (p : list Q) : List.length (cumsum acc p) = List.length p.
Proof. revert acc. induction p as [|w p IH]; intros acc; simpl; [|rewrite IH]; reflexivity. Qed.

Lemma last_In {A : Type} (l : list A) (d : A) : l <> [] -> In (last l d) l.
Proof.
  induction l as [|a l IH]; intros H; [congruence|].
  destruct l as [|b l]; [left; reflexivity|].
  right. apply IH. discriminate.
Qed.

(** [np.random.choice] returns one of its candidates, as long as the
    weights are as many as the candidates and do not sum to zero. *)
Lemma np_choice_In (a : list string) (p : list Q) (u : Q) :
  List.length a = List.length p -> p <> [] ->
  ~ (last (cumsum 0 p) 1 == 0)%Q -> unit_interval u = true ->
  In (np_choice a p u) a.
Proof.
  intros Hlen Hp Htotal Hu. unfold np_choice. apply nth_In.
  rewrite Hlen, <- (cumsum_length 0 p), <- (length_map (fun c => (c / last (cumsum 0 p) 1)%Q)).
  apply searchsorted_right_lt.
  exists (last (cumsum 0 p) 1 / last (cumsum 0 p) 1)%Q. split.
  - apply (in_map (fun c => (c / last (cumsum 0 p) 1)%Q)). apply last_In.
    destruct p; [congruence | discriminate].
  - apply Bool.not_true_is_false. intros C. apply Qle_bool_iff in C.
    unfold unit_interval in Hu. apply andb_prop in Hu. destruct Hu as [_ Hu].
    apply negb_true_iff in Hu.
    assert (L : Qle_bool 1 u = true).
    { apply Qle_bool_iff. eapply Qle_trans; [|exact C].
      unfold Qdiv. rewrite Qmult_inv_r by exact Htotal. apply Qle_refl. }
    congruence.
Qed.

Lemma random_choice_In (seq : list string) (k : nat) :
  (k < List.length seq)%nat -> In (random_choice seq k) seq.
Proof. intros H. apply nth_In. exact H. Qed.

Lemma unit_interval_of_valid (u : Q) (rest : bool) :
  unit_interval u && rest = true -> unit_interval u = true.
Proof. intros H. apply andb_prop in H. apply H. Qed.

(** X1. Under the samplers' ranges every categorical field of a
    cash-flow row holds one of the values listed in the source. *)
Theorem cashflow_categories (n : nat) (oracle : nat -> Cashflow.draws) (i : nat) :
  (i < n)%nat -> Cashflow.valid (oracle i) = true ->
  let r := nth i (Cashflow.data n oracle) [] in
  (exists t, get "Tipo" r = Some (VStr t) /\ In t Cashflow.types) /\
  (exists c, get "Categoria" r = Some (VStr c) /\ In c Cashflow.categories) /\
  (exists c, get "Conta" r = Some (VStr c) /\ In c Cashflow.accounts) /\
  (exists m, get "Moeda" r = Some (VStr m) /\ In m Cashflow.currencies) /\
  (exists p, get "Previsao_Realizado" r = Some (VStr p) /\ In p ["Realizado"; "Previsão"]).
Proof.
  intros Hi V. cbv zeta. rewrite CashflowFacts.data_nth by exact Hi.
  unfold Cashflow.valid in V. rewrite !andb_true_iff in V. decompose [and] V. clear V.
  unfold Cashflow.iteration, Cashflow.transaction.
  assert (T : In (np_choice Cashflow.types Cashflow.type_weights
                    (Cashflow.type_u (oracle i))) Cashflow.types)
    by (apply np_choice_In; [reflexivity | discriminate | discriminate | assumption]).
  destruct (String.eqb _ "Entrada"); cbn [fst get String.eqb Ascii.eqb Bool.eqb];
    (repeat split; eexists; (split; [reflexivity|]);
     [ exact T
     | apply np_choice_In; [reflexivity | discriminate | discriminate | assumption]
     | apply np_choice_In; [reflexivity | discriminate | discriminate | assumption]
     | apply np_choice_In; [reflexivity | discriminate | discriminate | assumption]
     | apply random_choice_In; apply Nat.ltb_lt; assumption ]).
Qed.

Lemma cashflow_categories_witness :
  (1 < 2)%nat /\ Cashflow.valid (Samples.cashflow 1) = true /\
  let r := nth 1 (Cashflow.data 2 Samples.cashflow) [] in
  (exists t, get "Tipo" r = Some (VStr t) /\ In t Cashflow.types) /\
  (exists c, get "Categoria" r = Some (VStr c) /\ In c Cashflow.categories) /\
  (exists c, get "Conta" r = Some (VStr c) /\ In c Cashflow.accounts) /\
  (exists m, get "Moeda" r = Some (VStr m) /\ In m Cashflow.currencies) /\
  (exists p, get "Previsao_Realizado" r = Some (VStr p) /\ In p ["Realizado"; "Previsão"]).
Proof.
  split; [lia|]. split; [reflexivity|].
  apply (cashflow_categories 2 Samples.cashflow 1); [lia | reflexivity].
Defined.

(** ** Cash flow: replaying the rows *)

Lemma cashflow_iteration_fields (d : Cashflow.draws) (b : Q) :
  let t := np_choice Cashflow.types Cashflow.type_weights (Cashflow.type_u d) in
  let v := round_float (Cashflow.value_lognormal d) 2 in
  get "Tipo" (fst (Cashflow.iteration d b)) = Some (VStr t) /\
  get "Valor" (fst (Cashflow.iteration d b)) = Some (VNum (PyFloat v)) /\
  snd (Cashflow.iteration d b) = if String.eqb t "Entrada" then (b + v)%Q else (b - v)%Q.
Proof.
  cbv zeta. unfold Cashflow.iteration, Cashflow.transaction.
  destruct (String.eqb _ "Entrada"); repeat split.
Qed.

Lemma cashflow_data_S (n : nat) (oracle : nat -> Cashflow.draws) :
  Cashflow.data (S n) oracle
  = (Cashflow.data n oracle
       ++ [fst (Cashflow.iteration (oracle n) (Cashflow.balance oracle n))])%list.
Proof. unfold Cashflow.data at 1. rewrite CashflowFacts.loop_S. reflexivity. Qed.

(** The rows of a shorter run are a prefix of the rows of a longer run
    on the same draws. *)
Lemma cashflow_data_prefix (n i : nat) (oracle : nat -> Cashflow.draws) :
  (i <= n)%nat -> firstn i (Cashflow.data n oracle) = Cashflow.data i oracle.
Proof.
  induction n as [|n IH]; intros Hi.
  - replace i with 0%nat by lia. reflexivity.
  - destruct (Nat.eq_dec i (S n)) as [-> | Hne].
    + rewrite <- (CashflowFacts.data_length (S n) oracle) at 1. apply firstn_all.
    + rewrite cashflow_data_S, firstn_app, CashflowFacts.data_length.
      replace (i - n)%nat with 0%nat by lia. simpl. rewrite app_nil_r. apply IH. lia.
Qed.

(** Replaying the rows written so far gives the running balance. *)
Lemma cashflow_replay_balance (oracle : nat -> Cashflow.draws) (i : nat) :
  replay (Cashflow.data i oracle) = PyFloat (Cashflow.balance oracle i).
Proof.
  induction i as [|i IH].
  - reflexivity.
  - rewrite cashflow_data_S. unfold replay. rewrite fold_left_app.
    fold (replay (Cashflow.data i oracle)). rewrite IH. cbn [fold_left].
    rewrite CashflowFacts.balance_S.
    destruct (cashflow_iteration_fields (oracle i) (Cashflow.balance oracle i)) as [Ht [Hv Hs]].
    unfold signed_step. rewrite Ht, Hv, Hs.
    destruct (String.eqb _ "Entrada"); reflexivity.
Qed.

(** X3. The balance columns of the cash-flow file can be recomputed from
    its [Tipo] and [Valor] columns: replaying rows [0..i] in order from
    the opening balance 100000.0 (adding the [Valor] of an ['Entrada'],
    subtracting any other) and rounding to two decimals gives the
    [Saldo_Apos] of row [i], and replaying rows [0..i-1] gives its
    [Saldo_Anterior]. *)
Theorem cashflow_replay (n : nat) (oracle : nat -> Cashflow.draws) (i : nat) :
  (i < n)%nat ->
  let data := Cashflow.data n oracle in
  get "Saldo_Apos" (nth i data []) = Some (VNum (round (replay (firstn (S i) data)) 2)) /\
  get "Saldo_Anterior" (nth i data []) = Some (VNum (round (replay (firstn i data)) 2)).
Proof.
  intros Hi. cbv zeta. rewrite CashflowFacts.data_nth by exact Hi.
  rewrite !cashflow_data_prefix by lia. rewrite !cashflow_replay_balance.
  split.
  - rewrite CashflowFacts.balance_S. apply CashflowFacts.iteration_saldo_apos.
  - apply CashflowFacts.iteration_saldo_anterior.
Qed.

Lemma cashflow_replay_witness :
  (2 < 3)%nat /\
  let data := Cashflow.data 3 Samples.cashflow in
  get "Saldo_Apos" (nth 2 data []) = Some (VNum (round (replay (firstn 3 data)) 2)) /\
  get "Saldo_Anterior" (nth 2 data []) = Some (VNum (round (replay (firstn 2 data)) 2)).
Proof.
  split; [lia|]. apply (cashflow_replay 3 Samples.cashflow 2). lia.
Defined.

Example cashflow_replay_sample :
  to_float (replay (Cashflow.data 3 Samples.cashflow)) == 10500092 # 100.
Proof. reflexivity. Qed.

(** ** Marketing: when the run completes, and the funnel *)

Lemma scaled_int_bounds (k : Z) (b : Q) :
  0 <= k -> (0 <= b)%Q -> (b <= 1)%Q -> 0 <= Py.int (inject_Z k * b) <= k.
Proof.
  intros Hk B0 B1.
  assert (P : (0 <= inject_Z k)%Q) by (change 0%Q with (inject_Z 0); rewrite <- Zle_Qle; lia).
  apply int_bounds.
  - apply Qmult_le_0_compat; assumption.
  - apply Qle_trans with (1 * inject_Z k)%Q.
    + rewrite Qmult_comm. apply Qmult_le_compat_r; assumption.
    + rewrite Qmult_1_l. apply Qle_refl.
Qed.

Lemma percentage_bounds (a k : Z) :
  0 <= a <= k -> 0 < k ->
  (0 <= round_float (inject_Z a / inject_Z k * inject_Z 100) 2)%Q /\
  (round_float (inject_Z a / inject_Z k * inject_Z 100) 2 <= 100)%Q.
Proof.
  intros Ha Hk.
  assert (Pk : (0 < inject_Z k)%Q) by (change 0%Q with (inject_Z 0); rewrite <- Zlt_Qlt; lia).
  assert (R0 : (0 <= inject_Z a / inject_Z k)%Q).
  { apply Qle_shift_div_l; [exact Pk|]. rewrite Qmult_0_l.
    change 0%Q with (inject_Z 0). rewrite <- Zle_Qle. lia. }
  assert (R1 : (inject_Z a / inject_Z k <= 1)%Q).
  { apply Qle_shift_div_r; [exact Pk|]. rewrite Qmult_1_l. rewrite <- Zle_Qle. lia. }
  split.
  - apply round_float_nonneg. apply Qmult_le_0_compat; [exact R0 | discriminate].
  - apply (round_float_le _ 2 100).
    setoid_replace (inject_Z 100) with (1 * inject_Z 100)%Q by ring.
    apply Qmult_le_compat_r; [exact R1 | discriminate].
Qed.

Lemma marketing_roi_returns (d : Marketing.draws) :
  ~ (Marketing.investment d == 0)%Q -> exists x, Marketing.roi d = Ok x.
Proof.
  intros H. unfold Marketing.roi, truediv. simpl to_float.
  assert (E : Qeq_bool (Marketing.investment d) 0 = false).
  { apply Bool.not_true_is_false. intros C. apply Qeq_bool_iff in C. contradiction. }
  rewrite E. simpl. eexists. reflexivity.
Qed.

(** A marketing row is built exactly when its rounded investment is not
    zero; otherwise the only possible error is raised. *)
Lemma marketing_row_cases (i : nat) (d : Marketing.draws) :
  (~ (Marketing.investment d == 0)%Q /\ exists r, Marketing.row_of i d = Ok r) \/
  ((Marketing.investment d == 0)%Q /\
   Marketing.row_of i d = Raise (ZeroDivisionError "float division by zero")).
Proof.
  destruct (marketing_guarded_ratios d) as [[ctr [cpc [cpa [E1 [E2 E3]]]]] _].
  unfold Marketing.row_of. rewrite E1, E2, E3. simpl.
  destruct (Qeq_dec (Marketing.investment d) 0) as [Z | NZ].
  - right. split; [exact Z|]. rewrite (marketing_roi_raises d Z). reflexivity.
  - left. split; [exact NZ|]. destruct (marketing_roi_returns d NZ) as [x Hx].
    rewrite Hx. simpl. eexists. reflexivity.
Qed.

(** A raising loop either returns or raises what one of its iterations
    raised. *)
Lemma for_range_raising_cases {A : Type} (f : nat -> result A) (n : nat) :
  (exists data,
      for_range_raising n (fun i data => row <- f i ;; Ok (data ++ [row])%list) [] = Ok data) \/
  (exists i e, (i < n)%nat /\ f i = Raise e /\
      for_range_raising n (fun i data => row <- f i ;; Ok (data ++ [row])%list) [] = Raise e).
Proof.
  induction n as [|n [[data Hd] | [i [e [Hi [Hf Hr]]]]]].
  - left. exists []. reflexivity.
  - rewrite for_range_raising_S, Hd. simpl. destruct (f n) as [r | e] eqn:E.
    + left. eexists. reflexivity.
    + right. exists n, e. repeat split; [lia | exact E].
  - right. exists i, e. rewrite for_range_raising_S, Hr. repeat split; [lia | exact Hf].
Qed.

(** X4. The marketing generator completes with [n] rows exactly when no
    row's investment rounds to 0.00; otherwise it raises
    [ZeroDivisionError: float division by zero], whatever the other
    draws are. *)
Theorem marketing_completion (n : nat) (oracle : nat -> Marketing.draws) :
  (exists data,
      Marketing.data n oracle = Ok data /\ List.length data = n /\
      forall i, (i < n)%nat -> ~ (Marketing.investment (oracle i) == 0)%Q) \/
  (Marketing.data n oracle = Raise (ZeroDivisionError "float division by zero") /\
   exists i, (i < n)%nat /\ (Marketing.investment (oracle i) == 0)%Q).
Proof.
  unfold Marketing.data.
  destruct (for_range_raising_cases (fun i => Marketing.row_of i (oracle i)) n)
    as [[data Hd] | [i [e [Hi [Hf Hr]]]]].
  - left. exists data. split; [exact Hd|].
    destruct (for_range_raising_append _ _ _ Hd) as [Hlen Hnth]. split; [exact Hlen|].
    intros i Hi Z. specialize (Hnth i [] Hi). simpl in Hnth.
    destruct (marketing_row_cases i (oracle i)) as [[NZ _] | [_ R]]; [contradiction|].
    rewrite R in Hnth. discriminate.
  - right. destruct (marketing_row_cases i (oracle i)) as [[_ [r R]] | [Z R]].
    + simpl in Hf. rewrite R in Hf. discriminate.
    + simpl in Hf. rewrite R in Hf. inversion Hf; subst e.
      split; [exact Hr|]. exists i. split; assumption.
Qed.

Lemma marketing_row_funnel (i : nat) (d : Marketing.draws) (r : row) :
  Marketing.row_of i d = Ok r ->
  get "Impressoes" r = Some (VNum (PyInt (Marketing.impressions d))) /\
  get "Cliques" r = Some (VNum (PyInt (Marketing.clicks d))) /\
  get "Conversoes" r = Some (VNum (PyInt (Marketing.conversions d))) /\
  exists x, Marketing.ctr d = Ok x /\ get "CTR" r = Some (VNum (round x 2)).
Proof.
  unfold Marketing.row_of.
  destruct (Marketing.ctr d) as [x|]; [|discriminate].
  destruct (Marketing.cpc d); [|discriminate].
  destruct (Marketing.cpa d); [|discriminate].
  destruct (Marketing.roi d); [|discriminate].
  simpl. intros H. inversion H. repeat split. exists x. split; reflexivity.
Qed.

Lemma marketing_counts (d : Marketing.draws) :
  Marketing.valid d = true ->
  0 <= Marketing.conversions d <= Marketing.clicks d /\
  Marketing.clicks d <= Marketing.impressions d.
Proof.
  intros V. unfold Marketing.valid in V. split_valid V.
  assert (I : 0 <= Marketing.impressions d).
  { unfold Marketing.impressions. apply int_nonneg, Qlt_le_weak. assumption. }
  assert (C : 0 <= Marketing.clicks d <= Marketing.impressions d).
  { unfold Marketing.clicks. apply scaled_int_bounds; assumption. }
  split; [|lia]. unfold Marketing.conversions. apply scaled_int_bounds; [lia | assumption..].
Qed.

Lemma marketing_ctr_bounds (d : Marketing.draws) (x : num) :
  Marketing.valid d = true -> Marketing.ctr d = Ok x ->
  (0 <= to_float (round x 2))%Q /\ (to_float (round x 2) <= 100)%Q.
Proof.
  intros V. destruct (marketing_counts d V) as [[C0 C1] C2].
  unfold Marketing.ctr, truediv. simpl to_float.
  destruct (Z.gtb_spec (Marketing.impressions d) 0) as [I | I].
  - rewrite inject_Z_nonzero by lia. simpl. intros H. inversion H. simpl.
    apply percentage_bounds; lia.
  - intros H. inversion H. simpl. split; discriminate.
Qed.

(** X5. In every row of a completed marketing run drawn within the
    samplers' ranges the funnel narrows:
    [0 <= Conversoes <= Cliques <= Impressoes], and [CTR] is a
    percentage between 0 and 100. *)
Theorem marketing_funnel (n : nat) (oracle : nat -> Marketing.draws) (data : list row)
    (i : nat) :
  Marketing.data n oracle = Ok data -> (i < n)%nat -> Marketing.valid (oracle i) = true ->
  let r := nth i data [] in
  exists impressions clicks conversions ctr,
    get "Impressoes" r = Some (VNum (PyInt impressions)) /\
    get "Cliques" r = Some (VNum (PyInt clicks)) /\
    get "Conversoes" r = Some (VNum (PyInt conversions)) /\
    0 <= conversions <= clicks /\ clicks <= impressions /\
    get "CTR" r = Some (VNum ctr) /\ (0 <= to_float ctr)%Q /\ (to_float ctr <= 100)%Q.
Proof.
  intros Hd Hi V. cbv zeta.
  apply (for_range_raising_append (fun i => Marketing.row_of i (oracle i))) in Hd.
  destruct Hd as [_ Hnth]. specialize (Hnth i [] Hi).
  apply marketing_row_funnel in Hnth. destruct Hnth as [A [B [C [x [Hx D]]]]].
  destruct (marketing_counts _ V) as [E F].
  destruct (marketing_ctr_bounds _ x V Hx) as [G H].
  exists (Marketing.impressions (oracle i)), (Marketing.clicks (oracle i)),
    (Marketing.conversions (oracle i)), (round x 2).
  repeat split; try assumption; lia.
Qed.

Lemma marketing_funnel_witness :
  exists data,
    Marketing.data 2 Samples.marketing = Ok data /\ (0 < 2)%nat /\
    Marketing.valid (Samples.marketing 0) = true /\
    let r := nth 0 data [] in
    exists impressions clicks conversions ctr,
      get "Impressoes" r = Some (VNum (PyInt impressions)) /\
      get "Cliques" r = Some (VNum (PyInt clicks)) /\
      get "Conversoes" r = Some (VNum (PyInt conversions)) /\
      0 <= conversions <= clicks /\ clicks <= impressions /\
      get "CTR" r = Some (VNum ctr) /\ (0 <= to_float ctr)%Q /\ (to_float ctr <= 100)%Q.
Proof.
  destruct (Marketing.data 2 Samples.marketing) as [data|e] eqn:E.
  - exists data. split; [reflexivity|]. split; [lia|]. split; [reflexivity|].
    apply (marketing_funnel 2 Samples.marketing data 0 E); [lia | reflexivity].
  - vm_compute in E. discriminate E.
Defined.

(** ** Production: dates and defects *)

Lemma add_minutes_same_day (d : Date.date) (m : Z) :
  0 <= m < 1440 -> Date.add_minutes d m = d.
Proof.
  intros H. unfold Date.add_minutes. rewrite Z.div_small by exact H. lia.
Qed.

Lemma production_row_fields (i : nat) (d : Production.draws) (r : row) :
  Production.row_of i d = Ok r ->
  get "Data_Inicio" r = Some (VStr (Date.strftime_ymd_hm (Production.start_date d))) /\
  get "Data_Fim" r
  = Some (VStr (Date.strftime_ymd_hm
                  (Date.add_minutes (Production.start_date d) (Production.production_time d)))) /\
  get "Quantidade_Produzida" r = Some (VNum (PyInt (Production.produced_qty d))) /\
  get "Defeitos" r = Some (VNum (PyInt (Production.defeitos d))).
Proof.
  unfold Production.row_of.
  destruct (Production.efficiency d); [|discriminate].
  simpl. intros H. inversion H. repeat split.
Qed.

Lemma production_defects (d : Production.draws) :
  Production.valid d = true ->
  0 <= Production.defeitos d /\ 20 * Production.defeitos d <= Production.produced_qty d.
Proof.
  intros V. destruct (production_quantities d V) as [_ [Q0 _]].
  unfold Production.valid in V. split_valid V.
  match goal with
  | D : 0 <= Production.defeitos d <= _ |- _ => destruct D as [D0 D1]
  end.
  split; [exact D0|].
  assert (P : (0 <= inject_Z (Production.produced_qty d) * (5 # 100))%Q).
  { apply Qmult_le_0_compat; [|discriminate].
    change 0%Q with (inject_Z 0). rewrite <- Zle_Qle. exact Q0. }
  rewrite int_floor in D1 by exact P.
  assert (F : (inject_Z (Production.defeitos d)
               <= inject_Z (Production.produced_qty d) * (5 # 100))%Q).
  { eapply Qle_trans; [|apply Qfloor_le]. rewrite <- Zle_Qle. exact D1. }
  unfold Qle, Qmult, inject_Z in F. simpl in F. lia.
Qed.

(** X6. In every row of a production run drawn within the samplers'
    ranges, [Data_Fim] is the same text as [Data_Inicio] (adding at
    most 480 minutes to a [date] adds no day, and a [date] prints its
    time as 00:00), and [Defeitos] is between 0 and 5% of
    [Quantidade_Produzida]. *)
Theorem production_dates_and_defects (n : nat) (oracle : nat -> Production.draws)
    (data : list row) (i : nat) :
  Production.data n oracle = Ok data -> (i < n)%nat -> Production.valid (oracle i) = true ->
  let r := nth i data [] in
  (exists t, get "Data_Inicio" r = Some (VStr t) /\ get "Data_Fim" r = Some (VStr t)) /\
  (exists produced defects,
      get "Quantidade_Produzida" r = Some (VNum (PyInt produced)) /\
      get "Defeitos" r = Some (VNum (PyInt defects)) /\
      0 <= defects /\ 20 * defects <= produced).
Proof.
  intros Hd Hi V. cbv zeta.
  apply (for_range_raising_append (fun i => Production.row_of i (oracle i))) in Hd.
  destruct Hd as [_ Hnth]. specialize (Hnth i [] Hi).
  apply production_row_fields in Hnth. destruct Hnth as [A [B [C D]]].
  destruct (production_defects _ V) as [E F].
  split.
  - eexists. split; [exact A|]. rewrite B. rewrite add_minutes_same_day; [reflexivity|].
    unfold Production.valid in V. split_valid V. lia.
  - do 2 eexists. repeat split; eassumption.
Qed.

Lemma production_dates_and_defects_witness :
  exists data,
    Production.data 2 Samples.production = Ok data /\ (1 < 2)%nat /\
    Production.valid (Samples.production 1) = true /\
    let r := nth 1 data [] in
    (exists t, get "Data_Inicio" r = Some (VStr t) /\ get "Data_Fim" r = Some (VStr t)) /\
    (exists produced defects,
        get "Quantidade_Produzida" r = Some (VNum (PyInt produced)) /\
        get "Defeitos" r = Some (VNum (PyInt defects)) /\
        0 <= defects /\ 20 * defects <= produced).
Proof.
  destruct (Production.data 2 Samples.production) as [data|e] eqn:E.
  - exists data. split; [reflexivity|]. split; [lia|]. split; [reflexivity|].
    apply (production_dates_and_defects 2 Samples.production data 1 E); [lia | reflexivity].
  - vm_compute in E. discriminate E.
Defined.

(** ** Customers: purchases and orders *)

(** X7. In every customer row drawn within the samplers' ranges the
    purchase fields agree: without a last purchase
    ([Data_Ultima_Compra] is [None]) both [Valor_Total_Compras] and
    [Numero_Pedidos] are the integer 0; [Numero_Pedidos] is 0 whenever
    the total is 0 (also when a positive sample rounded to 0.00) and
    lies between 1 and 50 whenever the total is positive. *)
Theorem customers_purchases (n : nat) (oracle : nat -> Customers.draws) (i : nat) :
  (i < n)%nat -> Customers.valid (oracle i) = true ->
  let r := nth i (Customers.data n oracle) [] in
  exists total orders,
    get "Valor_Total_Compras" r = Some (VNum total) /\
    get "Numero_Pedidos" r = Some (VNum (PyInt orders)) /\
    (get "Data_Ultima_Compra" r = Some VNone -> total = PyInt 0 /\ orders = 0) /\
    ((to_float total == 0)%Q -> orders = 0) /\
    ((0 < to_float total)%Q -> 1 <= orders <= 50) /\
    (0 <= to_float total)%Q.
Proof.
  intros Hi V. cbv zeta. rewrite customers_data, nth_map_seq by exact Hi.
  unfold Customers.valid in V. split_valid V.
  unfold Customers.row_of. cbn [get String.eqb Ascii.eqb Bool.eqb].
  destruct (Qgtb (Customers.last_gate (oracle i)) (2 # 10)).
  - set (t := round_float (Customers.total_lognormal (oracle i)) 2).
    assert (T0 : (0 <= t)%Q) by (apply round_float_nonneg, Qlt_le_weak; assumption).
    do 2 eexists. split; [reflexivity|]. split; [reflexivity|].
    unfold gt. simpl to_float. fold t.
    split; [discriminate|].
    destruct (Qle_bool t (inject_Z 0)) eqn:L; simpl.
    + apply Qle_bool_iff in L. change (inject_Z 0) with 0%Q in L.
      repeat split; try assumption; try reflexivity; intros P; exfalso; lra.
    + assert (P : (0 < t)%Q).
      { apply Qnot_le_lt. intros C. apply Qle_bool_iff in C.
        change 0%Q with (inject_Z 0) in C. congruence. }
      repeat split; try assumption; try lia. intros Z. exfalso. lra.
  - do 2 eexists. split; [reflexivity|]. split; [reflexivity|]. simpl.
    repeat split; try reflexivity; discriminate.
Qed.

Lemma customers_purchases_witness :
  (0 < 1)%nat /\ Customers.valid (Samples.customers 0) = true /\
  let r := nth 0 (Customers.data 1 Samples.customers) [] in
  exists total orders,
    get "Valor_Total_Compras" r = Some (VNum total) /\
    get "Numero_Pedidos" r = Some (VNum (PyInt orders)) /\
    (get "Data_Ultima_Compra" r = Some VNone -> total = PyInt 0 /\ orders = 0) /\
    ((to_float total == 0)%Q -> orders = 0) /\
    ((0 < to_float total)%Q -> 1 <= orders <= 50) /\
    (0 <= to_float total)%Q.
Proof.
  split; [lia|]. split; [reflexivity|].
  apply (customers_purchases 1 Samples.customers 0); [lia | reflexivity].
Defined.

(** ** Inventory: the value of the stock *)

(** X8. In every inventory row drawn within the samplers' ranges,
    [Valor_Total] is the two-decimal rounding of
    [Quantidade_Estoque * Valor_Unitario] and is not negative, the unit
    value is not negative, the stock lies between 0 and 10000, and
    [Saldo_Apos_Movimentacao] repeats [Quantidade_Estoque] whatever the
    movement is. *)
Theorem inventory_totals (n : nat) (oracle : nat -> Inventory.draws) (i : nat) :
  (i < n)%nat -> Inventory.valid (oracle i) = true ->
  let r := nth i (Inventory.data n oracle) [] in
  exists stock unit total,
    get "Quantidade_Estoque" r = Some (VNum (PyInt stock)) /\
    get "Saldo_Apos_Movimentacao" r = Some (VNum (PyInt stock)) /\
    get "Valor_Unitario" r = Some (VNum (PyFloat unit)) /\
    get "Valor_Total" r = Some (VNum (PyFloat total)) /\
    PyFloat total = round (mul (PyInt stock) (PyFloat unit)) 2 /\
    0 <= stock <= 10000 /\ (0 <= unit)%Q /\ (0 <= total)%Q.
Proof.
  intros Hi V. cbv zeta. rewrite inventory_data, nth_map_seq by exact Hi.
  unfold Inventory.valid in V. split_valid V.
  unfold Inventory.row_of. do 3 eexists.
  split; [reflexivity|]. split; [reflexivity|]. split; [reflexivity|].
  split; [reflexivity|]. split; [reflexivity|]. split; [assumption|].
  simpl to_float.
  set (stock := Inventory.current_stock (oracle i)).
  set (x := Inventory.unit_value_lognormal (oracle i)).
  assert (U : (0 <= round_float x 2)%Q) by (apply round_float_nonneg, Qlt_le_weak; assumption).
  split; [exact U|].
  apply round_float_nonneg. apply Qmult_le_0_compat; [|exact U].
  change 0%Q with (inject_Z 0). rewrite <- Zle_Qle. subst stock. lia.
Qed.

Lemma inventory_totals_witness :
  (0 < 1)%nat /\ Inventory.valid (Samples.inventory 0) = true /\
  let r := nth 0 (Inventory.data 1 Samples.inventory) [] in
  exists stock unit total,
    get "Quantidade_Estoque" r = Some (VNum (PyInt stock)) /\
    get "Saldo_Apos_Movimentacao" r = Some (VNum (PyInt stock)) /\
    get "Valor_Unitario" r = Some (VNum (PyFloat unit)) /\
    get "Valor_Total" r = Some (VNum (PyFloat total)) /\
    PyFloat total = round (mul (PyInt stock) (PyFloat unit)) 2 /\
    0 <= stock <= 10000 /\ (0 <= unit)%Q /\ (0 <= total)%Q.
Proof.
  split; [lia|]. split; [reflexivity|].
  apply (inventory_totals 1 Samples.inventory 0); [lia | reflexivity].
Defined.

Example more_sample_draws_valid :
  Customers.valid Samples.customer_small = true /\ Suppliers.valid Samples.supplier = true /\
  Inventory.valid Samples.stock_movement = true /\
  Controllership.valid Samples.ledger_entry = true /\
  map (get "Valor_Total") (Inventory.data 1 Samples.inventory)
  = [Some (VNum (PyFloat (5194350 # 100)))] /\
  map (get "Numero_Pedidos") (Customers.data 1 Samples.customers) = [Some (VNum (PyInt 0))] /\
  map (get "Competencia") (Controllership.data 1 Samples.controllership)
  = [Some (VStr "2026-09")].
Proof. repeat split. Qed.

(** ** The header of every file *)

Lemma has_header_of_keys (h : list string) (data : list row) :
  distinct h = true -> Forall (fun r => keys r = h) data -> has_header h data.
Proof.
  intros Hd Hk. split; [exact Hk|]. intros Hne.
  destruct data as [|r data]; [congruence|].
  apply columns_same_shape; [apply distinct_NoDup; exact Hd|].
  apply Forall_forall. exact Hk.
Qed.

Lemma has_header_of_map (h : list string) (n : nat) (row_of : nat -> row) :
  distinct h = true -> (forall i, keys (row_of i) = h) ->
  has_header h (map row_of (seq 0 n)).
Proof.
  intros Hd Hk. apply has_header_of_keys; [exact Hd|].
  apply Forall_forall. intros r Hr. apply in_map_iff in Hr.
  destruct Hr as [i [<- _]]. apply Hk.
Qed.

Lemma has_header_of_raising (h : list string) (n : nat) (row_of : nat -> result row)
    (data : list row) :
  distinct h = true -> (forall i r, row_of i = Ok r -> keys r = h) ->
  for_range_raising n (fun i data => row <- row_of i ;; Ok (data ++ [row])%list) [] = Ok data ->
  has_header h data.
Proof.
  intros Hd Hk Hdata. apply has_header_of_keys; [exact Hd|].
  destruct (for_range_raising_append _ _ _ Hdata) as [Hlen Hnth].
  apply Forall_forall. intros r Hr.
  destruct (In_nth _ _ [] Hr) as [i [Hi' <-]].
  assert (Hi : (i < n)%nat) by (rewrite <- Hlen; exact Hi').
  apply (Hk i). apply Hnth. exact Hi.
Qed.

Lemma cashflow_keys (d : Cashflow.draws) (b : Q) :
  keys (fst (Cashflow.iteration d b)) = Headers.cashflow.
Proof.
  unfold Cashflow.iteration. destruct (Cashflow.transaction d b) as [[t v] nb]. reflexivity.
Qed.

Lemma marketing_keys (i : nat) (d : Marketing.draws) (r : row) :
  Marketing.row_of i d = Ok r -> keys r = Headers.marketing.
Proof.
  unfold Marketing.row_of.
  destruct (Marketing.ctr d); [|discriminate].
  destruct (Marketing.cpc d); [|discriminate].
  destruct (Marketing.cpa d); [|discriminate].
  destruct (Marketing.roi d); [|discriminate].
  simpl. intros H. inversion H. reflexivity.
Qed.

Lemma production_keys (i : nat) (d : Production.draws) (r : row) :
  Production.row_of i d = Ok r -> keys r = Headers.production.
Proof.
  unfold Production.row_of.
  destruct (Production.efficiency d); [|discriminate].
  simpl. intros H. inversion H. reflexivity.
Qed.

(** X9. Every generator builds all its rows with one fixed list of
    keys, in the order of its row literal, whatever the draws (optional
    fields are present with value [None]); that list, of 17 to 20
    names, is therefore the header of the file it writes. *)
Theorem generator_headers (n : nat) :
  (forall o, has_header Headers.cashflow (Cashflow.data n o)) /\
  (forall o, has_header Headers.controllership (Controllership.data n o)) /\
  (forall o, has_header Headers.customers (Customers.data n o)) /\
  (forall o, has_header Headers.hr (HR.data n o)) /\
  (forall o, has_header Headers.inventory (Inventory.data n o)) /\
  (forall o, has_header Headers.logistics (Logistics.data n o)) /\
  (forall o, has_header Headers.suppliers (Suppliers.data n o)) /\
  (forall o data, Marketing.data n o = Ok data -> has_header Headers.marketing data) /\
  (forall o data, Production.data n o = Ok data -> has_header Headers.production data) /\
  map (@List.length string)
    [Headers.cashflow; Headers.controllership; Headers.customers; Headers.hr;
     Headers.inventory; Headers.logistics; Headers.suppliers; Headers.marketing;
     Headers.production]
  = [17; 18; 19; 20; 17; 19; 18; 19; 18]%nat.
Proof.
  repeat match goal with
         | |- _ /\ _ => split
         | |- forall _, _ => intro
         end.
  - apply has_header_of_keys; [reflexivity|]. apply Forall_forall. intros r Hr.
    destruct (In_nth _ _ [] Hr) as [i [Hi <-]]. rewrite CashflowFacts.data_length in Hi.
    rewrite CashflowFacts.data_nth by exact Hi. apply cashflow_keys.
  - rewrite controllership_data. apply has_header_of_map; reflexivity.
  - rewrite customers_data. apply has_header_of_map; reflexivity.
  - rewrite hr_data. apply has_header_of_map; reflexivity.
  - rewrite inventory_data. apply has_header_of_map; reflexivity.
  - rewrite logistics_data. apply has_header_of_map; reflexivity.
  - rewrite suppliers_data. apply has_header_of_map; reflexivity.
  - apply (has_header_of_raising _ n (fun i => Marketing.row_of i (o i))); [reflexivity | |assumption].
    intros i r. apply marketing_keys.
  - apply (has_header_of_raising _ n (fun i => Production.row_of i (o i))); [reflexivity | |assumption].
    intros i r. apply production_keys.
  - reflexivity.
Qed.

Lemma generator_headers_witness :
  exists data,
    Marketing.data 2 Samples.marketing = Ok data /\ has_header Headers.marketing data.
Proof.
  destruct (generator_headers 2) as (_ & _ & _ & _ & _ & _ & _ & M & _).
  destruct (Marketing.data 2 Samples.marketing) as [data|e] eqn:E.
  - exists data. split; [reflexivity|]. apply (M Samples.marketing). exact E.
  - vm_compute in E. discriminate E.
Defined.

(** ** The orchestrator: complete and interrupted runs *)

Module RunFacts.

Import IO Script.

Lemma seq_ok {A : Type} (m : io unit) (k : io A) (w w1 : world) :
  m w = (Ok tt, w1) -> (m >> k) w = k w1.
Proof. intros H. unfold seq, bind. rewrite H. reflexivity. Qed.

Lemma seq_raise {A : Type} (m : io unit) (k : io A) (e : exn) (w w1 : world) :
  m w = (Raise e, w1) -> (m >> k) w = (Raise e, w1).
Proof. intros H. unfold seq, bind. rewrite H. reflexivity. Qed.

Lemma try_ok {A : Type} (body : io A) (h : exn -> option (io A)) (a : A) (w w1 : world) :
  body w = (Ok a, w1) -> try_except body h w = (Ok a, w1).
Proof. intros H. unfold try_except. rewrite H. reflexivity. Qed.

Lemma print_ok (line : string) (w : world) : print line w = (Ok tt, printed w [line]).
Proof. reflexivity. Qed.

Lemma ready_existsb (w : world) :
  ready w -> existsb (String.eqb samples) w.(directories) = true.
Proof.
  intros H. apply existsb_exists. exists samples. split; [exact H | apply String.eqb_refl].
Qed.

Lemma not_ready_existsb (w : world) :
  ~ ready w -> existsb (String.eqb samples) w.(directories) = false.
Proof.
  intros H. apply Bool.not_true_is_false. intros C. apply existsb_exists in C.
  destruct C as [x [Hin Hx]]. apply String.eqb_eq in Hx. subst x. contradiction.
Qed.

(** Saving in an existing directory writes the file and prints the
    completion line. *)
Lemma save_ok (cell_text : list value -> value -> string) (data : list row)
    (name : string) (num_rows : nat) (w : world) :
  ready w ->
  save cell_text data name num_rows w
  = (Ok tt, saved w name (Csv.to_csv cell_text data) num_rows).
Proof.
  intros H. unfold save, seq, bind, write_file. rewrite (ready_existsb w H). reflexivity.
Qed.

Lemma save_missing (cell_text : list value -> value -> string) (data : list row)
    (name : string) (num_rows : nat) (w : world) :
  ~ ready w ->
  save cell_text data name num_rows w
  = (Raise (OSError "Cannot save file into a non-existent directory: '../../samples'"), w).
Proof.
  intros H. unfold save, seq, bind, write_file. rewrite (not_ready_existsb w H). reflexivity.
Qed.

Lemma ready_saved (w : world) (name content : string) (k : nat) :
  ready w -> ready (saved w name content k).
Proof. intros H. exact H. Qed.

Lemma ready_printed (w : world) (lines : list string) : ready w -> ready (printed w lines).
Proof. intros H. exact H. Qed.

Lemma lookup_printed (path : string) (w : world) (lines : list string) :
  lookup path (printed w lines) = lookup path w.
Proof. reflexivity. Qed.

Lemma find_filter_other (path other : string) (fs : list (string * string)) :
  path <> other ->
  find (fun f => String.eqb (fst f) path)
       (filter (fun f => negb (String.eqb (fst f) other)) fs)
  = find (fun f => String.eqb (fst f) path) fs.
Proof.
  intros Hne. induction fs as [|[p c] fs IH]; [reflexivity|]. simpl.
  destruct (String.eqb_spec p other) as [-> | Hp]; simpl.
  - destruct (String.eqb_spec other path) as [E | _]; [congruence | exact IH].
  - destruct (String.eqb p path); [reflexivity | exact IH].
Qed.

Lemma lookup_saved_same (w : world) (name content : string) (k : nat) :
  lookup (output_path name) (saved w name content k) = Some content.
Proof.
  unfold lookup.
  change (files (saved w name content k))
    with ((output_path name, content)
            :: filter (fun f => negb (String.eqb (fst f) (output_path name))) (files w)).
  cbn [find fst]. rewrite String.eqb_refl. reflexivity.
Qed.

Lemma lookup_saved_other (path : string) (w : world) (name content : string) (k : nat) :
  path <> output_path name ->
  lookup path (saved w name content k) = lookup path w.
Proof.
  intros Hne. unfold lookup.
  change (files (saved w name content k))
    with ((output_path name, content)
            :: filter (fun f => negb (String.eqb (fst f) (output_path name))) (files w)).
  cbn [find fst].
  destruct (String.eqb_spec (output_path name) path) as [E | _]; [congruence|].
  rewrite find_filter_other by exact Hne. reflexivity.
Qed.

Lemma stdout_saved (w : world) (name content : string) (k : nat) :
  stdout (saved w name content k)
  = List.app (stdout w) ["Arquivo '" ++ name ++ "' gerado com " ++ str (Z.of_nat k) ++ " linhas."].
Proof. reflexivity. Qed.

Lemma stderr_saved (w : world) (name content : string) (k : nat) :
  stderr (saved w name content k) = stderr w.
Proof. reflexivity. Qed.

Lemma marketing_data_returns (n : nat) (oracle : nat -> Marketing.draws) :
  (forall i, (i < n)%nat -> ~ (Marketing.investment (oracle i) == 0)%Q) ->
  exists data, Marketing.data n oracle = Ok data.
Proof.
  intros H. apply (for_range_raising_total (fun i => Marketing.row_of i (oracle i))).
  intros i Hi. destruct (marketing_row_cases i (oracle i)) as [[_ R] | [Z _]]; [exact R|].
  exfalso. exact (H i Hi Z).
Qed.

Lemma marketing_data_raises (n : nat) (oracle : nat -> Marketing.draws) (i : nat) :
  (i < n)%nat -> (Marketing.investment (oracle i) == 0)%Q ->
  Marketing.data n oracle = Raise (ZeroDivisionError "float division by zero").
Proof.
  intros Hi Z. unfold Marketing.data.
  destruct (for_range_raising_cases (fun i => Marketing.row_of i (oracle i)) n)
    as [[data Hd] | [j [e [Hj [Hf Hr]]]]].
  - destruct (for_range_raising_append _ _ _ Hd) as [_ Hnth].
    specialize (Hnth i [] Hi). simpl in Hnth.
    destruct (marketing_row_cases i (oracle i)) as [[NZ _] | [_ R]]; [contradiction|].
    rewrite R in Hnth. discriminate.
  - simpl in Hf. destruct (marketing_row_cases j (oracle j)) as [[_ [r R]] | [_ R]];
      rewrite R in Hf; [discriminate|]. inversion Hf; subst e. exact Hr.
Qed.

Lemma production_data_returns (n : nat) (oracle : nat -> Production.draws) :
  (forall i, (i < n)%nat -> Production.valid (oracle i) = true) ->
  exists data, Production.data n oracle = Ok data.
Proof.
  intros H. apply (for_range_raising_total (fun i => Production.row_of i (oracle i))).
  intros i Hi. destruct (production_row i (oracle i) (H i Hi)) as [r [Hr _]].
  exists r. exact Hr.
Qed.

Lemma generate_marketing_ok (cell_text : list value -> value -> string) (n : nat)
    (oracle : nat -> Marketing.draws) (data : list row) (w : world) :
  Marketing.data n oracle = Ok data -> ready w ->
  generate_marketing_data cell_text n oracle w
  = (Ok tt, saved w "marketing_digital.csv" (Csv.to_csv cell_text data) n).
Proof.
  intros Hd Hw. unfold generate_marketing_data, bind, lift. rewrite Hd. apply save_ok. exact Hw.
Qed.

Lemma generate_marketing_raise (cell_text : list value -> value -> string) (n : nat)
    (oracle : nat -> Marketing.draws) (e : exn) (w : world) :
  Marketing.data n oracle = Raise e ->
  generate_marketing_data cell_text n oracle w = (Raise e, w).
Proof. intros Hd. unfold generate_marketing_data, bind, lift. rewrite Hd. reflexivity. Qed.

Lemma generate_production_ok (cell_text : list value -> value -> string) (n : nat)
    (oracle : nat -> Production.draws) (data : list row) (w : world) :
  Production.data n oracle = Ok data -> ready w ->
  generate_production_data cell_text n oracle w
  = (Ok tt, saved w "producao_manufatura.csv" (Csv.to_csv cell_text data) n).
Proof.
  intros Hd Hw. unfold generate_production_data, bind, lift. rewrite Hd. apply save_ok. exact Hw.
Qed.

(** The first four generators of [main] cannot fail in an existing
    directory. *)
Lemma main_first_four (cell_text : list value -> value -> string) (o : oracles)
    (k : io unit) (w : world) :
  ready w ->
  (generate_ecommerce_sales cell_text 5000 o.(ecommerce) >>
   generate_controllership_data cell_text 5000 o.(controllership) >>
   generate_hr_data cell_text 5000 o.(hr) >>
   generate_logistics_data cell_text 5000 o.(logistics) >> k) w
  = k (saved (saved (saved (saved w
         "vendas_ecommerce.csv" (Csv.to_csv cell_text (Ecommerce.data 5000 o.(ecommerce))) 5000)
         "controladoria_contabilidade.csv"
         (Csv.to_csv cell_text (Controllership.data 5000 o.(controllership))) 5000)
         "recursos_humanos.csv" (Csv.to_csv cell_text (HR.data 5000 o.(hr))) 5000)
         "logistica_entregas.csv" (Csv.to_csv cell_text (Logistics.data 5000 o.(logistics))) 5000).
Proof.
  intros Hw.
  erewrite seq_ok by (apply save_ok; exact Hw).
  erewrite seq_ok by (apply save_ok; exact Hw).
  erewrite seq_ok by (apply save_ok; exact Hw).
  erewrite seq_ok by (apply save_ok; exact Hw).
  reflexivity.
Qed.

End RunFacts.

(** ** Runs of [main] *)

Lemma output_path_inj (a b : string) : output_path a = output_path b -> a = b.
Proof.
  unfold output_path. intros H. apply append_inj_r in H. apply append_inj_r in H. exact H.
Qed.

Lemma saved_each_cons (w : IO.world) (f : string * string) (l : list (string * string))
    (n : nat) :
  saved_each w (f :: l) n = saved_each (saved w (fst f) (snd f) n) l n.
Proof. reflexivity. Qed.

Lemma stdout_saved_each (w : IO.world) (l : list (string * string)) (n : nat) :
  IO.stdout (saved_each w l n)
  = List.app (IO.stdout w)
      (map (fun f => "Arquivo '" ++ fst f ++ "' gerado com " ++ str (Z.of_nat n) ++ " linhas.") l).
Proof.
  revert w. induction l as [|f l IH]; intros w.
  - symmetry. apply app_nil_r.
  - rewrite saved_each_cons, IH, RunFacts.stdout_saved, <- app_assoc. reflexivity.
Qed.

Lemma stderr_saved_each (w : IO.world) (l : list (string * string)) (n : nat) :
  IO.stderr (saved_each w l n) = IO.stderr w.
Proof.
  revert w. induction l as [|f l IH]; intros w; [reflexivity|].
  rewrite saved_each_cons, IH. apply RunFacts.stderr_saved.
Qed.

Lemma lookup_saved_each_other (path : string) (w : IO.world) (l : list (string * string))
    (n : nat) :
  ~ In path (map output_path (map fst l)) ->
  lookup path (saved_each w l n) = lookup path w.
Proof.
  revert w. induction l as [|f l IH]; intros w H; [reflexivity|].
  rewrite saved_each_cons, IH by (intros C; apply H; right; exact C).
  apply RunFacts.lookup_saved_other. intros C. apply H. left. symmetry. exact C.
Qed.

Lemma lookup_saved_each_same (w : IO.world) (l : list (string * string)) (n : nat)
    (name content : string) :
  NoDup (map fst l) -> In (name, content) l ->
  lookup (output_path name) (saved_each w l n) = Some content.
Proof.
  revert w. induction l as [|f l IH]; intros w Hd Hin; [destruct Hin|].
  inversion Hd as [|x xs Hx Hd']; subst. rewrite saved_each_cons.
  destruct Hin as [E | Hin].
  - subst f. rewrite lookup_saved_each_other.
    + apply RunFacts.lookup_saved_same.
    + intros C. apply in_map_iff in C. destruct C as [other [E Hother]].
      apply output_path_inj in E. subst other. exact (Hx Hother).
  - apply IH; assumption.
Qed.

Lemma map_fst_combine {A B : Type} (l : list A) (l' : list B) :
  List.length l = List.length l' -> map fst (combine l l') = l.
Proof.
  revert l'. induction l as [|a l IH]; intros [|b l'] H; try reflexivity; try discriminate.
  simpl. f_equal. apply IH. simpl in H. lia.
Qed.

Lemma map_snd_combine {A B : Type} (l : list A) (l' : list B) :
  List.length l = List.length l' -> map snd (combine l l') = l'.
Proof.
  revert l'. induction l as [|a l IH]; intros [|b l'] H; try reflexivity; try discriminate.
  simpl. f_equal. apply IH. simpl in H. lia.
Qed.

Lemma map_map_fst_combine {A B C : Type} (g : A -> C) (l : list A) (l' : list B) :
  List.length l = List.length l' -> map (fun f => g (fst f)) (combine l l') = map g l.
Proof. intros H. rewrite <- (map_map fst g), map_fst_combine by exact H. reflexivity. Qed.

(** After a run of savers with distinct names, each file holds the
    content given for it. *)
Lemma lookup_saved_each (w : IO.world) (names contents : list string) (n : nat) :
  NoDup names -> List.length names = List.length contents ->
  map (fun name => lookup (output_path name) (saved_each w (combine names contents) n)) names
  = map Some contents.
Proof.
  intros Hd Hlen.
  pose proof (map_fst_combine names contents Hlen) as F.
  pose proof (map_snd_combine names contents Hlen) as S.
  rewrite <- F in Hd. revert F S Hd. generalize (combine names contents). intros l F S Hd.
  rewrite <- F, <- S, !map_map.
  apply map_ext_in. intros [name content] Hin.
  apply lookup_saved_each_same; [exact Hd | exact Hin].
Qed.

Lemma ready_saved_each (w : IO.world) (l : list (string * string)) (n : nat) :
  ready w -> ready (saved_each w l n).
Proof.
  revert w. induction l as [|f l IH]; intros w H; [exact H|].
  rewrite saved_each_cons. apply IH, RunFacts.ready_saved, H.
Qed.

Lemma run_seq_ok (m k : IO.io unit) (w w1 : IO.world) :
  m w = (Ok tt, w1) -> IO.run (m >> k) w = IO.run k w1.
Proof. intros H. unfold IO.run. rewrite (RunFacts.seq_ok m k w w1 H). reflexivity. Qed.

Lemma run_try_ok (body : IO.io unit) (h : exn -> option (IO.io unit)) (w w1 : IO.world) :
  body w = (Ok tt, w1) -> IO.run (IO.try_except body h) w = (0, w1).
Proof. intros H. unfold IO.run. rewrite (RunFacts.try_ok body h tt w w1 H). reflexivity. Qed.

Lemma lookup_printed3 (path : string) (w : IO.world) (a b c : list string) :
  lookup path (IO.printed (IO.printed (IO.printed w a) b) c) = lookup path w.
Proof. reflexivity. Qed.

Lemma lookup_started (path : string) (w : IO.world) : lookup path (started w) = lookup path w.
Proof. reflexivity. Qed.

(** [main] prints its banner and enters the [try] block. *)
Lemma run_main (cell_text : list value -> value -> string) (o : Script.oracles)
    (w : IO.world) :
  exists body,
    IO.run (Script.main cell_text o) w
    = IO.run (IO.try_except body (Script.handler)) (started w) /\
    body
    = (Script.generate_ecommerce_sales cell_text 5000 o.(Script.ecommerce) >>
       Script.generate_controllership_data cell_text 5000 o.(Script.controllership) >>
       Script.generate_hr_data cell_text 5000 o.(Script.hr) >>
       Script.generate_logistics_data cell_text 5000 o.(Script.logistics) >>
       Script.generate_marketing_data cell_text 5000 o.(Script.marketing) >>
       Script.generate_production_data cell_text 5000 o.(Script.production) >>
       Script.generate_inventory_data cell_text 5000 o.(Script.inventory) >>
       Script.generate_customers_data cell_text 5000 o.(Script.customers) >>
       Script.generate_suppliers_data cell_text 5000 o.(Script.suppliers) >>
       Script.generate_cashflow_data cell_text 5000 o.(Script.cashflow) >>
       IO.print (Script.repeat_string "=" 50) >>
       IO.print "Todos os arquivos CSV foram gerados com sucesso!" >>
       IO.print "Arquivos salvos em: ../../samples/").
Proof.
  eexists. split; [|reflexivity]. unfold Script.main.
  erewrite run_seq_ok by apply RunFacts.print_ok.
  erewrite run_seq_ok by apply RunFacts.print_ok. reflexivity.
Qed.

Ltac still_ready H :=
  repeat match goal with
         | |- ready (saved _ _ _ _) => apply RunFacts.ready_saved
         end;
  exact H.

(** The [try] block of [main] when nothing is raised. *)
Lemma main_body_ok (cell_text : list value -> value -> string) (o : Script.oracles)
    (w : IO.world) (marketing_rows production_rows : list row) :
  ready w ->
  Marketing.data 5000 o.(Script.marketing) = Ok marketing_rows ->
  Production.data 5000 o.(Script.production) = Ok production_rows ->
  (Script.generate_ecommerce_sales cell_text 5000 o.(Script.ecommerce) >>
   Script.generate_controllership_data cell_text 5000 o.(Script.controllership) >>
   Script.generate_hr_data cell_text 5000 o.(Script.hr) >>
   Script.generate_logistics_data cell_text 5000 o.(Script.logistics) >>
   Script.generate_marketing_data cell_text 5000 o.(Script.marketing) >>
   Script.generate_production_data cell_text 5000 o.(Script.production) >>
   Script.generate_inventory_data cell_text 5000 o.(Script.inventory) >>
   Script.generate_customers_data cell_text 5000 o.(Script.customers) >>
   Script.generate_suppliers_data cell_text 5000 o.(Script.suppliers) >>
   Script.generate_cashflow_data cell_text 5000 o.(Script.cashflow) >>
   IO.print (Script.repeat_string "=" 50) >>
   IO.print "Todos os arquivos CSV foram gerados com sucesso!" >>
   IO.print "Arquivos salvos em: ../../samples/") w
  = (Ok tt,
     IO.printed (IO.printed (IO.printed
       (saved_each w
          (combine output_files
             (map (Csv.to_csv cell_text)
                [Ecommerce.data 5000 o.(Script.ecommerce);
                 Controllership.data 5000 o.(Script.controllership);
                 HR.data 5000 o.(Script.hr); Logistics.data 5000 o.(Script.logistics);
                 marketing_rows; production_rows;
                 Inventory.data 5000 o.(Script.inventory);
                 Customers.data 5000 o.(Script.customers);
                 Suppliers.data 5000 o.(Script.suppliers);
                 Cashflow.data 5000 o.(Script.cashflow)])) 5000)
       [Script.repeat_string "=" 50])
       ["Todos os arquivos CSV foram gerados com sucesso!"])
       ["Arquivos salvos em: ../../samples/"]).
Proof.
  intros Hw Hm Hp.
  cbn [saved_each fold_left combine map output_files fst snd].
  rewrite RunFacts.main_first_four by exact Hw.
  erewrite RunFacts.seq_ok
    by (apply RunFacts.generate_marketing_ok; [exact Hm | still_ready Hw]).
  erewrite RunFacts.seq_ok
    by (apply RunFacts.generate_production_ok; [exact Hp | still_ready Hw]).
  erewrite RunFacts.seq_ok by (apply RunFacts.save_ok; still_ready Hw).
  erewrite RunFacts.seq_ok by (apply RunFacts.save_ok; still_ready Hw).
  erewrite RunFacts.seq_ok by (apply RunFacts.save_ok; still_ready Hw).
  erewrite RunFacts.seq_ok by (apply RunFacts.save_ok; still_ready Hw).
  erewrite RunFacts.seq_ok by apply RunFacts.print_ok.
  erewrite RunFacts.seq_ok by apply RunFacts.print_ok.
  apply RunFacts.print_ok.
Qed.

(** X10. When the output directory exists and the two generators that
    can raise do not, [main] exits with status 0, prints the banner, one
    completion line per generator in the fixed order and the closing
    lines, leaves each of the ten files holding exactly what [to_csv]
    makes of that generator's rows, and touches no other file. *)
Theorem main_complete_run (cell_text : list value -> value -> string) (o : Script.oracles)
    (w : IO.world) (marketing_rows production_rows : list row) :
  ready w ->
  Marketing.data 5000 o.(Script.marketing) = Ok marketing_rows ->
  Production.data 5000 o.(Script.production) = Ok production_rows ->
  exists w',
    IO.run (Script.main cell_text o) w = (0, w') /\
    IO.stdout w'
    = List.app (IO.stdout w)
        (["Iniciando geração de dados CSV..."; Script.repeat_string "=" 50]
           ++ map completion_line output_files
           ++ [Script.repeat_string "=" 50;
               "Todos os arquivos CSV foram gerados com sucesso!";
               "Arquivos salvos em: ../../samples/"])%list /\
    IO.stderr w' = IO.stderr w /\
    map (fun name => lookup (output_path name) w') output_files
    = map (fun data => Some (Csv.to_csv cell_text data))
        [Ecommerce.data 5000 o.(Script.ecommerce);
         Controllership.data 5000 o.(Script.controllership);
         HR.data 5000 o.(Script.hr); Logistics.data 5000 o.(Script.logistics);
         marketing_rows; production_rows;
         Inventory.data 5000 o.(Script.inventory); Customers.data 5000 o.(Script.customers);
         Suppliers.data 5000 o.(Script.suppliers); Cashflow.data 5000 o.(Script.cashflow)] /\
    (forall path, ~ In path (map output_path output_files) -> lookup path w' = lookup path w).
Proof.
  intros Hw Hm Hp. rewrite <- (map_map (Csv.to_csv cell_text) Some).
  pose proof (run_main cell_text o w) as [body [Hrun Hbody]].
  assert (Hw' : ready (started w)) by exact Hw.
  pose proof (main_body_ok cell_text o (started w) marketing_rows production_rows Hw' Hm Hp)
    as Hok.
  rewrite <- Hbody in Hok. clear Hbody.
  assert (Hlen : List.length output_files
                 = List.length
                     (map (Csv.to_csv cell_text)
                        [Ecommerce.data 5000 o.(Script.ecommerce);
                         Controllership.data 5000 o.(Script.controllership);
                         HR.data 5000 o.(Script.hr); Logistics.data 5000 o.(Script.logistics);
                         marketing_rows; production_rows;
                         Inventory.data 5000 o.(Script.inventory);
                         Customers.data 5000 o.(Script.customers);
                         Suppliers.data 5000 o.(Script.suppliers);
                         Cashflow.data 5000 o.(Script.cashflow)]))
    by (rewrite length_map; cbn [List.length output_files]; reflexivity).
  revert Hlen Hok.
  generalize
    (map (Csv.to_csv cell_text)
       [Ecommerce.data 5000 o.(Script.ecommerce);
        Controllership.data 5000 o.(Script.controllership);
        HR.data 5000 o.(Script.hr); Logistics.data 5000 o.(Script.logistics);
        marketing_rows; production_rows;
        Inventory.data 5000 o.(Script.inventory); Customers.data 5000 o.(Script.customers);
        Suppliers.data 5000 o.(Script.suppliers); Cashflow.data 5000 o.(Script.cashflow)]).
  intros contents Hlen Hok.
  exists (IO.printed (IO.printed (IO.printed
            (saved_each (started w) (combine output_files contents) 5000)
            [Script.repeat_string "=" 50])
            ["Todos os arquivos CSV foram gerados com sucesso!"])
            ["Arquivos salvos em: ../../samples/"]).
  split; [|split; [|split; [|split]]].
  - rewrite Hrun. apply run_try_ok. exact Hok.
  - clear Hok Hrun. cbn [IO.stdout IO.printed]. rewrite stdout_saved_each.
    cbn [IO.stdout IO.printed started]. rewrite <- !app_assoc. cbn [List.app].
    do 3 f_equal.
    rewrite <- (map_map_fst_combine completion_line output_files contents Hlen).
    reflexivity.
  - cbn [IO.stderr IO.printed]. rewrite stderr_saved_each. reflexivity.
  - rewrite <- (lookup_saved_each (started w) output_files contents 5000);
      [apply map_ext; intros name; apply lookup_printed3
      | apply distinct_NoDup; reflexivity | exact Hlen].
  - intros path Hpath. rewrite lookup_printed3, lookup_saved_each_other.
    + apply lookup_started.
    + rewrite map_fst_combine by exact Hlen. exact Hpath.
Qed.

Lemma samples_marketing_invested (i : nat) :
  ~ (Marketing.investment (Samples.marketing i) == 0)%Q.
Proof.
  unfold Samples.marketing. destruct (Nat.even i); intros C; vm_compute in C; discriminate C.
Qed.

Lemma main_complete_run_witness :
  exists marketing_rows production_rows w',
    ready Samples.world_ready /\
    Marketing.data 5000 Samples.oracles.(Script.marketing) = Ok marketing_rows /\
    Production.data 5000 Samples.oracles.(Script.production) = Ok production_rows /\
    IO.run (Script.main Samples.cell_text Samples.oracles) Samples.world_ready = (0, w') /\
    lookup (output_path "marketing_digital.csv") w'
    = Some (Csv.to_csv Samples.cell_text marketing_rows).
Proof.
  destruct (RunFacts.marketing_data_returns 5000 Samples.marketing) as [md Hm].
  { intros i _. apply samples_marketing_invested. }
  destruct (RunFacts.production_data_returns 5000 Samples.production) as [pd Hp].
  { intros i _. reflexivity. }
  assert (Hw : ready Samples.world_ready) by (left; reflexivity).
  destruct (main_complete_run Samples.cell_text Samples.oracles Samples.world_ready md pd
              Hw Hm Hp) as [w' [Hrun [_ [_ [Hfiles _]]]]].
  exists md, pd, w'.
  split; [exact Hw|]. split; [exact Hm|]. split; [exact Hp|]. split; [exact Hrun|].
  exact (f_equal (fun l => nth 4 l None) Hfiles).
Defined.

(** X11. When the output directory exists and some marketing row's
    investment rounds to 0.00, [main] exits with status 1 after the
    first four generators: their four files are written and their four
    completion lines printed, then the error line with the message of
    the [ZeroDivisionError]; the marketing file and every later file
    are left exactly as they were before the run (absent or stale). *)
Theorem main_marketing_failure (cell_text : list value -> value -> string)
    (o : Script.oracles) (w : IO.world) (i : nat) :
  ready w -> (i < 5000)%nat -> (Marketing.investment (o.(Script.marketing) i) == 0)%Q ->
  exists w',
    IO.run (Script.main cell_text o) w = (1, w') /\
    IO.stdout w'
    = List.app (IO.stdout w)
        (["Iniciando geração de dados CSV..."; Script.repeat_string "=" 50]
           ++ map completion_line (firstn 4 output_files)
           ++ ["Erro durante a geração: float division by zero"])%list /\
    IO.stderr w' = IO.stderr w /\
    map (fun name => lookup (output_path name) w') (firstn 4 output_files)
    = map (fun data => Some (Csv.to_csv cell_text data))
        [Ecommerce.data 5000 o.(Script.ecommerce);
         Controllership.data 5000 o.(Script.controllership);
         HR.data 5000 o.(Script.hr); Logistics.data 5000 o.(Script.logistics)] /\
    (forall path, ~ In path (map output_path (firstn 4 output_files)) ->
                  lookup path w' = lookup path w).
Proof.
  intros Hw Hi Hz. rewrite <- (map_map (Csv.to_csv cell_text) Some).
  pose proof (run_main cell_text o w) as [body [Hrun Hbody]].
  pose proof (RunFacts.marketing_data_raises 5000 _ i Hi Hz) as Hm.
  assert (Hok : body (started w)
                = (Raise (ZeroDivisionError "float division by zero"),
                   saved_each (started w)
                     (combine (firstn 4 output_files)
                        (map (Csv.to_csv cell_text)
                           [Ecommerce.data 5000 o.(Script.ecommerce);
                            Controllership.data 5000 o.(Script.controllership);
                            HR.data 5000 o.(Script.hr);
                            Logistics.data 5000 o.(Script.logistics)])) 5000)).
  { rewrite Hbody. cbn [saved_each fold_left combine map output_files firstn fst snd].
    rewrite RunFacts.main_first_four by exact Hw.
    apply RunFacts.seq_raise. apply RunFacts.generate_marketing_raise. exact Hm. }
  clear Hbody.
  assert (Hlen : List.length (firstn 4 output_files)
                 = List.length
                     (map (Csv.to_csv cell_text)
                        [Ecommerce.data 5000 o.(Script.ecommerce);
                         Controllership.data 5000 o.(Script.controllership);
                         HR.data 5000 o.(Script.hr); Logistics.data 5000 o.(Script.logistics)]))
    by (rewrite length_map; cbn [List.length firstn output_files]; reflexivity).
  revert Hlen Hok.
  generalize
    (map (Csv.to_csv cell_text)
       [Ecommerce.data 5000 o.(Script.ecommerce);
        Controllership.data 5000 o.(Script.controllership);
        HR.data 5000 o.(Script.hr); Logistics.data 5000 o.(Script.logistics)]).
  intros contents Hlen Hok.
  exists (IO.printed
            (saved_each (started w) (combine (firstn 4 output_files) contents) 5000)
            ["Erro durante a geração: float division by zero"]).
  split; [|split; [|split; [|split]]].
  - rewrite Hrun.
    exact (ScriptFacts.main_reports_exception body _ _ _ Hok eq_refl eq_refl).
  - clear Hok Hrun. cbn [IO.stdout IO.printed]. rewrite stdout_saved_each.
    cbn [IO.stdout IO.printed started]. rewrite <- !app_assoc. cbn [List.app].
    do 3 f_equal.
    rewrite <- (map_map_fst_combine completion_line (firstn 4 output_files) contents Hlen).
    reflexivity.
  - cbn [IO.stderr IO.printed]. rewrite stderr_saved_each. reflexivity.
  - rewrite <- (lookup_saved_each (started w) (firstn 4 output_files) contents 5000);
      [apply map_ext; intros name; apply RunFacts.lookup_printed
      | apply distinct_NoDup; reflexivity | exact Hlen].
  - intros path Hpath. rewrite RunFacts.lookup_printed, lookup_saved_each_other.
    + apply lookup_started.
    + rewrite map_fst_combine by exact Hlen. exact Hpath.
Qed.

Lemma main_marketing_failure_witness :
  ready Samples.world_ready /\ (0 < 5000)%nat /\
  (Marketing.investment (Samples.oracles_marketing_fails.(Script.marketing) 0%nat) == 0)%Q /\
  exists w',
    IO.run (Script.main Samples.cell_text Samples.oracles_marketing_fails)
           Samples.world_ready = (1, w') /\
    lookup (output_path "marketing_digital.csv") w' = Some "stale" /\
    lookup (output_path "producao_manufatura.csv") w' = None.
Proof.
  assert (Hw : ready Samples.world_ready) by (left; reflexivity).
  assert (Hi : (0 < 5000)%nat) by (apply Nat.ltb_lt; reflexivity).
  assert (Hz : (Marketing.investment
                  (Samples.oracles_marketing_fails.(Script.marketing) 0%nat) == 0)%Q)
    by reflexivity.
  split; [exact Hw|]. split; [exact Hi|]. split; [exact Hz|].
  destruct (main_marketing_failure Samples.cell_text Samples.oracles_marketing_fails
              Samples.world_ready 0 Hw Hi Hz) as [w' [Hrun [_ [_ [_ Hother]]]]].
  exists w'. split; [exact Hrun|]. split.
  - rewrite Hother; [reflexivity|]. vm_compute. intuition discriminate.
  - rewrite Hother; [reflexivity|]. vm_compute. intuition discriminate.
Defined.

(** X12. When the output directory does not exist, [main] exits with
    status 1 at its first generator: it prints the banner and the error
    line carrying pandas' message, and changes nothing else, whatever
    the draws are. *)
Theorem main_missing_directory (cell_text : list value -> value -> string)
    (o : Script.oracles) (w : IO.world) :
  ~ ready w ->
  IO.run (Script.main cell_text o) w
  = (1, IO.printed (started w)
          ["Erro durante a geração: Cannot save file into a non-existent directory: '../../samples'"]).
Proof.
  intros Hw. pose proof (run_main cell_text o w) as [body [Hrun Hbody]].
  rewrite Hrun.
  apply (ScriptFacts.main_reports_exception body
           (OSError "Cannot save file into a non-existent directory: '../../samples'"));
    [|reflexivity|reflexivity].
  rewrite Hbody. apply RunFacts.seq_raise. apply RunFacts.save_missing. exact Hw.
Qed.

Lemma main_missing_directory_witness :
  ~ ready Samples.world_without_samples /\
  IO.run (Script.main Samples.cell_text Samples.oracles) Samples.world_without_samples
  = (1, IO.printed (started Samples.world_without_samples)
          ["Erro durante a geração: Cannot save file into a non-existent directory: '../../samples'"]).
Proof.
  assert (Hw : ~ ready Samples.world_without_samples) by (intros C; exact C).
  split; [exact Hw|].
  exact (main_missing_directory Samples.cell_text Samples.oracles
           Samples.world_without_samples Hw).
Defined.

(** ** The width of the identifiers *)

Lemma string_length_uint (d : uint) :
  String.length (NilEmpty.string_of_uint d) = nb_digits d.
Proof. induction d; simpl; congruence. Qed.

Lemma of_uint_acc_bounds (d : uint) (acc : positive) :
  Zpos acc * 10 ^ Z.of_nat (nb_digits d) <= Zpos (Pos.of_uint_acc d acc)
  /\ Zpos (Pos.of_uint_acc d acc) < (Zpos acc + 1) * 10 ^ Z.of_nat (nb_digits d).
Proof.
  revert acc. induction d; intros acc; [simpl; lia | ..];
    cbn [Pos.of_uint_acc nb_digits];
    match goal with
    | |- context [Pos.of_uint_acc d ?a] =>
        destruct (IHd a) as [L U]; revert L U;
        generalize (Zpos (Pos.of_uint_acc d a)); intros v L U
    end;
    rewrite Nat2Z.inj_succ, Z.pow_succ_r by lia;
    assert (P : 0 < 10 ^ Z.of_nat (nb_digits d)) by (apply Z.pow_pos_nonneg; lia);
    revert P L U; generalize (10 ^ Z.of_nat (nb_digits d)); intros p P L U;
    rewrite ?Pos2Z.inj_add, ?Pos2Z.inj_mul in L, U; nia.
Qed.

Lemma of_uint_upper (d : uint) : Z.of_N (N.of_uint d) < 10 ^ Z.of_nat (nb_digits d).
Proof.
  induction d;
    [ simpl; lia
    | cbn [N.of_uint Pos.of_uint nb_digits] in *;
      rewrite Nat2Z.inj_succ, Z.pow_succ_r by lia;
      assert (P : 0 < 10 ^ Z.of_nat (nb_digits d)) by (apply Z.pow_pos_nonneg; lia);
      change (N.of_uint d) with (Pos.of_uint d) in IHd; lia
    | .. ];
    cbn [N.of_uint Pos.of_uint nb_digits];
    match goal with
    | |- context [Pos.of_uint_acc d ?a] =>
        destruct (of_uint_acc_bounds d a) as [_ U]; revert U;
        generalize (Pos.of_uint_acc d a); intros v U
    end;
    rewrite Nat2Z.inj_succ, Z.pow_succ_r by lia;
    assert (P : 0 < 10 ^ Z.of_nat (nb_digits d)) by (apply Z.pow_pos_nonneg; lia);
    revert P U; generalize (10 ^ Z.of_nat (nb_digits d)); intros p P U;
    cbn [Z.of_N]; nia.
Qed.

Lemma of_uint_lower (d : uint) :
  d = unorm d -> d <> zero ->
  10 ^ (Z.of_nat (nb_digits d) - 1) <= Z.of_N (N.of_uint d).
Proof.
  intros Hn Hz.
  destruct d as [|d|d|d|d|d|d|d|d|d|d];
    [ exfalso; apply (DecimalFacts.unorm_nonnil Nil); symmetry; exact Hn
    | exfalso; rewrite DecimalFacts.unorm_D0 in Hn; unfold unorm in Hn;
      destruct (nzhead d) eqn:E;
      try (apply (DecimalFacts.nzhead_nonzero d d); rewrite E; symmetry; exact Hn);
      apply Hz; exact Hn
    | .. ];
    cbn [N.of_uint Pos.of_uint nb_digits];
    match goal with
    | |- context [Pos.of_uint_acc d ?a] =>
        destruct (of_uint_acc_bounds d a) as [L _]; revert L;
        generalize (Pos.of_uint_acc d a); intros v L
    end;
    rewrite Nat2Z.inj_succ;
    replace (Z.succ (Z.of_nat (nb_digits d)) - 1) with (Z.of_nat (nb_digits d)) by lia;
    assert (P : 0 < 10 ^ Z.of_nat (nb_digits d)) by (apply Z.pow_pos_nonneg; lia);
    revert P L; generalize (10 ^ Z.of_nat (nb_digits d)); intros p P L;
    cbn [Z.of_N]; nia.
Qed.

Lemma to_uint_normal (n : N) : N.to_uint n = unorm (N.to_uint n).
Proof.
  rewrite <- (DecimalN.Unsigned.of_to n) at 1. apply DecimalN.Unsigned.to_of.
Qed.

(** The number of decimal digits of a natural number. *)
Lemma str_nat_length (n : N) (w : nat) :
  (1 <= w)%nat ->
  (Z.of_N n < 10 ^ Z.of_nat w -> (String.length (str_nat n) <= w)%nat) /\
  (10 ^ Z.of_nat w <= Z.of_N n -> (w < String.length (str_nat n))%nat).
Proof.
  intros Hw. unfold str_nat. rewrite string_length_uint.
  pose proof (of_uint_upper (N.to_uint n)) as U. rewrite DecimalN.Unsigned.of_to in U.
  split; intros H.
  - destruct (uint_eq_dec (N.to_uint n) zero) as [E | NE].
    + rewrite E. simpl. exact Hw.
    + pose proof (of_uint_lower _ (to_uint_normal n) NE) as L.
      rewrite DecimalN.Unsigned.of_to in L.
      apply Nat.le_ngt. intros C.
      assert (M : 10 ^ Z.of_nat w <= 10 ^ (Z.of_nat (nb_digits (N.to_uint n)) - 1))
        by (apply Z.pow_le_mono_r; lia).
      lia.
  - apply Nat.lt_nge. intros C.
    assert (M : 10 ^ Z.of_nat (nb_digits (N.to_uint n)) <= 10 ^ Z.of_nat w)
      by (apply Z.pow_le_mono_r; lia).
    lia.
Qed.

Lemma string_length_append (a b : string) :
  String.length (a ++ b) = (String.length a + String.length b)%nat.
Proof. induction a as [|c a IH]; simpl; [|rewrite IH]; reflexivity. Qed.

Lemma zeros_length (k : nat) : String.length (zeros k) = k.
Proof. induction k as [|k IH]; simpl; [|rewrite IH]; reflexivity. Qed.

(** [{z:0Wd}] is exactly [W] characters wide up to [10^W - 1] and wider
    from [10^W] on. *)
Lemma format_0d_length (width : nat) (z : Z) :
  (1 <= width)%nat -> 0 <= z ->
  (z < 10 ^ Z.of_nat width -> String.length (format_0d width z) = width) /\
  (10 ^ Z.of_nat width <= z -> (width < String.length (format_0d width z))%nat).
Proof.
  intros Hw Hz. unfold format_0d. destruct (Z.ltb_spec z 0); [lia|].
  unfold zfill. rewrite string_length_append, zeros_length.
  destruct (str_nat_length (Z.to_N z) width Hw) as [A B].
  rewrite Z2N.id in A, B by exact Hz.
  split; intros H'; [specialize (A H') | specialize (B H')]; lia.
Qed.

(** X13. Order and employee identifiers have a fixed width for as long
    as the row number fits the padding: [ID_Pedido] is 9 characters wide
    for the first 999999 rows and [ID_Funcionario] 8 characters wide for
    the first 99999; from the next row on the number is written in full
    and the identifier is longer, it is never cut. *)
Theorem identifier_width (n i : nat) (oe : nat -> Ecommerce.draws) (oh : nat -> HR.draws) :
  (i < n)%nat ->
  exists s t,
    get "ID_Pedido" (nth i (Ecommerce.data n oe) []) = Some (VStr s) /\
    get "ID_Funcionario" (nth i (HR.data n oh) []) = Some (VStr t) /\
    (Z.of_nat i + 1 < 10 ^ 6 -> String.length s = 9%nat) /\
    (10 ^ 6 <= Z.of_nat i + 1 -> (9 < String.length s)%nat) /\
    (Z.of_nat i + 1 < 10 ^ 5 -> String.length t = 8%nat) /\
    (10 ^ 5 <= Z.of_nat i + 1 -> (8 < String.length t)%nat).
Proof.
  intros Hi. rewrite ecommerce_data, hr_data, !nth_map_seq by exact Hi.
  exists ("PED" ++ format_0d 6 (Z.of_nat i + 1)), ("FUN" ++ format_0d 5 (Z.of_nat i + 1)).
  split; [reflexivity|]. split; [reflexivity|].
  rewrite !string_length_append.
  change (String.length "PED") with 3%nat. change (String.length "FUN") with 3%nat.
  destruct (format_0d_length 6 (Z.of_nat i + 1)) as [A B]; [lia | lia |].
  destruct (format_0d_length 5 (Z.of_nat i + 1)) as [C D]; [lia | lia |].
  change (Z.of_nat 6) with 6 in A, B. change (Z.of_nat 5) with 5 in C, D.
  repeat split; intros H;
    [specialize (A H) | specialize (B H) | specialize (C H) | specialize (D H)]; lia.
Qed.

Lemma identifier_width_witness :
  (2 < 3)%nat /\
  exists s t,
    get "ID_Pedido" (nth 2 (Ecommerce.data 3 Samples.ecommerce) []) = Some (VStr s) /\
    get "ID_Funcionario" (nth 2 (HR.data 3 Samples.hr) []) = Some (VStr t) /\
    (Z.of_nat 2 + 1 < 10 ^ 6 -> String.length s = 9%nat) /\
    (10 ^ 6 <= Z.of_nat 2 + 1 -> (9 < String.length s)%nat) /\
    (Z.of_nat 2 + 1 < 10 ^ 5 -> String.length t = 8%nat) /\
    (10 ^ 5 <= Z.of_nat 2 + 1 -> (8 < String.length t)%nat).
Proof.
  split; [lia|]. apply (identifier_width 3 2 Samples.ecommerce Samples.hr). lia.
Defined.

(** ** The discount of an order *)

Lemma uniform_from_zero (b u : Q) :
  unit_interval u = true ->
  ((0 <= b)%Q -> (0 <= uniform 0 b u)%Q /\ (uniform 0 b u <= b)%Q) /\
  ((b <= 0)%Q -> (b <= uniform 0 b u)%Q /\ (uniform 0 b u <= 0)%Q).
Proof.
  intros H. unfold unit_interval in H. apply andb_prop in H. destruct H as [L U].
  apply Qle_bool_iff in L. apply negb_true_iff in U.
  assert (U' : (u < 1)%Q).
  { apply Qnot_le_lt. intros C. apply Qle_bool_iff in C. congruence. }
  unfold uniform. split; intros Hb; split; nra.
Qed.

(** X14. Under the samplers' ranges the discount of an order is either
    the integer 0 or a two-decimal amount between 0 and 30% of the unit
    price rounded to cents; for a negative unit price the bounds swap
    and the discount is not positive. *)
Theorem ecommerce_discount_bounds (n i : nat) (o : nat -> Ecommerce.draws) :
  (i < n)%nat -> Ecommerce.valid (o i) = true ->
  exists price,
    get "Preco_Unitario" (nth i (Ecommerce.data n o) []) = Some (VNum (PyFloat price)) /\
    (get "Desconto" (nth i (Ecommerce.data n o) []) = Some (VNum (PyInt 0)) \/
     exists discount,
       get "Desconto" (nth i (Ecommerce.data n o) []) = Some (VNum (PyFloat discount)) /\
       ((0 <= price)%Q ->
          (0 <= discount)%Q /\ (discount <= round_float (price * (3 # 10)) 2)%Q) /\
       ((price <= 0)%Q ->
          (round_float (price * (3 # 10)) 2 <= discount)%Q /\ (discount <= 0)%Q)).
Proof.
  intros Hi Hv. rewrite ecommerce_data, nth_map_seq by exact Hi.
  unfold Ecommerce.valid in Hv. split_valid Hv.
  exists (round_float (Ecommerce.unit_price_normal (o i)) 2).
  split; [reflexivity|].
  unfold Ecommerce.row_of.
  destruct (Qgtb (Ecommerce.discount_gate (o i)) (7 # 10)); [right | left; reflexivity].
  set (price := round_float (Ecommerce.unit_price_normal (o i)) 2).
  exists (round_float (uniform 0 (price * (3 # 10)) (Ecommerce.discount_u (o i))) 2).
  split; [reflexivity|].
  match goal with
  | V : unit_interval (Ecommerce.discount_u (o i)) = true |- _ =>
      destruct (uniform_from_zero (price * (3 # 10)) _ V) as [P N]
  end.
  split; intros Hp.
  - destruct P as [P0 P1]; [nra|]. split.
    + apply round_float_nonneg. exact P0.
    + apply round_float_mono. exact P1.
  - destruct N as [N0 N1]; [nra|]. split.
    + apply round_float_mono. exact N0.
    + apply (round_float_le _ 2 0). exact N1.
Qed.

Lemma ecommerce_discount_bounds_witness :
  (2 < 3)%nat /\ Ecommerce.valid (Samples.ecommerce 2) = true /\
  exists price,
    get "Preco_Unitario" (nth 2 (Ecommerce.data 3 Samples.ecommerce) [])
    = Some (VNum (PyFloat price)) /\
    (get "Desconto" (nth 2 (Ecommerce.data 3 Samples.ecommerce) []) = Some (VNum (PyInt 0)) \/
     exists discount,
       get "Desconto" (nth 2 (Ecommerce.data 3 Samples.ecommerce) [])
       = Some (VNum (PyFloat discount)) /\
       ((0 <= price)%Q ->
          (0 <= discount)%Q /\ (discount <= round_float (price * (3 # 10)) 2)%Q) /\
       ((price <= 0)%Q ->
          (round_float (price * (3 # 10)) 2 <= discount)%Q /\ (discount <= 0)%Q)).
Proof.
  split; [lia|]. split; [reflexivity|].
  apply (ecommerce_discount_bounds 3 2 Samples.ecommerce); [lia | reflexivity].
Defined.

Example ecommerce_discount_sample :
  map (get "Desconto") (Ecommerce.data 3 Samples.ecommerce)
  = [Some (VNum (PyInt 0)); Some (VNum (PyInt 0)); Some (VNum (PyFloat (2000 # 100)))].
Proof. vm_compute. reflexivity. Qed.
